(** * hid-rmi: the RMI4-over-HID register engine, PDT scan and attention decoder

    A shallow embedding of [hid-rmi.c].  The driver context [struct rmi_data]
    is a record, the HID transport underneath it is an explicit world
    (what the low-level send calls return, which reports arrive while the
    reader waits, what was handed to the wire and to the input layer), and
    every driver function is a state-passing function over that world.

    Conventions.
    - C integers are [Z].  Conversions to a fixed width are written out
      ([u8], [u16], [u32], [int32]) where the source converts.
    - A [u8 *] buffer is a [list Z]; a load converts the cell to [u8].
    - The inbound path (reports handed to [rmi_raw_event]) reads the report
      it is given through [load_chk], which fails outside the report. *)

From Stdlib Require Import ZArith List Bool Lia.
Import ListNotations.
Local Open Scope Z_scope.

(** ** Fixed-width integers *)

Definition u8 (z : Z) : Z := z mod 256.
Definition u16 (z : Z) : Z := z mod 65536.
Definition u32 (z : Z) : Z := z mod 4294967296.
(** Conversion to [int] (two's complement, as the kernel is built). *)
Definition int32 (z : Z) : Z := (z + 2147483648) mod 4294967296 - 2147483648.

Definition INT_MAX : Z := 2147483647.

(** [BIT(n)] of <linux/bitops.h>. *)
Definition BIT (n : Z) : Z := Z.shiftl 1 n.

(** [set_bit], [clear_bit], [test_bit]: the first argument is a bit number. *)
Definition set_bit (nr : Z) (w : Z) : Z := Z.lor w (Z.shiftl 1 nr).
Definition clear_bit (nr : Z) (w : Z) : Z := Z.ldiff w (Z.shiftl 1 nr).
Definition test_bit (nr : Z) (w : Z) : bool := Z.testbit w nr.

(** [DIV_ROUND_UP(n, d)] of <linux/kernel.h>: [((n) + (d) - 1) / (d)]. *)
Definition DIV_ROUND_UP (n d : Z) : Z := (n + d - 1) / d.
(** [DIV_ROUND_CLOSEST(x, d)] of <linux/kernel.h> on unsigned operands. *)
Definition DIV_ROUND_CLOSEST (x d : Z) : Z := (x + d / 2) / d.

(** [GENMASK(h, l)] as [compat.h] defines it, on 32-bit unsigned operands. *)
Definition GENMASK (h l : Z) : Z :=
  u32 (Z.shiftl (u32 (u32 (Z.shiftl 1 (u32 (h - l + 1))) - 1)) l).

(** ** Buffers *)

(** [p[i]] on a [u8 *] that the driver owns. *)
Definition load (p : list Z) (i : Z) : Z := u8 (nth (Z.to_nat i) p 0).

(** [p[i]] on a report handed in by the HID core: no cell outside it. *)
Definition load_chk (p : list Z) (i : Z) : option Z :=
  if i <? 0 then None else option_map u8 (nth_error p (Z.to_nat i)).

(** [p[i] = v]; a store outside the buffer is outside the model and leaves
    the buffer as it is. *)
Fixpoint store_nat (i : nat) (v : Z) (p : list Z) : list Z :=
  match p, i with
  | [], _ => []
  | _ :: t, O => v :: t
  | h :: t, S k => h :: store_nat k v t
  end.
Definition store (i : Z) (v : Z) (p : list Z) : list Z :=
  store_nat (Z.to_nat i) (u8 v) p.

(** Overwrite [dst] from offset [off] on with the cells of [src], stopping
    at the end of [dst]. *)
Definition blit (src : list Z) (off : nat) (dst : list Z) : list Z :=
  firstn off dst ++ firstn (length dst - off) src ++ skipn (off + length src) dst.

(** [memcpy(dst + doff, src + soff, n)].  Cells past the end of [src] are
    outside the model: the copy stops there. *)
Definition memcpy (dst : list Z) (doff : Z) (src : list Z) (soff n : Z) : list Z :=
  blit (firstn (Z.to_nat n) (skipn (Z.to_nat soff) src)) (Z.to_nat doff) dst.

(** ** Protocol constants *)

Definition RMI_MOUSE_REPORT_ID : Z := 0x01.
Definition RMI_WRITE_REPORT_ID : Z := 0x09.
Definition RMI_READ_ADDR_REPORT_ID : Z := 0x0a.
Definition RMI_READ_DATA_REPORT_ID : Z := 0x0b.
Definition RMI_ATTN_REPORT_ID : Z := 0x0c.
Definition RMI_SET_RMI_MODE_REPORT_ID : Z := 0x0f.

(** The flag names are defined with [BIT] and then used as bit numbers. *)
Definition RMI_READ_REQUEST_PENDING : Z := BIT 0.
Definition RMI_READ_DATA_PENDING : Z := BIT 1.
Definition RMI_STARTED : Z := BIT 2.

Definition RMI_MODE_OFF : Z := 0.
Definition RMI_MODE_ATTN_REPORTS : Z := 1.
Definition RMI_MODE_NO_PACKED_ATTN_REPORTS : Z := 2.

Definition EAGAIN : Z := 11.
Definition ENODEV : Z := 19.

Definition RMI_PAGE (addr : Z) : Z := Z.land (Z.shiftr addr 8) 0xff.

(** ** The driver context *)

Record rmi_function := Build_rmi_function {
  f_page : Z;
  query_base_addr : Z;
  command_base_addr : Z;
  control_base_addr : Z;
  data_base_addr : Z;
  interrupt_base : Z;
  interrupt_count : Z;
  report_size : Z;
  irq_mask : Z
}.

Record rmi_data := Build_rmi_data {
  page : Z;
  writeReport : list Z;
  readReport : list Z;
  input_report_size : Z;
  output_report_size : Z;
  flags : Z;
  f11 : rmi_function;
  f30 : rmi_function;
  max_fingers : Z;
  max_x : Z;
  max_y : Z;
  x_size_mm : Z;
  y_size_mm : Z;
  gpio_led_count : Z;
  button_count : Z;
  button_mask : Z;
  button_state_mask : Z
}.

Definition with_page (v : Z) (d : rmi_data) : rmi_data :=
  Build_rmi_data v (writeReport d) (readReport d) (input_report_size d)
    (output_report_size d) (flags d) (f11 d) (f30 d) (max_fingers d) (max_x d)
    (max_y d) (x_size_mm d) (y_size_mm d) (gpio_led_count d) (button_count d)
    (button_mask d) (button_state_mask d).
Definition with_writeReport (v : list Z) (d : rmi_data) : rmi_data :=
  Build_rmi_data (page d) v (readReport d) (input_report_size d)
    (output_report_size d) (flags d) (f11 d) (f30 d) (max_fingers d) (max_x d)
    (max_y d) (x_size_mm d) (y_size_mm d) (gpio_led_count d) (button_count d)
    (button_mask d) (button_state_mask d).
Definition with_readReport (v : list Z) (d : rmi_data) : rmi_data :=
  Build_rmi_data (page d) (writeReport d) v (input_report_size d)
    (output_report_size d) (flags d) (f11 d) (f30 d) (max_fingers d) (max_x d)
    (max_y d) (x_size_mm d) (y_size_mm d) (gpio_led_count d) (button_count d)
    (button_mask d) (button_state_mask d).
Definition with_flags (v : Z) (d : rmi_data) : rmi_data :=
  Build_rmi_data (page d) (writeReport d) (readReport d) (input_report_size d)
    (output_report_size d) v (f11 d) (f30 d) (max_fingers d) (max_x d)
    (max_y d) (x_size_mm d) (y_size_mm d) (gpio_led_count d) (button_count d)
    (button_mask d) (button_state_mask d).
Definition with_f11 (v : rmi_function) (d : rmi_data) : rmi_data :=
  Build_rmi_data (page d) (writeReport d) (readReport d) (input_report_size d)
    (output_report_size d) (flags d) v (f30 d) (max_fingers d) (max_x d)
    (max_y d) (x_size_mm d) (y_size_mm d) (gpio_led_count d) (button_count d)
    (button_mask d) (button_state_mask d).
Definition with_f30 (v : rmi_function) (d : rmi_data) : rmi_data :=
  Build_rmi_data (page d) (writeReport d) (readReport d) (input_report_size d)
    (output_report_size d) (flags d) (f11 d) v (max_fingers d) (max_x d)
    (max_y d) (x_size_mm d) (y_size_mm d) (gpio_led_count d) (button_count d)
    (button_mask d) (button_state_mask d).
Definition with_max_fingers (v : Z) (d : rmi_data) : rmi_data :=
  Build_rmi_data (page d) (writeReport d) (readReport d) (input_report_size d)
    (output_report_size d) (flags d) (f11 d) (f30 d) v (max_x d)
    (max_y d) (x_size_mm d) (y_size_mm d) (gpio_led_count d) (button_count d)
    (button_mask d) (button_state_mask d).
Definition with_max_xy (vx vy : Z) (d : rmi_data) : rmi_data :=
  Build_rmi_data (page d) (writeReport d) (readReport d) (input_report_size d)
    (output_report_size d) (flags d) (f11 d) (f30 d) (max_fingers d) vx
    vy (x_size_mm d) (y_size_mm d) (gpio_led_count d) (button_count d)
    (button_mask d) (button_state_mask d).
Definition with_size_mm (vx vy : Z) (d : rmi_data) : rmi_data :=
  Build_rmi_data (page d) (writeReport d) (readReport d) (input_report_size d)
    (output_report_size d) (flags d) (f11 d) (f30 d) (max_fingers d) (max_x d)
    (max_y d) vx vy (gpio_led_count d) (button_count d)
    (button_mask d) (button_state_mask d).

Definition with_gpio_led_count (v : Z) (d : rmi_data) : rmi_data :=
  Build_rmi_data (page d) (writeReport d) (readReport d) (input_report_size d)
    (output_report_size d) (flags d) (f11 d) (f30 d) (max_fingers d) (max_x d)
    (max_y d) (x_size_mm d) (y_size_mm d) v (button_count d)
    (button_mask d) (button_state_mask d).
Definition with_buttons (count mask state_mask : Z) (d : rmi_data) : rmi_data :=
  Build_rmi_data (page d) (writeReport d) (readReport d) (input_report_size d)
    (output_report_size d) (flags d) (f11 d) (f30 d) (max_fingers d) (max_x d)
    (max_y d) (x_size_mm d) (y_size_mm d) (gpio_led_count d) count
    mask state_mask.

Definition with_report_size (v : Z) (f : rmi_function) : rmi_function :=
  Build_rmi_function (f_page f) (query_base_addr f) (command_base_addr f)
    (control_base_addr f) (data_base_addr f) (interrupt_base f)
    (interrupt_count f) v (irq_mask f).

(** ** The HID device: the driver context and the transport under it *)

(** What the input layer is told. *)
Inductive input_ev :=
| Ev_mt_slot (slot : Z)                        (* input_mt_slot *)
| Ev_mt_slot_state (active : bool)             (* input_mt_report_slot_state, MT_TOOL_FINGER *)
| Ev_abs (code : Z) (value : Z)                (* input_event(EV_ABS, code, value) *)
| Ev_key (code : Z) (value : bool)             (* input_event(EV_KEY, code, value) *)
| Ev_mt_sync_frame                             (* input_mt_sync_frame *)
| Ev_sync.                                     (* input_sync *)

(** [struct hid_device] as the driver sees it.
    - [hw_output_ret k] is what the [k]-th [hid_hw_output_report] call
      returns and [hw_request_ret k] what the [k]-th [hid_hw_raw_request]
      call returns ([k] counts the calls made so far);
    - [inbound] is what the reader meets, in order, each time it has to
      sleep in [wait_event_timeout]: [Some r] is a read-data report [r]
      arriving before the timeout, [None] is the timeout elapsing; once the
      list is used up nothing arrives any more.  Reports of another kind
      that the HID core hands in are not part of this queue: they are
      events of their own, run by [rmi_raw_event] and [raw_events];
    - [out_log] and [feature_log] are the reports handed to the transport,
      oldest first; [input_log] is what was reported to the input device;
    - [reset_work_pending] is the state of [reset_work] on the kernel
      work queue. *)
Record hid_device := Build_hid_device {
  drvdata : rmi_data;
  hw_output_ret : nat -> Z;
  hw_request_ret : nat -> Z;
  inbound : list (option (list Z));
  out_log : list (list Z);
  feature_log : list (list Z);
  input_log : list input_ev;
  reset_work_pending : bool
}.

Definition with_drvdata (v : rmi_data) (h : hid_device) : hid_device :=
  Build_hid_device v (hw_output_ret h) (hw_request_ret h) (inbound h)
    (out_log h) (feature_log h) (input_log h) (reset_work_pending h).
Definition with_inbound (v : list (option (list Z))) (h : hid_device) : hid_device :=
  Build_hid_device (drvdata h) (hw_output_ret h) (hw_request_ret h) v
    (out_log h) (feature_log h) (input_log h) (reset_work_pending h).
Definition with_out_log (v : list (list Z)) (h : hid_device) : hid_device :=
  Build_hid_device (drvdata h) (hw_output_ret h) (hw_request_ret h) (inbound h)
    v (feature_log h) (input_log h) (reset_work_pending h).
Definition with_feature_log (v : list (list Z)) (h : hid_device) : hid_device :=
  Build_hid_device (drvdata h) (hw_output_ret h) (hw_request_ret h) (inbound h)
    (out_log h) v (input_log h) (reset_work_pending h).
Definition with_input_log (v : list input_ev) (h : hid_device) : hid_device :=
  Build_hid_device (drvdata h) (hw_output_ret h) (hw_request_ret h) (inbound h)
    (out_log h) (feature_log h) v (reset_work_pending h).
Definition with_reset_work_pending (v : bool) (h : hid_device) : hid_device :=
  Build_hid_device (drvdata h) (hw_output_ret h) (hw_request_ret h) (inbound h)
    (out_log h) (feature_log h) (input_log h) v.

(** Update of the driver context in place. *)
Definition upd (f : rmi_data -> rmi_data) (h : hid_device) : hid_device :=
  with_drvdata (f (drvdata h)) h.

(** *** Transport primitives *)

(** [hid_hw_output_report(hdev, report, len)]. *)
Definition hid_hw_output_report (report : list Z) (len : Z) (h : hid_device)
  : Z * hid_device :=
  (hw_output_ret h (length (out_log h)),
   with_out_log (out_log h ++ [firstn (Z.to_nat len) report]) h).

(** [hid_hw_raw_request(hdev, reportnum, buf, len, HID_FEATURE_REPORT,
    HID_REQ_SET_REPORT)]. *)
Definition hid_hw_raw_request (buf : list Z) (h : hid_device) : Z * hid_device :=
  (hw_request_ret h (length (feature_log h)),
   with_feature_log (feature_log h ++ [buf]) h).

(** [schedule_work(&hdata->reset_work)]: queue the work unless it is queued
    already; the return value says whether it was queued by this call. *)
Definition schedule_work (h : hid_device) : bool * hid_device :=
  (negb (reset_work_pending h), with_reset_work_pending true h).

(** ** Register protocol engine *)

Definition rmi_write_report (report : list Z) (len : Z) (h : hid_device)
  : Z * hid_device :=
  let '(ret, h) := hid_hw_output_report report len h in
  if ret <? 0 then (ret, h) else (ret, h).

(** [rmi_set_page(hdev, page)]; [page] is a [u8]. *)
Definition rmi_set_page (pg : Z) (h : hid_device) : Z * hid_device :=
  let pg := u8 pg in
  let h := upd (fun d => with_writeReport
              (store 4 pg
                (store 2 0xFF
                  (store 1 1
                    (store 0 RMI_WRITE_REPORT_ID (writeReport d))))) d) h in
  let '(retval, h) :=
    rmi_write_report (writeReport (drvdata h)) (output_report_size (drvdata h)) h in
  if negb (retval =? output_report_size (drvdata h)) then (retval, h)
  else (0, upd (with_page pg) h).

Definition rmi_set_mode (mode : Z) (h : hid_device) : Z * hid_device :=
  let txbuf := [RMI_SET_RMI_MODE_REPORT_ID; u8 mode] in
  let '(ret, h) := hid_hw_raw_request txbuf h in
  if ret <? 0 then (ret, h) else (0, h).

(** [rmi_read_data_event]: the completion side of a read. *)
Definition rmi_read_data_event (data : list Z) (size : Z) (h : hid_device)
  : Z * hid_device :=
  let hdata := drvdata h in
  if negb (test_bit RMI_READ_REQUEST_PENDING (flags hdata)) then (0, h)
  else
    let n := if size <? input_report_size hdata then size
             else input_report_size hdata in
    let h := upd (fun d => with_readReport (memcpy (readReport d) 0 data 0 n) d) h in
    let h := upd (fun d => with_flags (set_bit RMI_READ_DATA_PENDING (flags d)) d) h in
    (* wake_up(&hdata->wait) *)
    (1, h).

(** [wait_event_timeout(data->wait, test_bit(RMI_READ_DATA_PENDING, ...),
    msecs_to_jiffies(1000))]: returns at once when the condition holds,
    otherwise sleeps; each report that arrives runs [rmi_read_data_event] and
    the condition is looked at again; the result is [false] on timeout.
    [rmi_read_data_event] is what [rmi_raw_event] runs on a read-data
    report, the only kind of delivery [inbound] stands for; on a queue of
    such deliveries ([read_data_delivery]) this is the wait with every
    report dispatched by [rmi_raw_event] ([wait_event_dispatch],
    [wait_event_dispatch_read_data]), and [rmi_read_block] is the read
    over that wait ([rmi_read_block_dispatch_read_data]). *)
Fixpoint wait_event (script : list (option (list Z))) (h : hid_device)
  : bool * hid_device :=
  if test_bit RMI_READ_DATA_PENDING (flags (drvdata h))
  then (true, with_inbound script h)
  else
    match script with
    | [] => (false, with_inbound [] h)
    | None :: rest => (false, with_inbound rest h)
    | Some r :: rest =>
        wait_event rest (snd (rmi_read_data_event r (Z.of_nat (length r)) h))
    end.

Definition wait_event_timeout (h : hid_device) : bool * hid_device :=
  wait_event (inbound h) h.

(** The [while (bytes_read < len)] loop of [rmi_read_block].  A pass that
    does not end the loop consumes an entry of [inbound], except a first
    one that finds data pending already, so the loop makes at most
    [length inbound + 2] passes; [fuel] is that bound ([read_loop_fuel]
    shows more fuel changes nothing). *)
Fixpoint read_data_loop (fuel : nat) (len bytes_read bytes_needed ret : Z)
    (buf : list Z) (h : hid_device) : Z * list Z * hid_device :=
  match fuel with
  | O => (ret, buf, h)
  | S fuel =>
      if bytes_read <? len then
        let '(woken, h) := wait_event_timeout h in
        if negb woken then (- EAGAIN, buf, h)
        else
          let read_input_count := load (readReport (drvdata h)) 1 in
          let buf := memcpy buf bytes_read (readReport (drvdata h)) 2
                       (if read_input_count <? bytes_needed
                        then read_input_count else bytes_needed) in
          let bytes_read := int32 (bytes_read + read_input_count) in
          let bytes_needed := int32 (bytes_needed - read_input_count) in
          let h := upd (fun d => with_flags
                      (clear_bit RMI_READ_DATA_PENDING (flags d)) d) h in
          read_data_loop fuel len bytes_read bytes_needed ret buf h
      else (ret, buf, h)
  end.

(** Lines 214-224: fill in the read request, mark it pending, send it. *)
Definition send_read_request (addr len : Z) (h : hid_device) : Z * hid_device :=
  let h := upd (fun d => with_writeReport
              (store 5 (Z.land (Z.shiftr len 8) 0xFF)
                (store 4 (Z.land len 0xFF)
                  (store 3 (Z.land (Z.shiftr addr 8) 0xFF)
                    (store 2 (Z.land addr 0xFF)
                      (store 1 0
                        (store 0 RMI_READ_ADDR_REPORT_ID
                           (writeReport d))))))) d) h in
  let h := upd (fun d => with_flags
              (set_bit RMI_READ_REQUEST_PENDING (flags d)) d) h in
  rmi_write_report (writeReport (drvdata h)) (output_report_size (drvdata h)) h.

(** The [for (retries = 5; retries > 0; retries--)] loop.  The result is
    [(ret, buf, h)] at label [exit]. *)
Fixpoint read_retry_loop (retries : nat) (addr len ret : Z) (buf : list Z)
    (h : hid_device) : Z * list Z * hid_device :=
  match retries with
  | O => (ret, buf, h)
  | S retries =>
      let '(ret, h) := send_read_request addr len h in
      if negb (ret =? output_report_size (drvdata h)) then
        let h := upd (fun d => with_flags
                    (clear_bit RMI_READ_REQUEST_PENDING (flags d)) d) h in
        (ret, buf, h)
      else
        let '(ret, buf, h) :=
          read_data_loop (length (inbound h) + 2) len 0 len ret buf h in
        if ret >=? 0 then (0, buf, h)
        else read_retry_loop retries addr len ret buf h
  end.

(** [rmi_read_block(hdev, addr, buf, len)]; [addr] is a [u16], [len] an
    [int].  The model is sequential: [page_mutex] is held throughout. *)
Definition rmi_read_block (addr : Z) (buf : list Z) (len : Z) (h : hid_device)
  : Z * list Z * hid_device :=
  let addr := u16 addr in
  let '(ret, buf, h) :=
    if negb (RMI_PAGE addr =? page (drvdata h)) then
      let '(ret, h) := rmi_set_page (RMI_PAGE addr) h in
      if ret <? 0 then (ret, buf, h)
      else read_retry_loop 5 addr len ret buf h
    else read_retry_loop 5 addr len 0 buf h in
  (* exit: *)
  let h := upd (fun d => with_flags
              (clear_bit RMI_READ_REQUEST_PENDING (flags d)) d) h in
  (ret, buf, h).

Definition rmi_read (addr : Z) (buf : list Z) (h : hid_device)
  : Z * list Z * hid_device :=
  rmi_read_block addr buf 1 h.

(** ** The inbound path: a state and fault monad

    Code that runs on a report handed in by the HID core threads the device
    and may touch a cell the report does not have; [None] is that fault. *)

Definition M (A : Type) : Type := hid_device -> option (A * hid_device).

Definition mret {A} (a : A) : M A := fun h => Some (a, h).
Definition mbind {A B} (m : M A) (k : A -> M B) : M B :=
  fun h => match m h with
           | Some (a, h') => k a h'
           | None => None
           end.

Declare Scope rmi_scope.
Delimit Scope rmi_scope with rmi.
Notation "x <- m ;; k" := (mbind m (fun x => k))
  (at level 61, m at next level, right associativity) : rmi_scope.
Notation "m ;;; k" := (mbind m (fun _ => k))
  (at level 61, right associativity) : rmi_scope.
Local Open Scope rmi_scope.

Definition hdata_of : M rmi_data := fun h => Some (drvdata h, h).
Definition ld (p : list Z) (i : Z) : M Z :=
  fun h => option_map (fun v => (v, h)) (load_chk p i).
Definition emit (e : input_ev) : M unit :=
  fun h => Some (tt, with_input_log (input_log h ++ [e]) h).
Definition lift {A} (f : hid_device -> A * hid_device) : M A :=
  fun h => Some (f h).

(** [for (i = i0; i < i0 + n; i++) acc = body(i, acc)]. *)
Fixpoint for_loop {A} (n : nat) (i : Z) (body : Z -> A -> M A) (acc : A) : M A :=
  match n with
  | O => mret acc
  | S n => acc <- body i acc ;; for_loop n (i + 1) body acc
  end.

(** Event codes of <linux/input.h>. *)
Definition ABS_MT_TOUCH_MAJOR : Z := 0x30.
Definition ABS_MT_TOUCH_MINOR : Z := 0x31.
Definition ABS_MT_ORIENTATION : Z := 0x34.
Definition ABS_MT_POSITION_X : Z := 0x35.
Definition ABS_MT_POSITION_Y : Z := 0x36.
Definition ABS_MT_PRESSURE : Z := 0x3a.
Definition BTN_LEFT : Z := 0x110.

(** ** Attention report decoder *)

(** [touch_data] is the report from [&data[offset + 5 * i]] to its end. *)
Definition rmi_f11_process_touch (slot : Z) (finger_state : Z)
    (touch_data : list Z) : M unit :=
  hdata <- hdata_of ;;
  emit (Ev_mt_slot slot) ;;;
  emit (Ev_mt_slot_state (finger_state =? 0x01)) ;;;
  if finger_state =? 0x01 then
    t0 <- ld touch_data 0 ;;
    t1 <- ld touch_data 1 ;;
    t2 <- ld touch_data 2 ;;
    t3 <- ld touch_data 3 ;;
    t4 <- ld touch_data 4 ;;
    let x := Z.lor (Z.shiftl t0 4) (Z.land t2 0x07) in
    let y := Z.lor (Z.shiftl t1 4) (Z.shiftr t2 4) in
    let wx := Z.land t3 0x07 in
    let wy := Z.shiftr t3 4 in
    let wide := if wx >? wy then 1 else 0 in
    let major := Z.max wx wy in
    let minor := Z.min wx wy in
    let z := t4 in
    (* y is inverted *)
    let y := int32 (max_y hdata - y) in
    emit (Ev_abs ABS_MT_POSITION_X x) ;;;
    emit (Ev_abs ABS_MT_POSITION_Y y) ;;;
    emit (Ev_abs ABS_MT_ORIENTATION wide) ;;;
    emit (Ev_abs ABS_MT_PRESSURE z) ;;;
    emit (Ev_abs ABS_MT_TOUCH_MAJOR major) ;;;
    emit (Ev_abs ABS_MT_TOUCH_MINOR minor)
  else mret tt.

(** Where [rmi_f11_input_event] places the first finger's data block. *)
Definition f11_data_offset (max_fingers : Z) : Z := Z.shiftr max_fingers 2 + 1.

(** [data] is the report from [&data[index]] on, [size] what the caller
    computed as its length. *)
Definition rmi_f11_input_event (irq : Z) (data : list Z) (size : Z) : M Z :=
  hdata <- hdata_of ;;
  (* int against unsigned int: compared as unsigned *)
  if u32 size <? report_size (f11 hdata) then mret 0
  else if Z.land irq (irq_mask (f11 hdata)) =? 0 then mret 0
  else
    let offset := f11_data_offset (max_fingers hdata) in
    for_loop (Z.to_nat (max_fingers hdata)) 0
      (fun i _ =>
         let fs_byte_position := Z.shiftr i 2 in
         let fs_bit_position := Z.shiftl (Z.land i 0x3) 1 in
         b <- ld data fs_byte_position ;;
         let finger_state := Z.land (Z.shiftr b fs_bit_position) 0x03 in
         rmi_f11_process_touch i finger_state
           (skipn (Z.to_nat (offset + 5 * i)) data)) tt ;;;
    emit Ev_mt_sync_frame ;;;
    emit Ev_sync ;;;
    mret (int32 (report_size (f11 hdata))).

Definition rmi_f30_input_event (irq : Z) (data : list Z) (size : Z) : M Z :=
  hdata <- hdata_of ;;
  if Z.land irq (irq_mask (f30 hdata)) =? 0 then mret 0
  else
    for_loop (Z.to_nat (gpio_led_count hdata)) 0
      (fun i button =>
         if test_bit i (button_mask hdata) then
           b <- ld data (i / 8) ;;
           let value := negb (Z.land (Z.shiftr b (Z.land i 0x07)) (BIT 0) =? 0) in
           let value := if test_bit i (button_state_mask hdata)
                        then negb value else value in
           emit (Ev_key (BTN_LEFT + button) value) ;;;
           mret (button + 1)
         else mret button) 0 ;;;
    mret (int32 (report_size (f30 hdata))).

Definition rmi_input_event (data : list Z) (size : Z) : M Z :=
  hdata <- hdata_of ;;
  let index := 2 in
  if negb (test_bit RMI_STARTED (flags hdata)) then mret 0
  else
    (* data[1] & ~irq_mask is only reported with hid_warn *)
    irq <- ld data 1 ;;
    if interrupt_base (f11 hdata) <? interrupt_base (f30 hdata) then
      n <- rmi_f11_input_event irq (skipn (Z.to_nat index) data)
             (int32 (size - index)) ;;
      let index := u32 (index + n) in
      n <- rmi_f30_input_event irq (skipn (Z.to_nat index) data)
             (int32 (size - index)) ;;
      mret 1
    else
      n <- rmi_f30_input_event irq (skipn (Z.to_nat index) data)
             (int32 (size - index)) ;;
      let index := u32 (index + n) in
      n <- rmi_f11_input_event irq (skipn (Z.to_nat index) data)
             (int32 (size - index)) ;;
      mret 1.

(** ** Mode controller *)

(** The work function: runs on the kernel work queue, not in the caller. *)
Definition rmi_reset_work (h : hid_device) : hid_device :=
  snd (rmi_set_mode RMI_MODE_ATTN_REPORTS h).

Definition rmi_schedule_reset (h : hid_device) : bool * hid_device :=
  schedule_work h.

(** The kernel worker: takes [reset_work] off the queue and runs it. *)
Definition run_work_queue (h : hid_device) : hid_device :=
  if reset_work_pending h
  then rmi_reset_work (with_reset_work_pending false h)
  else h.

Definition rmi_raw_event (data : list Z) (size : Z) : M Z :=
  id <- ld data 0 ;;
  if id =? RMI_READ_DATA_REPORT_ID then lift (rmi_read_data_event data size)
  else if id =? RMI_ATTN_REPORT_ID then rmi_input_event data size
  else if id =? RMI_MOUSE_REPORT_ID then
    d1 <- ld data 1 ;;
    (if d1 =? 0 then lift rmi_schedule_reset ;;; mret 0
     else mret 0)
  else mret 0.

Definition rmi_post_reset (h : hid_device) : Z * hid_device :=
  rmi_set_mode RMI_MODE_ATTN_REPORTS h.

Definition rmi_post_resume (h : hid_device) : Z * hid_device :=
  rmi_set_mode RMI_MODE_ATTN_REPORTS h.

(** ** PDT scanner *)

Definition RMI4_MAX_PAGE : Z := 0xff.
Definition RMI4_PAGE_SIZE : Z := 0x0100.
Definition PDT_START_SCAN_LOCATION : Z := 0x00e9.
Definition PDT_END_SCAN_LOCATION : Z := 0x0005.
Definition RMI4_END_OF_PDT (id : Z) : bool := (id =? 0x00) || (id =? 0xff).

(** [struct pdt_entry] is packed: six bytes, overlaid on the buffer the
    entry was read into; the bit fields of the fifth byte are allocated
    from its low end. *)
Definition sizeof_pdt_entry : Z := 6.
Definition pdt_query_base_addr (e : list Z) : Z := load e 0.
Definition pdt_command_base_addr (e : list Z) : Z := load e 1.
Definition pdt_control_base_addr (e : list Z) : Z := load e 2.
Definition pdt_data_base_addr (e : list Z) : Z := load e 3.
Definition interrupt_source_count (e : list Z) : Z := Z.land (load e 4) 0x07.
Definition function_version (e : list Z) : Z := Z.land (Z.shiftr (load e 4) 5) 0x03.
Definition function_number (e : list Z) : Z := load e 5.

Definition rmi_gen_mask (irq_base irq_count : Z) : Z :=
  GENMASK (u32 (irq_count + irq_base - 1)) irq_base.

Definition rmi_register_function (pdt_entry : list Z) (pg : Z)
    (interrupt_count : Z) (data : rmi_data) : rmi_data :=
  let page_base := u16 (Z.shiftl pg 8) in
  let fill (f : rmi_function) : rmi_function :=
    Build_rmi_function
      (u32 pg)
      (u16 (Z.lor page_base (pdt_query_base_addr pdt_entry)))
      (u16 (Z.lor page_base (pdt_command_base_addr pdt_entry)))
      (u16 (Z.lor page_base (pdt_control_base_addr pdt_entry)))
      (u16 (Z.lor page_base (pdt_data_base_addr pdt_entry)))
      (u32 interrupt_count)
      (interrupt_source_count pdt_entry)
      (report_size f)
      (rmi_gen_mask (u32 interrupt_count) (interrupt_source_count pdt_entry)) in
  if function_number pdt_entry =? 0x11 then with_f11 (fill (f11 data)) data
  else if function_number pdt_entry =? 0x30 then with_f30 (fill (f30 data)) data
  else data.

(** How the walk over one page ends: at [error_exit] with the failing
    read's result, or normally with the locals the outer loop goes on
    with. *)
Inductive pdt_flow :=
| Pdt_error (retval : Z)
| Pdt_done (page_has_function : bool) (interrupt : Z) (entry : list Z).

(** [for (i = pdt_start; i >= pdt_end; i -= sizeof(entry))].  [i] drops by
    six each pass, so [i - pdt_end + 1] passes are never used up
    ([pdt_entry_loop_fuel]). *)
Fixpoint pdt_entry_loop (fuel : nat) (i pdt_end pg : Z)
    (page_has_function : bool) (interrupt : Z) (entry : list Z)
    (h : hid_device) : pdt_flow * hid_device :=
  match fuel with
  | O => (Pdt_done page_has_function interrupt entry, h)
  | S fuel =>
      if i >=? pdt_end then
        let '(retval, entry, h) := rmi_read_block i entry sizeof_pdt_entry h in
        if negb (retval =? 0) then (Pdt_error retval, h)
        else if RMI4_END_OF_PDT (function_number entry)
        then (Pdt_done page_has_function interrupt entry, h)
        else
          let h := upd (rmi_register_function entry pg interrupt) h in
          pdt_entry_loop fuel (i - sizeof_pdt_entry) pdt_end pg true
            (interrupt + interrupt_source_count entry) entry h
      else (Pdt_done page_has_function interrupt entry, h)
  end.

(** [for (page = 0; page <= RMI4_MAX_PAGE; page++)], counted by the pages
    left; the last pass is the one that finds [page] past the limit
    ([pdt_page_loop_fuel]). *)
Fixpoint pdt_page_loop (pages : nat) (pg interrupt : Z) (entry : list Z)
    (h : hid_device) : Z * hid_device :=
  match pages with
  | O => (0, h)
  | S pages =>
      if pg <=? RMI4_MAX_PAGE then
        let page_start := u16 (RMI4_PAGE_SIZE * pg) in
        let pdt_start := u16 (page_start + PDT_START_SCAN_LOCATION) in
        let pdt_end := u16 (page_start + PDT_END_SCAN_LOCATION) in
        match pdt_entry_loop (Z.to_nat (pdt_start - pdt_end + 1))
                pdt_start pdt_end pg false interrupt entry h with
        | (Pdt_error retval, h) => (retval, h)
        | (Pdt_done page_has_function interrupt entry, h) =>
            if negb page_has_function then (0, h)
            else pdt_page_loop pages (pg + 1) interrupt entry h
        end
      else (0, h)
  end.

(** The local [entry] is not initialised; it is overwritten by the first
    read before anything looks at it. *)
Definition rmi_scan_pdt (h : hid_device) : Z * hid_device :=
  pdt_page_loop 257 0 0 (repeat 0 6) h.

(** ** F11 population *)

(** Lines 582-587: what query 1 gives. *)
Definition f11_max_fingers (q1 : Z) : Z :=
  let max_fingers := Z.land q1 0x07 + 1 in
  if max_fingers >? 5 then 10 else max_fingers.

Definition f11_report_size (max_fingers : Z) : Z :=
  max_fingers * 5 + DIV_ROUND_UP max_fingers 4.

Definition f11_query1 (q1 : Z) (data : rmi_data) : rmi_data :=
  let data := with_max_fingers (f11_max_fingers q1) data in
  with_f11 (with_report_size (f11_report_size (max_fingers data)) (f11 data)) data.

Definition flag (b : Z) (bit : Z) : bool := negb (Z.land b (BIT bit) =? 0).

Definition rmi_populate_f11 (h : hid_device) : Z * hid_device :=
  let buf := repeat 0 20 in
  let query_base := query_base_addr (f11 (drvdata h)) in
  if query_base =? 0 then (- ENODEV, h)
  else
    (* query 0 contains some useful information *)
    let '(ret, buf, h) := rmi_read query_base buf h in
    if negb (ret =? 0) then (ret, h)
    else
      let has_query9 := flag (load buf 0) 3 in
      let has_query11 := flag (load buf 0) 4 in
      let has_query12 := flag (load buf 0) 5 in
      (* query 1 to get the max number of fingers *)
      let '(ret, buf, h) := rmi_read (query_base + 1) buf h in
      if negb (ret =? 0) then (ret, h)
      else
        let h := upd (f11_query1 (load buf 0)) h in
        if negb (flag (load buf 0) 4) then (- ENODEV, h)
        else
          (* query 8 to find out if query 10 exists *)
          let '(ret, buf, h) := rmi_read (query_base + 8) buf h in
          if negb (ret =? 0) then (ret, h)
          else
            let has_query10 := flag (load buf 0) 2 in
            let query12_offset :=
              9 + (if has_query9 then 1 else 0) + (if has_query10 then 1 else 0)
                + (if has_query11 then 1 else 0) in
            let ctrl (buf : list Z) (h : hid_device) : Z * hid_device :=
              (* retrieve the ctrl registers *)
              let '(ret, buf, h) :=
                rmi_read_block (control_base_addr (f11 (drvdata h))) buf 20 h in
              if negb (ret =? 0) then (ret, h)
              else
                (0, upd (with_max_xy
                           (Z.lor (load buf 6) (Z.shiftl (load buf 7) 8))
                           (Z.lor (load buf 8) (Z.shiftl (load buf 9) 8))) h) in
            (* query 12 to know if the physical properties are reported *)
            if has_query12 then
              let '(ret, buf, h) := rmi_read (query_base + query12_offset) buf h in
              if negb (ret =? 0) then (ret, h)
              else
                let has_physical_props := flag (load buf 0) 5 in
                if has_physical_props then
                  let '(ret, buf, h) :=
                    rmi_read_block (query_base + query12_offset + 1) buf 4 h in
                  if negb (ret =? 0) then (ret, h)
                  else
                    let x_size := Z.lor (load buf 0) (Z.shiftl (load buf 1) 8) in
                    let y_size := Z.lor (load buf 2) (Z.shiftl (load buf 3) 8) in
                    let h := upd (with_size_mm (DIV_ROUND_CLOSEST x_size 10)
                                               (DIV_ROUND_CLOSEST y_size 10)) h in
                    ctrl buf h
                else ctrl buf h
            else ctrl buf h.

(** ** F30 population and attach *)

(** The loop over the GPIO positions at the end of [rmi_populate_f30]. *)
Fixpoint f30_button_loop (n : nat) (i : Z) (bytes_per_ctrl : Z) (buf : list Z)
    (data : rmi_data) : rmi_data :=
  match n with
  | O => data
  | S n =>
      let byte_position := Z.shiftr i 3 in
      let bit_position := Z.land i 0x07 in
      let dir_byte := load buf byte_position in
      let data_byte := load buf (byte_position + bytes_per_ctrl) in
      let dir := negb (Z.land (Z.shiftr dir_byte bit_position) (BIT 0) =? 0) in
      let dat := negb (Z.land (Z.shiftr data_byte bit_position) (BIT 0) =? 0) in
      let data :=
        if negb dir && dat then
          (* actual buttons have pull up resistor *)
          with_buttons (u32 (button_count data + 1))
            (set_bit i (button_mask data))
            (set_bit i (button_state_mask data)) data
        else data in
      f30_button_loop n (i + 1) bytes_per_ctrl buf data
  end.

Definition rmi_populate_f30 (h : hid_device) : Z * hid_device :=
  let buf := repeat 0 20 in
  (* function F30 is for physical buttons *)
  if query_base_addr (f30 (drvdata h)) =? 0 then (- ENODEV, h)
  else
    let '(ret, buf, h) :=
      rmi_read_block (query_base_addr (f30 (drvdata h))) buf 2 h in
    if negb (ret =? 0) then (ret, h)
    else
      let has_gpio := flag (load buf 0) 3 in
      let has_led := flag (load buf 0) 2 in
      let h := upd (with_gpio_led_count (Z.land (load buf 1) 0x1f)) h in
      (* retrieve ctrl 2 & 3 registers *)
      let bytes_per_ctrl := (gpio_led_count (drvdata h) + 7) / 8 in
      (* Ctrl0 is present only if both has_gpio and has_led are set *)
      let ctrl2_addr := u8 (if has_gpio && has_led then bytes_per_ctrl else 0) in
      (* Ctrl1 is always be present *)
      let ctrl2_addr := u8 (ctrl2_addr + bytes_per_ctrl) in
      let ctrl2_3_length := 2 * bytes_per_ctrl in
      let h := upd (fun d => with_f30 (with_report_size bytes_per_ctrl (f30 d)) d) h in
      let '(ret, buf, h) :=
        rmi_read_block (control_base_addr (f30 (drvdata h)) + ctrl2_addr)
          buf ctrl2_3_length h in
      if negb (ret =? 0) then (ret, h)
      else
        (0, upd (f30_button_loop (Z.to_nat (gpio_led_count (drvdata h))) 0
                   bytes_per_ctrl buf) h).

Definition rmi_populate (h : hid_device) : Z * hid_device :=
  let '(ret, h) := rmi_scan_pdt h in
  if negb (ret =? 0) then (ret, h)
  else
    let '(ret, h) := rmi_populate_f11 h in
    if negb (ret =? 0) then (ret, h)
    else
      let '(ret, h) := rmi_populate_f30 h in
      (* a failure of F30 is only reported with hid_warn *)
      (0, h).

(** [rmi_input_configured], from the mode switch on, with the transport
    opened; the registration of axes, slots and keys with the input layer
    is not part of the model. *)
Definition rmi_input_configured (h : hid_device) : hid_device :=
  let '(ret, h) := rmi_set_mode RMI_MODE_ATTN_REPORTS h in
  if ret <? 0 then h
  else
    let '(ret, h) := rmi_set_page 0 h in
    if ret <? 0 then h
    else
      let '(ret, h) := rmi_populate h in
      if negb (ret =? 0) then h
      else upd (fun d => with_flags (set_bit RMI_STARTED (flags d)) d) h.

(** ** Vocabulary of the statements *)

(** What the register engine reads but never writes: the report sizes and
    the transport's side of the device. *)
Definition transport_of (h : hid_device) :=
  (input_report_size (drvdata h), output_report_size (drvdata h),
   hw_output_ret h, hw_request_ret h,
   feature_log h, input_log h, reset_work_pending h).

(** What discovery and population fill in. *)
Definition tables_of (h : hid_device) :=
  let d := drvdata h in
  (f11 d, f30 d, max_fingers d, (max_x d, max_y d), (x_size_mm d, y_size_mm d),
   (gpio_led_count d, button_count d, button_mask d, button_state_mask d)).

(** A read-data report on the wire: identifier, byte count, payload. *)
Definition chunk_count (r : list Z) : Z := load r 1.
Definition chunk_payload (r : list Z) : list Z :=
  firstn (Z.to_nat (chunk_count r)) (skipn 2 r).
Definition chunks_total (cs : list (list Z)) : Z :=
  fold_right (fun r acc => chunk_count r + acc) 0 cs.
Definition chunks_payload (cs : list (list Z)) : list Z :=
  concat (map chunk_payload cs).

(** The report carries the bytes it announces and fits the input buffer. *)
Definition chunk_ok (input_report_size : Z) (r : list Z) : Prop :=
  2 + chunk_count r <= Z.of_nat (length r) /\
  2 + chunk_count r <= input_report_size.

(** The deliveries [cs] leave a read of [len] bytes unfinished. *)
Definition falls_short (len : Z) (cs : list (list Z)) : Prop :=
  chunks_total cs < len.

(** The deliveries [cs] finish a read of [len] bytes with their last
    report and not before. *)
Definition completes (len : Z) (cs : list (list Z)) : Prop :=
  (len <= 0 /\ cs = []) \/
  (exists cs' c, cs = cs' ++ [c] /\ falls_short len cs' /\
                 len <= chunks_total cs' + chunk_count c).

(** One attempt that times out: some deliveries that fall short, then the
    wait elapses. *)
Definition timed_out_attempt (cs : list (list Z)) : list (option (list Z)) :=
  map Some cs ++ [None].

(** The engine is idle, its two buffers have the sizes probing gave them
    (an output report holds the six bytes of a request), and from now on
    the transport sends every report whole. *)
Definition engine_ready (h : hid_device) : Prop :=
  test_bit RMI_READ_DATA_PENDING (flags (drvdata h)) = false /\
  Z.of_nat (length (readReport (drvdata h))) = input_report_size (drvdata h) /\
  Z.of_nat (length (writeReport (drvdata h))) = output_report_size (drvdata h) /\
  6 <= output_report_size (drvdata h) /\
  (forall k, (length (out_log h) <= k)%nat ->
             hw_output_ret h k = output_report_size (drvdata h)).

(** What a pass of the reader may change: the input buffer, the pending
    bits and how much of [inbound] is left. *)
Definition reader_step (h h' : hid_device) : Prop :=
  transport_of h' = transport_of h /\
  tables_of h' = tables_of h /\
  page (drvdata h') = page (drvdata h) /\
  writeReport (drvdata h') = writeReport (drvdata h) /\
  out_log h' = out_log h /\
  length (readReport (drvdata h')) = length (readReport (drvdata h)) /\
  test_bit RMI_READ_REQUEST_PENDING (flags (drvdata h')) =
    test_bit RMI_READ_REQUEST_PENDING (flags (drvdata h)) /\
  test_bit RMI_READ_DATA_PENDING (flags (drvdata h')) = false.

(** The read requests among the reports sent: which addresses were asked
    for, oldest first, and how many requests that makes. *)
Definition is_read_request (r : list Z) : bool :=
  load r 0 =? RMI_READ_ADDR_REPORT_ID.
Definition request_addr (r : list Z) : Z := load r 2 + 256 * load r 3.
Definition requested (log : list (list Z)) : list Z :=
  map request_addr (filter is_read_request log).
Definition read_requests (log : list (list Z)) : nat :=
  length (requested log).

(** The state in which the loop goes on after taking one delivered
    report. *)
Definition after_chunk (c : list Z) (rest : list (option (list Z)))
    (h : hid_device) : hid_device :=
  upd (fun d => with_flags (clear_bit RMI_READ_DATA_PENDING (flags d)) d)
    (with_inbound rest
       (upd (with_flags (set_bit RMI_READ_DATA_PENDING (flags (drvdata h))))
          (upd (with_readReport
                  (memcpy (readReport (drvdata h)) 0 c 0
                     (if Z.of_nat (length c) <? input_report_size (drvdata h)
                      then Z.of_nat (length c)
                      else input_report_size (drvdata h)))) h))).

(** An upper bound on the passes the reader's loop can still make. *)
Definition passes_left (h : hid_device) : nat :=
  (length (inbound h) +
   (if test_bit RMI_READ_DATA_PENDING (flags (drvdata h)) then 2 else 1))%nat.

(** ** Devices to run the driver on *)

(** The context as [rmi_probe] leaves it: zeroed by [devm_kzalloc], the
    two report buffers allocated with the sizes the HID descriptor gave. *)
Definition fresh_function : rmi_function :=
  Build_rmi_function 0 0 0 0 0 0 0 0 0.
Definition probed_data (input_size output_size : Z) : rmi_data :=
  Build_rmi_data 0 (repeat 0 (Z.to_nat output_size))
    (repeat 0 (Z.to_nat input_size)) input_size output_size 0
    fresh_function fresh_function 0 0 0 0 0 0 0 0 0.

(** A device on a transport that sends every report whole and on which
    the reader will meet [script]. *)
Definition bench_device (input_size output_size : Z)
    (script : list (option (list Z))) : hid_device :=
  Build_hid_device (probed_data input_size output_size)
    (fun _ => output_size) (fun _ => 0) script [] [] [] false.

(** The same device on a transport that fails every send with [-EIO]. *)
Definition dead_device (input_size output_size : Z) : hid_device :=
  Build_hid_device (probed_data input_size output_size)
    (fun _ => -5) (fun _ => -5) [] [] [] [] false.

(** A read-data report carrying [payload]. *)
Definition read_data_report (payload : list Z) : list Z :=
  RMI_READ_DATA_REPORT_ID :: Z.of_nat (length payload) :: payload.

(** A PDT entry as the device stores it. *)
Definition pdt_bytes (query command control data count fn : Z) : list Z :=
  [query; command; control; data; count; fn].

(** What a sensor with a touch function (one interrupt source) followed
    by a button function (one interrupt source, one GPIO wired as a
    button) answers during attach, each answer in one report: the three
    entries and the end of page 0, the empty page 1, F11 queries 0, 1
    ([query1]) and 8 and its control block ([max_x] 2000, [max_y] 1000),
    then the F30 queries and controls. *)
Definition sensor_script (query1 : Z) : list (option (list Z)) :=
  map (fun p => Some (read_data_report p))
    [ pdt_bytes 0x10 0x20 0x30 0x40 1 0x11;
      pdt_bytes 0x50 0x60 0x70 0x80 1 0x30;
      pdt_bytes 0 0 0 0 0 0;
      pdt_bytes 0 0 0 0 0 0;
      [0x00]; [query1]; [0x00];
      [0; 0; 0; 0; 0; 0; 0xd0; 0x07; 0xe8; 0x03; 0; 0; 0; 0; 0; 0; 0; 0; 0; 0];
      [0x08; 0x01];
      [0x00; 0x01] ].

(** The device after attach to that sensor. *)
Definition attached_sensor (query1 : Z) : hid_device :=
  rmi_input_configured (bench_device 32 8 (sensor_script query1)).

(** The layout of a finger's five bytes as documented: twelve bits of X
    from byte 0 and the low nibble of byte 2, two four-bit widths in
    byte 3. *)
Definition layout_x (touch_data : list Z) : Z :=
  Z.lor (Z.shiftl (load touch_data 0) 4) (Z.land (load touch_data 2) 0x0F).
Definition layout_wx (touch_data : list Z) : Z := Z.land (load touch_data 3) 0x0F.

(** The finger count and the touch report size a state carries are those
    query 1 gave. *)
Definition fingers_from (q1 : Z) (h : hid_device) : Prop :=
  max_fingers (drvdata h) = f11_max_fingers q1 /\
  report_size (f11 (drvdata h)) = f11_report_size (f11_max_fingers q1).

(** ** The device's page description table *)

(** A stored entry that describes a function, and one that ends a page. *)
Definition entry_ok (e : list Z) : Prop :=
  length e = 6%nat /\ RMI4_END_OF_PDT (function_number e) = false.
Definition sentinel_ok (t : list Z) : Prop :=
  length t = 6%nat /\ RMI4_END_OF_PDT (function_number t) = true.

(** A page that holds functions: its entries, downward from the start of
    the table, and the sentinel after them. *)
Definition page_ok (p : list (list Z) * list Z) : Prop :=
  fst p <> [] /\ (length (fst p) <= 38)%nat /\
  Forall entry_ok (fst p) /\ sentinel_ok (snd p).

(** What the reader meets while the scanner walks such pages, each entry
    answered in one report: the pages in order, and the sentinel [t] that
    opens the first page without functions, if there is such a page below
    the page limit. *)
Definition page_script (p : list (list Z) * list Z) : list (option (list Z)) :=
  map (fun e => Some (read_data_report e)) (fst p ++ [snd p]).
Definition pdt_script (pg : Z) (pages : list (list (list Z) * list Z))
    (t : list Z) : list (option (list Z)) :=
  concat (map page_script pages) ++
  (if pg + Z.of_nat (length pages) <=? RMI4_MAX_PAGE
   then [Some (read_data_report t)] else []).

(** The addresses the walk is expected to ask for: on each page [n]
    reads, six registers apart, downward from the start of the table. *)
Definition page_addresses (pg : Z) (n : nat) : list Z :=
  map (fun j => RMI4_PAGE_SIZE * pg + PDT_START_SCAN_LOCATION
                - sizeof_pdt_entry * Z.of_nat j) (seq 0 n).
Fixpoint pdt_addresses (pg : Z) (pages : list (list (list Z) * list Z))
  : list Z :=
  match pages with
  | [] => if pg <=? RMI4_MAX_PAGE then page_addresses pg 1 else []
  | p :: pages =>
      page_addresses pg (S (length (fst p))) ++ pdt_addresses (pg + 1) pages
  end.

(** The interrupt sources a run of entries takes. *)
Definition interrupt_sources (es : list (list Z)) : Z :=
  fold_right (fun e acc => interrupt_source_count e + acc) 0 es.

(** Registration of a run of entries with a running interrupt number. *)
Fixpoint register_page (pg interrupt : Z) (es : list (list Z))
    (data : rmi_data) : rmi_data :=
  match es with
  | [] => data
  | e :: es =>
      register_page pg (interrupt + interrupt_source_count e) es
        (rmi_register_function e pg interrupt data)
  end.
Fixpoint register_pages (pg interrupt : Z)
    (pages : list (list (list Z) * list Z)) (data : rmi_data) : rmi_data :=
  match pages with
  | [] => data
  | p :: pages =>
      register_pages (pg + 1) (interrupt + interrupt_sources (fst p)) pages
        (register_page pg interrupt (fst p) data)
  end.

(** The slot of the function table a supported function number has, and
    the interrupt assignment a slot records. *)
Definition function_slot (number : Z) (data : rmi_data) : rmi_function :=
  if number =? 0x11 then f11 data else f30 data.
Definition irq_of (f : rmi_function) : Z * Z * Z :=
  (interrupt_base f, interrupt_count f, irq_mask f).

(** ** What register traffic leaves alone *)

(** Flag bits other than the two pending bits are the same. *)
Definition flags_kept (f f' : Z) : Prop :=
  forall n, n <> RMI_READ_REQUEST_PENDING -> n <> RMI_READ_DATA_PENDING ->
            test_bit n f' = test_bit n f.


(** What register traffic leaves of the device: the transport's side and
    the sizes of the two buffers as they were, no flag touched but the
    pending bits, and no data pending unless it was pending before. *)
Definition settles (h h' : hid_device) : Prop :=
  transport_of h' = transport_of h /\
  length (readReport (drvdata h')) = length (readReport (drvdata h)) /\
  length (writeReport (drvdata h')) = length (writeReport (drvdata h)) /\
  flags_kept (flags (drvdata h)) (flags (drvdata h')) /\
  (test_bit RMI_READ_DATA_PENDING (flags (drvdata h)) = false ->
   test_bit RMI_READ_DATA_PENDING (flags (drvdata h')) = false).

(** The reader has taken deliveries from the front of [inbound], in
    order, and nothing else. *)
Definition consumed (h h' : hid_device) : Prop :=
  exists used, inbound h = used ++ inbound h'.

(** ** Reports on the wire *)

(** A page-select report: a write of the one byte [pg] to register 0xFF. *)
Definition is_page_select (pg : Z) (r : list Z) : bool :=
  (load r 0 =? RMI_WRITE_REPORT_ID) && (load r 1 =? 1) &&
  (load r 2 =? 0xFF) && (load r 4 =? pg).

(** The length field of a read request. *)
Definition request_len (r : list Z) : Z := load r 4 + 256 * load r 5.

(** A read request for [len] registers (on the wire modulo 65536) from
    [addr] on. *)
Definition is_request_for (addr len : Z) (r : list Z) : Prop :=
  is_read_request r = true /\ load r 1 = 0 /\
  request_addr r = addr /\ request_len r = len mod 65536.

(** The output buffer holds a whole request and the transport takes it. *)
Definition output_fits (h : hid_device) : Prop :=
  6 <= output_report_size (drvdata h) /\
  (6 <= length (writeReport (drvdata h)))%nat.

(** A device whose transport takes the first report short ([first] bytes)
    and every later one whole. *)
Definition short_first_device (input_size output_size first : Z)
    (script : list (option (list Z))) : hid_device :=
  Build_hid_device (probed_data input_size output_size)
    (fun k => match k with O => first | S _ => output_size end)
    (fun _ => 0) script [] [] [] false.

(** ** What the inbound path leaves alone *)

(** Between [h] and [h'] events were reported to the input device and
    nothing else happened. *)
Definition reports (h h' : hid_device) : Prop :=
  exists evs, h' = with_input_log (input_log h ++ evs) h.

(** ** What a decoded attention report tells the input device *)

(** The slots selected and the contact states reported, in order. *)
Definition slots_of (evs : list input_ev) : list Z :=
  flat_map (fun e => match e with Ev_mt_slot s => [s] | _ => [] end) evs.
Definition states_of (evs : list input_ev) : list bool :=
  flat_map (fun e => match e with Ev_mt_slot_state a => [a] | _ => [] end) evs.

(** The two status bits of finger [i] in an F11 payload. *)
Definition finger_state (data : list Z) (i : Z) : Z :=
  Z.land (Z.shiftr (load data (Z.shiftr i 2)) (Z.shiftl (Z.land i 0x3) 1)) 0x03.

(** The GPIO positions wired as buttons, lowest first. *)
Definition button_positions (d : rmi_data) : list Z :=
  filter (fun i => test_bit i (button_mask d))
    (map Z.of_nat (seq 0 (Z.to_nat (gpio_led_count d)))).

(** One key event per position, the keys numbered from [button] on; the
    value is the level of the position's bit in the payload, inverted
    where the state mask says so. *)
Fixpoint key_events (d : rmi_data) (data : list Z) (ps : list Z) (button : Z)
  : list input_ev :=
  match ps with
  | [] => []
  | i :: ps =>
      Ev_key (BTN_LEFT + button)
        (xorb (test_bit i (button_state_mask d))
              (Z.testbit (load data (i / 8)) (i mod 8)))
      :: key_events d data ps (button + 1)
  end.

(** ** What discovery leaves alone *)

(** The part of the tables the scan does not fill in: the report sizes
    of the two functions, the geometry and the button wiring. *)
Definition geometry_of (h : hid_device) :=
  let d := drvdata h in
  (report_size (f11 d), report_size (f30 d), max_fingers d,
   (max_x d, max_y d), (x_size_mm d, y_size_mm d),
   (gpio_led_count d, button_count d, button_mask d, button_state_mask d)).

(** Register traffic and registration of functions, and nothing else. *)
Definition discovers (h h' : hid_device) : Prop :=
  settles h h' /\ consumed h h' /\ geometry_of h' = geometry_of h.

(** Register traffic, whatever it fills in of the tables. *)
Definition attaches (h h' : hid_device) : Prop :=
  settles h h' /\ consumed h h'.

(** ** The HID core and the kernel worker *)

(** The HID core hands in the reports [rs], one after the other. *)
Fixpoint raw_events (rs : list (list Z)) : M unit :=
  match rs with
  | [] => mret tt
  | r :: rs => rmi_raw_event r (Z.of_nat (length r)) ;;; raw_events rs
  end.

(** A passthrough-mouse report with no button down. *)
Definition idle_mouse_report (r : list Z) : Prop :=
  load_chk r 0 = Some RMI_MOUSE_REPORT_ID /\ load_chk r 1 = Some 0.

(** ** GPIO wiring *)

(** Position [i] of the F30 control block [buf] (direction bits first,
    data bits [bytes_per_ctrl] bytes further) is an input pulled high:
    that is what the driver takes for a button. *)
Definition wired_button (bytes_per_ctrl : Z) (buf : list Z) (i : Z) : bool :=
  negb (Z.testbit (load buf (Z.shiftr i 3)) (Z.land i 0x07)) &&
  Z.testbit (load buf (Z.shiftr i 3 + bytes_per_ctrl)) (Z.land i 0x07).

(** ** A sensor that answers the F11 queries *)

(** Where query 12 lies behind the query base: after the nine fixed
    queries and the optional queries 9, 10 and 11. *)
Definition f11_query12_offset (q0 q8 : Z) : Z :=
  9 + Z.b2z (flag q0 3) + Z.b2z (flag q8 2) + Z.b2z (flag q0 4).

(** The registers [rmi_populate_f11] is expected to ask for, given what
    queries 0, 8 and 12 answer. *)
Definition f11_addresses (query_base control_base q0 q8 q12 : Z) : list Z :=
  [query_base; query_base + 1; query_base + 8] ++
  (if flag q0 5
   then (query_base + f11_query12_offset q0 q8)
        :: (if flag q12 5
            then [query_base + f11_query12_offset q0 q8 + 1] else [])
   else []) ++
  [control_base].

(** What the sensor answers, each register block in one report. *)
Definition f11_script (q0 q1 q8 q12 : Z) (props ctrl : list Z)
  : list (option (list Z)) :=
  map (fun p => Some (read_data_report p))
    ([[q0]; [q1]; [q8]] ++
     (if flag q0 5
      then [q12] :: (if flag q12 5 then [props] else [])
      else []) ++
     [ctrl]).

(** A 16-bit register pair, low byte first. *)
Definition le16 (p : list Z) (i : Z) : Z := load p i + 256 * load p (i + 1).

(** The tables [rmi_populate_f11] is expected to leave. *)
Definition f11_populated (q0 q1 q12 : Z) (props ctrl : list Z)
    (d : rmi_data) : rmi_data :=
  let d := f11_query1 q1 d in
  let d := if flag q0 5 && flag q12 5
           then with_size_mm (DIV_ROUND_CLOSEST (le16 props 0) 10)
                             (DIV_ROUND_CLOSEST (le16 props 2) 10) d
           else d in
  with_max_xy (le16 ctrl 6) (le16 ctrl 8) d.

(** ** A sensor that answers the F30 queries *)

(** The bytes one control register of F30 takes: a bit per position. *)
Definition f30_bytes_per_ctrl (q1 : Z) : Z := (Z.land q1 0x1f + 7) / 8.

(** Where control registers 2 and 3 lie behind the control base: after
    control 0, present when the sensor has both GPIOs and LEDs, and
    control 1. *)
Definition f30_ctrl2_offset (q0 q1 : Z) : Z :=
  (if flag q0 3 && flag q0 2 then f30_bytes_per_ctrl q1 else 0)
  + f30_bytes_per_ctrl q1.

(** The tables [rmi_populate_f30] is expected to leave. *)
Definition f30_populated (q1 : Z) (ctrl : list Z) (d : rmi_data) : rmi_data :=
  let d := with_gpio_led_count (Z.land q1 0x1f) d in
  let d := with_f30 (with_report_size (f30_bytes_per_ctrl q1) (f30 d)) d in
  f30_button_loop (Z.to_nat (Z.land q1 0x1f)) 0 (f30_bytes_per_ctrl q1) ctrl d.

(** ** Registration with the input layer *)

(** What [rmi_input_configured] tells the input layer once population
    has succeeded, call by call. *)
Inductive input_setup :=
| Setup_ev_abs                            (* __set_bit(EV_ABS, input->evbit) *)
| Setup_abs_params (code min max : Z)     (* input_set_abs_params(.., 0, 0) *)
| Setup_abs_res (code res : Z)            (* input_abs_set_res *)
| Setup_mt_slots (n : Z)                  (* input_mt_init_slots(.., INPUT_MT_POINTER) *)
| Setup_ev_key                            (* __set_bit(EV_KEY, input->evbit) *)
| Setup_keybit (code : Z)                 (* __set_bit(code, input->keybit) *)
| Setup_buttonpad.                        (* __set_bit(INPUT_PROP_BUTTONPAD, ..) *)

(** The calls between [rmi_populate] and [set_bit(RMI_STARTED, ..)].  The
    fields are [unsigned int], the parameters and the resolutions [int];
    the loop over the buttons counts an [int] up to [button_count]. *)
Definition rmi_input_setup (data : rmi_data) : list input_setup :=
  [Setup_ev_abs;
   Setup_abs_params ABS_MT_POSITION_X 1 (int32 (max_x data));
   Setup_abs_params ABS_MT_POSITION_Y 1 (int32 (max_y data))] ++
  (if negb (x_size_mm data =? 0) && negb (x_size_mm data =? 0) then
     let res_x := int32 (u32 (max_x data - 1) / x_size_mm data) in
     let res_y := int32 (u32 (max_y data - 1) / x_size_mm data) in
     [Setup_abs_res ABS_MT_POSITION_X res_x;
      Setup_abs_res ABS_MT_POSITION_Y res_y]
   else []) ++
  [Setup_abs_params ABS_MT_ORIENTATION 0 1;
   Setup_abs_params ABS_MT_PRESSURE 0 0xff;
   Setup_abs_params ABS_MT_TOUCH_MAJOR 0 0x0f;
   Setup_abs_params ABS_MT_TOUCH_MINOR 0 0x0f;
   Setup_mt_slots (max_fingers data)] ++
  (if negb (button_count data =? 0) then
     Setup_ev_key
     :: map (fun i => Setup_keybit (BTN_LEFT + Z.of_nat i))
          (seq 0 (Z.to_nat (button_count data)))
     ++ (if button_count data =? 1 then [Setup_buttonpad] else [])
   else []).

(** [rmi_remove]; stopping the transport has no counterpart in the
    model. *)
Definition rmi_remove (h : hid_device) : hid_device :=
  upd (fun d => with_flags (clear_bit RMI_STARTED (flags d)) d) h.

(** ** Deliveries during a read *)

(** A delivery of the kind [inbound] stands for: a read-data report, or
    the timeout. *)
Definition read_data_delivery (o : option (list Z)) : Prop :=
  match o with
  | Some r => load_chk r 0 = Some RMI_READ_DATA_REPORT_ID
  | None => True
  end.

(** The wait of [rmi_read_block] with each arriving report handed to
    [rmi_raw_event], the way the HID core delivers it; a report the handler
    cannot read is a fault. *)
Fixpoint wait_event_dispatch (script : list (option (list Z))) (h : hid_device)
  : option (bool * hid_device) :=
  if test_bit RMI_READ_DATA_PENDING (flags (drvdata h))
  then Some (true, with_inbound script h)
  else
    match script with
    | [] => Some (false, with_inbound [] h)
    | None :: rest => Some (false, with_inbound rest h)
    | Some r :: rest =>
        match rmi_raw_event r (Z.of_nat (length r)) h with
        | Some (_, h) => wait_event_dispatch rest h
        | None => None
        end
    end.

(** [rmi_read_block] over that wait: the code of [read_data_loop],
    [read_retry_loop] and [rmi_read_block] with the wait replaced. *)
Fixpoint read_data_loop_dispatch (fuel : nat)
    (len bytes_read bytes_needed ret : Z) (buf : list Z) (h : hid_device)
  : option (Z * list Z * hid_device) :=
  match fuel with
  | O => Some (ret, buf, h)
  | S fuel =>
      if bytes_read <? len then
        match wait_event_dispatch (inbound h) h with
        | None => None
        | Some (woken, h) =>
            if negb woken then Some (- EAGAIN, buf, h)
            else
              let read_input_count := load (readReport (drvdata h)) 1 in
              let buf := memcpy buf bytes_read (readReport (drvdata h)) 2
                           (if read_input_count <? bytes_needed
                            then read_input_count else bytes_needed) in
              let bytes_read := int32 (bytes_read + read_input_count) in
              let bytes_needed := int32 (bytes_needed - read_input_count) in
              let h := upd (fun d => with_flags
                          (clear_bit RMI_READ_DATA_PENDING (flags d)) d) h in
              read_data_loop_dispatch fuel len bytes_read bytes_needed ret buf h
        end
      else Some (ret, buf, h)
  end.

Fixpoint read_retry_loop_dispatch (retries : nat) (addr len ret : Z)
    (buf : list Z) (h : hid_device) : option (Z * list Z * hid_device) :=
  match retries with
  | O => Some (ret, buf, h)
  | S retries =>
      let '(ret, h) := send_read_request addr len h in
      if negb (ret =? output_report_size (drvdata h)) then
        let h := upd (fun d => with_flags
                    (clear_bit RMI_READ_REQUEST_PENDING (flags d)) d) h in
        Some (ret, buf, h)
      else
        match read_data_loop_dispatch (length (inbound h) + 2) len 0 len
                ret buf h with
        | None => None
        | Some (ret, buf, h) =>
            if ret >=? 0 then Some (0, buf, h)
            else read_retry_loop_dispatch retries addr len ret buf h
        end
  end.

Definition rmi_read_block_dispatch (addr : Z) (buf : list Z) (len : Z)
    (h : hid_device) : option (Z * list Z * hid_device) :=
  let addr := u16 addr in
  match
    (if negb (RMI_PAGE addr =? page (drvdata h)) then
       let '(ret, h) := rmi_set_page (RMI_PAGE addr) h in
       if ret <? 0 then Some (ret, buf, h)
       else read_retry_loop_dispatch 5 addr len ret buf h
     else read_retry_loop_dispatch 5 addr len 0 buf h)
  with
  | None => None
  | Some (ret, buf, h) =>
      (* exit: *)
      let h := upd (fun d => with_flags
                  (clear_bit RMI_READ_REQUEST_PENDING (flags d)) d) h in
      Some (ret, buf, h)
  end.

(** ** The query 1 byte of the touch function *)

(** The byte [rmi_populate_f11] reads as query 1: the second of its
    reads, made when the first one succeeded. *)
Definition f11_query1_read (h : hid_device) : Z :=
  let query_base := query_base_addr (f11 (drvdata h)) in
  let '(_, buf, h) := rmi_read query_base (repeat 0 20) h in
  let '(_, buf, _) := rmi_read (query_base + 1) buf h in
  load buf 0.

(** The same byte as [rmi_input_configured] comes to read it: after the
    mode switch, the page select and the scan of the PDT. *)
Definition attach_query1 (h : hid_device) : Z :=
  let '(_, h) := rmi_set_mode RMI_MODE_ATTN_REPORTS h in
  let '(_, h) := rmi_set_page 0 h in
  let '(_, h) := rmi_scan_pdt h in
  f11_query1_read h.

(** * Properties *)

(** ** Bits and buffers *)

Lemma test_bit_set_same w n : 0 <= n -> test_bit n (set_bit n w) = true.
Proof. intros; apply Z.setbit_eq; assumption. Qed.

Lemma test_bit_set_other w n m :
  0 <= m -> m <> n -> test_bit n (set_bit m w) = test_bit n w.
Proof. intros; apply Z.setbit_neq; assumption. Qed.

Lemma test_bit_clear_same w n : test_bit n (clear_bit n w) = false.
Proof. apply Z.clearbit_eq. Qed.

Lemma test_bit_clear_other w n m :
  m <> n -> test_bit n (clear_bit m w) = test_bit n w.
Proof. intros; apply Z.clearbit_neq; assumption. Qed.

Lemma u16_range z : 0 <= u16 z < 65536.
Proof. unfold u16; apply Z.mod_pos_bound; lia. Qed.

Lemma u8_range z : 0 <= u8 z < 256.
Proof. unfold u8; apply Z.mod_pos_bound; lia. Qed.

Lemma load_range p i : 0 <= load p i < 256.
Proof. apply u8_range. Qed.

Create HintDb rmi_range.
#[local] Hint Resolve u8_range u16_range load_range : rmi_range.

Lemma int32_small z : - 2147483648 <= z <= INT_MAX -> int32 z = z.
Proof.
  unfold int32, INT_MAX; intros.
  rewrite Z.mod_small by lia; lia.
Qed.

Lemma length_store_nat i v p : length (store_nat i v p) = length p.
Proof.
  revert i; induction p as [|a p IH]; intros [|i]; simpl; auto.
Qed.

Lemma length_store i v p : length (store i v p) = length p.
Proof. apply length_store_nat. Qed.

Lemma length_blit src off dst : length (blit src off dst) = length dst.
Proof.
  unfold blit.
  rewrite !length_app, length_firstn, length_firstn, length_skipn; lia.
Qed.

Lemma length_memcpy dst doff src soff n :
  length (memcpy dst doff src soff n) = length dst.
Proof. apply length_blit. Qed.

Lemma blit_empty src off : blit src off [] = [].
Proof.
  unfold blit. rewrite firstn_nil, skipn_nil. reflexivity.
Qed.

Lemma blit_S src off x dst : blit src (S off) (x :: dst) = x :: blit src off dst.
Proof. reflexivity. Qed.

Lemma blit_0_cons x src y dst : blit (x :: src) 0 (y :: dst) = x :: blit src 0 dst.
Proof. unfold blit; simpl. now rewrite Nat.sub_0_r. Qed.

Lemma blit_0_nil dst : blit [] 0 dst = dst.
Proof. unfold blit; simpl. now rewrite firstn_nil. Qed.

(** Two copies next to each other are one copy of the two sources. *)
Lemma blit_blit (a b : list Z) off dst :
  blit b (off + length a) (blit a off dst) = blit (a ++ b) off dst.
Proof.
  revert dst; induction off as [|off IH]; intros dst.
  - simpl. revert dst; induction a as [|x a IHa]; intros dst.
    + now rewrite blit_0_nil.
    + destruct dst as [|y dst].
      * now rewrite !blit_empty.
      * simpl app. rewrite !blit_0_cons. simpl length.
        rewrite blit_S. now rewrite IHa.
  - destruct dst as [|y dst].
    + now rewrite !blit_empty.
    + rewrite !blit_S. simpl Nat.add. rewrite blit_S. now rewrite IH.
Qed.

Lemma blit_nil off dst : blit [] off dst = dst.
Proof.
  unfold blit. rewrite firstn_nil. simpl. rewrite Nat.add_0_r.
  apply firstn_skipn.
Qed.

(** A copy that covers the whole destination leaves the source's prefix. *)
Lemma blit_cover src dst :
  (length dst <= length src)%nat -> blit src 0 dst = firstn (length dst) src.
Proof.
  intros H. unfold blit. simpl. rewrite Nat.sub_0_r.
  rewrite skipn_all2 by lia. now rewrite app_nil_r.
Qed.

(** After a delivery the first cells of the input buffer are the report's. *)
Lemma firstn_delivered (r rr : list Z) (m : nat) (n : Z) :
  (m <= length rr)%nat -> (m <= length r)%nat -> Z.of_nat m <= n ->
  firstn m (memcpy rr 0 r 0 n) = firstn m r.
Proof.
  intros Hrr Hr Hn. unfold memcpy, blit. simpl.
  rewrite Nat.sub_0_r, firstn_firstn, firstn_app, firstn_firstn.
  rewrite length_firstn.
  replace (m - _)%nat with 0%nat by lia.
  rewrite firstn_O, app_nil_r. f_equal. lia.
Qed.

Lemma load_firstn p i m :
  0 <= i -> (Z.to_nat i < m)%nat -> load (firstn m p) i = load p i.
Proof.
  intros Hi Hm. unfold load. rewrite nth_firstn.
  destruct (Nat.ltb_spec (Z.to_nat i) m); [reflexivity | lia].
Qed.

Lemma load_prefix (p q : list Z) i m :
  firstn m p = firstn m q -> 0 <= i -> (Z.to_nat i < m)%nat ->
  load p i = load q i.
Proof.
  intros E Hi Hm.
  rewrite <- (load_firstn p i m), <- (load_firstn q i m) by assumption.
  now rewrite E.
Qed.

Lemma payload_prefix (p q : list Z) k :
  firstn (2 + k) p = firstn (2 + k) q ->
  firstn k (skipn 2 p) = firstn k (skipn 2 q).
Proof.
  intros E. rewrite !firstn_skipn_comm. now rewrite E.
Qed.

(** ** What the register engine leaves alone *)

Arguments store _ _ _ : simpl never.
Arguments memcpy _ _ _ _ _ : simpl never.
Arguments set_bit _ _ : simpl never.
Arguments clear_bit _ _ : simpl never.
Arguments test_bit _ _ : simpl never.
Arguments load _ _ : simpl never.

Ltac case_if :=
  match goal with |- context [if ?c then _ else _] => destruct c eqn:? end.

Lemma rmi_set_page_frame pg h :
  let h' := snd (rmi_set_page pg h) in
  transport_of h' = transport_of h /\
  tables_of h' = tables_of h /\
  inbound h' = inbound h /\
  flags (drvdata h') = flags (drvdata h) /\
  readReport (drvdata h') = readReport (drvdata h) /\
  length (writeReport (drvdata h')) = length (writeReport (drvdata h)).
Proof.
  unfold rmi_set_page, rmi_write_report, hid_hw_output_report; simpl.
  repeat case_if; simpl; repeat split; now rewrite !length_store.
Qed.

Lemma rmi_read_data_event_frame r n h :
  let h' := snd (rmi_read_data_event r n h) in
  transport_of h' = transport_of h /\ tables_of h' = tables_of h /\
  page (drvdata h') = page (drvdata h) /\
  writeReport (drvdata h') = writeReport (drvdata h) /\
  out_log h' = out_log h /\
  length (readReport (drvdata h')) = length (readReport (drvdata h)).
Proof.
  unfold rmi_read_data_event; simpl.
  case_if; simpl; repeat split.
  apply length_memcpy.
Qed.

Lemma wait_event_frame script h :
  let h' := snd (wait_event script h) in
  transport_of h' = transport_of h /\ tables_of h' = tables_of h /\
  page (drvdata h') = page (drvdata h) /\
  writeReport (drvdata h') = writeReport (drvdata h) /\
  out_log h' = out_log h /\
  length (readReport (drvdata h')) = length (readReport (drvdata h)).
Proof.
  revert h; induction script as [|[r|] rest IH]; intros h; simpl.
  - case_if; simpl; repeat split.
  - case_if; simpl; [repeat split|].
    specialize (IH (snd (rmi_read_data_event r (Z.of_nat (length r)) h))).
    simpl in IH.
    pose proof (rmi_read_data_event_frame r (Z.of_nat (length r)) h) as F.
    simpl in F.
    destruct IH as (I1 & I2 & I3 & I4 & I5 & I6).
    destruct F as (F1 & F2 & F3 & F4 & F5 & F6).
    repeat split; congruence.
  - case_if; simpl; repeat split.
Qed.

Lemma read_data_loop_frame fuel len br bn ret buf h :
  let h' := snd (read_data_loop fuel len br bn ret buf h) in
  transport_of h' = transport_of h /\ tables_of h' = tables_of h /\
  page (drvdata h') = page (drvdata h) /\
  writeReport (drvdata h') = writeReport (drvdata h) /\
  out_log h' = out_log h /\
  length (readReport (drvdata h')) = length (readReport (drvdata h)).
Proof.
  revert br bn buf h; induction fuel as [|fuel IH]; intros br bn buf h.
  - simpl; repeat split.
  - cbn [read_data_loop].
    destruct (br <? len); [|simpl; repeat split].
    pose proof (wait_event_frame (inbound h) h) as W; cbv zeta in W.
    unfold wait_event_timeout.
    destruct (wait_event (inbound h) h) as [woken h1]; cbn [snd] in W.
    destruct woken; cbn [negb].
    + match goal with
      | |- context [read_data_loop fuel len ?a ?b ret ?c ?d] =>
          specialize (IH a b c d)
      end.
      cbv zeta in IH |- *.
      destruct W as (W1 & W2 & W3 & W4 & W5 & W6).
      destruct IH as (I1 & I2 & I3 & I4 & I5 & I6).
      repeat split; first [rewrite I1 | rewrite I2 | rewrite I3 | rewrite I4
                          | rewrite I5 | rewrite I6]; simpl; assumption.
    + simpl. exact W.
Qed.

(** ** Counting the requests sent *)

Lemma requested_app l r :
  requested (l ++ [r]) =
  requested l ++ (if is_read_request r then [request_addr r] else []).
Proof.
  unfold requested. rewrite filter_app, map_app. simpl.
  destruct (is_read_request r); reflexivity.
Qed.

Lemma read_requests_app l r :
  read_requests (l ++ [r]) =
  (read_requests l + (if is_read_request r then 1 else 0))%nat.
Proof.
  unfold read_requests. rewrite requested_app, length_app.
  destruct (is_read_request r); reflexivity.
Qed.

Lemma set_page_report_not_request n a b c wr :
  is_read_request
    (firstn n (store 4 a (store 2 b (store 1 c
       (store 0 RMI_WRITE_REPORT_ID wr))))) = false.
Proof.
  destruct wr as [|x wr]; destruct n as [|n]; reflexivity.
Qed.

Lemma request_report_is_request n a b c d e wr :
  (0 < n)%nat -> (0 < length wr)%nat ->
  is_read_request
    (firstn n (store 5 a (store 4 b (store 3 c (store 2 d (store 1 e
       (store 0 RMI_READ_ADDR_REPORT_ID wr))))))) = true.
Proof.
  intros Hn Hw.
  destruct wr as [|x wr]; [simpl in Hw; lia|].
  destruct n as [|n]; [lia|]. reflexivity.
Qed.

Lemma rmi_set_page_log pg h :
  requested (out_log (snd (rmi_set_page pg h))) = requested (out_log h) /\
  length (out_log (snd (rmi_set_page pg h))) = S (length (out_log h)).
Proof.
  unfold rmi_set_page, rmi_write_report, hid_hw_output_report; simpl.
  repeat case_if; simpl;
    rewrite requested_app, set_page_report_not_request, length_app, app_nil_r;
    simpl; split; auto; lia.
Qed.

Lemma request_report_addr n a b c d e wr :
  (6 <= n)%nat -> (6 <= length wr)%nat ->
  request_addr
    (firstn n (store 5 a (store 4 b (store 3 c (store 2 d (store 1 e
       (store 0 RMI_READ_ADDR_REPORT_ID wr))))))) = u8 d + 256 * u8 c.
Proof.
  intros Hn Hw.
  do 6 (destruct wr as [|? wr]; [simpl in Hw; lia|]).
  do 6 (destruct n as [|n]; [lia|]).
  unfold request_addr, load, store; simpl.
  unfold u8. now rewrite !Z.mod_mod by lia.
Qed.

Lemma addr_bytes addr :
  0 <= addr < 65536 ->
  u8 (Z.land addr 0xFF) + 256 * u8 (Z.land (Z.shiftr addr 8) 0xFF) = addr.
Proof.
  intros H. unfold u8.
  change 0xFF with (Z.ones 8). rewrite !Z.land_ones by lia.
  rewrite Z.shiftr_div_pow2 by lia. change (2 ^ 8) with 256.
  rewrite !Z.mod_mod by lia.
  rewrite (Z.mod_small (addr / 256)) by (split; [apply Z.div_pos; lia | apply Z.div_lt_upper_bound; lia]).
  pose proof (Z.div_mod addr 256). lia.
Qed.

Lemma send_read_request_spec addr len h :
  let r := send_read_request addr len h in
  fst r = hw_output_ret h (length (out_log h)) /\
  transport_of (snd r) = transport_of h /\
  tables_of (snd r) = tables_of h /\
  page (drvdata (snd r)) = page (drvdata h) /\
  inbound (snd r) = inbound h /\
  readReport (drvdata (snd r)) = readReport (drvdata h) /\
  length (writeReport (drvdata (snd r))) = length (writeReport (drvdata h)) /\
  flags (drvdata (snd r)) = set_bit RMI_READ_REQUEST_PENDING (flags (drvdata h)) /\
  length (out_log (snd r)) = S (length (out_log h)) /\
  (read_requests (out_log (snd r)) <= S (read_requests (out_log h)))%nat /\
  (6 <= output_report_size (drvdata h) ->
   (6 <= length (writeReport (drvdata h)))%nat ->
   0 <= addr < 65536 ->
   requested (out_log (snd r)) = requested (out_log h) ++ [addr]).
Proof.
  unfold send_read_request, rmi_write_report, hid_hw_output_report; simpl.
  case_if; simpl; rewrite !length_store, length_app, read_requests_app; simpl;
    (repeat split; try lia;
     [ case_if; lia
     | intros H1 H2 H3; rewrite requested_app, request_report_is_request,
         request_report_addr, addr_bytes by lia; reflexivity ]).
Qed.

Lemma read_retry_loop_frame retries addr len ret buf h :
  let h' := snd (read_retry_loop retries addr len ret buf h) in
  transport_of h' = transport_of h /\ tables_of h' = tables_of h /\
  page (drvdata h') = page (drvdata h) /\
  length (readReport (drvdata h')) = length (readReport (drvdata h)) /\
  length (writeReport (drvdata h')) = length (writeReport (drvdata h)) /\
  (read_requests (out_log h') <= read_requests (out_log h) + retries)%nat /\
  (length (out_log h) <= length (out_log h'))%nat.
Proof.
  revert ret buf h; induction retries as [|retries IH]; intros ret buf h.
  - simpl. repeat split; lia.
  - cbn [read_retry_loop].
    pose proof (send_read_request_spec addr len h) as S; cbv zeta in S.
    destruct (send_read_request addr len h) as [ret1 h1]; cbn [fst snd] in S.
    destruct S as (_ & S1 & S2 & S3 & _ & S4 & S5 & _ & S6 & S7 & _).
    destruct (negb (ret1 =? output_report_size (drvdata h1))).
    { simpl. rewrite S4, S5. repeat split; try assumption; lia. }
    pose proof (read_data_loop_frame (length (inbound h1) + 2) len 0 len ret1 buf h1)
      as D; cbv zeta in D.
    destruct (read_data_loop _ len 0 len ret1 buf h1) as [[ret2 buf2] h2].
    cbn [snd] in D; destruct D as (D1 & D2 & D3 & D4 & D5 & D6).
    destruct (ret2 >=? 0).
    + cbn [snd]. rewrite D5. repeat split; try congruence; lia.
    + specialize (IH ret2 buf2 h2); cbv zeta in IH.
      destruct IH as (I1 & I2 & I3 & I4 & I5 & I6 & I7).
      rewrite D5 in *.
      repeat split; try congruence; lia.
Qed.

(** [rmi_read_block] writes the page, the two buffers and the pending
    bits, and nothing else of the driver's tables or the transport. *)
Lemma rmi_read_block_frame addr buf len h :
  let h' := snd (rmi_read_block addr buf len h) in
  transport_of h' = transport_of h /\ tables_of h' = tables_of h /\
  length (readReport (drvdata h')) = length (readReport (drvdata h)) /\
  length (writeReport (drvdata h')) = length (writeReport (drvdata h)) /\
  (read_requests (out_log h') <= read_requests (out_log h) + 5)%nat /\
  (length (out_log h) <= length (out_log h'))%nat.
Proof.
  unfold rmi_read_block.
  destruct (negb (RMI_PAGE (u16 addr) =? page (drvdata h))).
  - pose proof (rmi_set_page_frame (RMI_PAGE (u16 addr)) h) as P; cbv zeta in P.
    pose proof (rmi_set_page_log (RMI_PAGE (u16 addr)) h) as L.
    destruct (rmi_set_page (RMI_PAGE (u16 addr)) h) as [ret1 h1].
    cbn [snd] in P, L.
    destruct P as (P1 & P2 & P3 & P4 & P5 & P6). destruct L as (L1 & L2).
    apply (f_equal (@length Z)) in L1. fold (read_requests (out_log h1)) in L1.
    fold (read_requests (out_log h)) in L1.
    destruct (ret1 <? 0).
    + cbn [snd]. repeat split;
        [ exact P1 | exact P2 | simpl; now rewrite P5 | simpl; exact P6
        | simpl; lia | simpl; lia ].
    + pose proof (read_retry_loop_frame 5 (u16 addr) len ret1 buf h1) as R;
        cbv zeta in R.
      destruct (read_retry_loop 5 (u16 addr) len ret1 buf h1) as [[ret2 buf2] h2].
      cbn [snd] in R. destruct R as (R1 & R2 & R3 & R4 & R5 & R6 & R7).
      rewrite P5 in R4. cbn [snd].
      repeat split;
        [ change (transport_of h2 = transport_of h); congruence
        | change (tables_of h2 = tables_of h); congruence
        | simpl; congruence | simpl; congruence | simpl; lia | simpl; lia ].
  - pose proof (read_retry_loop_frame 5 (u16 addr) len 0 buf h) as R;
      cbv zeta in R.
    destruct (read_retry_loop 5 (u16 addr) len 0 buf h) as [[ret2 buf2] h2].
    cbn [snd] in R. destruct R as (R1 & R2 & R3 & R4 & R5 & R6 & R7).
    cbn [snd].
    repeat split;
      [ exact R1 | exact R2 | simpl; congruence | simpl; congruence
      | simpl; lia | simpl; lia ].
Qed.

(** ** One wait *)

Lemma pending_bits_distinct : RMI_READ_REQUEST_PENDING <> RMI_READ_DATA_PENDING.
Proof. discriminate. Qed.

Lemma wait_event_done script h :
  test_bit RMI_READ_DATA_PENDING (flags (drvdata h)) = true ->
  wait_event script h = (true, with_inbound script h).
Proof. intros H; destruct script as [|[r|] rest]; simpl; now rewrite H. Qed.

Lemma wait_deliver h r rest :
  test_bit RMI_READ_DATA_PENDING (flags (drvdata h)) = false ->
  test_bit RMI_READ_REQUEST_PENDING (flags (drvdata h)) = true ->
  inbound h = Some r :: rest ->
  wait_event_timeout h =
  (true,
   with_inbound rest
     (upd (with_flags (set_bit RMI_READ_DATA_PENDING (flags (drvdata h))))
        (upd (with_readReport
                (memcpy (readReport (drvdata h)) 0 r 0
                   (if Z.of_nat (length r) <? input_report_size (drvdata h)
                    then Z.of_nat (length r)
                    else input_report_size (drvdata h)))) h))).
Proof.
  intros Hd Hr Hin. unfold wait_event_timeout. rewrite Hin.
  cbn [wait_event]. rewrite Hd.
  unfold rmi_read_data_event. rewrite Hr. cbn [negb snd].
  rewrite wait_event_done; [reflexivity|].
  simpl. apply test_bit_set_same. discriminate.
Qed.

Lemma wait_timeout h rest :
  test_bit RMI_READ_DATA_PENDING (flags (drvdata h)) = false ->
  inbound h = None :: rest ->
  wait_event_timeout h = (false, with_inbound rest h).
Proof.
  intros Hd Hin. unfold wait_event_timeout. rewrite Hin. simpl. now rewrite Hd.
Qed.

(** ** Deliveries that fall short *)

Lemma chunk_count_range r : 0 <= chunk_count r < 256.
Proof. unfold chunk_count; auto with rmi_range. Qed.

Lemma chunks_total_nonneg cs : 0 <= chunks_total cs.
Proof.
  induction cs as [|c cs IH]; simpl; [lia|].
  pose proof (chunk_count_range c); lia.
Qed.


Lemma length_chunk_payload irs c :
  chunk_ok irs c -> Z.of_nat (length (chunk_payload c)) = chunk_count c.
Proof.
  intros [H1 H2]. unfold chunk_payload.
  pose proof (chunk_count_range c).
  rewrite length_firstn, length_skipn. lia.
Qed.

Lemma length_chunks_payload irs cs :
  Forall (chunk_ok irs) cs ->
  Z.of_nat (length (chunks_payload cs)) = chunks_total cs.
Proof.
  induction 1 as [|c cs Hc Hcs IH]; [reflexivity|].
  unfold chunks_payload in *. simpl. rewrite length_app, Nat2Z.inj_add, IH.
  now rewrite (length_chunk_payload irs c Hc).
Qed.

Lemma reader_step_refl h :
  test_bit RMI_READ_DATA_PENDING (flags (drvdata h)) = false ->
  reader_step h h.
Proof. intros H; unfold reader_step; repeat split; assumption. Qed.

Lemma reader_step_trans h1 h2 h3 :
  reader_step h1 h2 -> reader_step h2 h3 -> reader_step h1 h3.
Proof.
  unfold reader_step.
  intros (A1 & A2 & A3 & A4 & A5 & A6 & A7 & A8)
         (B1 & B2 & B3 & B4 & B5 & B6 & B7 & B8).
  repeat split; congruence.
Qed.

(** What one delivered report leaves in the input buffer. *)
Lemma delivered_count irs rr c :
  Z.of_nat (length rr) = irs -> chunk_ok irs c ->
  load (memcpy rr 0 c 0
          (if Z.of_nat (length c) <? irs then Z.of_nat (length c) else irs)) 1
  = chunk_count c.
Proof.
  intros Hrr [H1 H2]. pose proof (chunk_count_range c).
  apply (load_prefix _ _ 1 2); [|lia|simpl; lia].
  apply firstn_delivered; try lia.
  destruct (Z.ltb_spec (Z.of_nat (length c)) irs); lia.
Qed.

Lemma delivered_payload irs rr c (n : Z) :
  Z.of_nat (length rr) = irs -> chunk_ok irs c -> 0 <= n <= chunk_count c ->
  firstn (Z.to_nat n)
    (skipn 2 (memcpy rr 0 c 0
                (if Z.of_nat (length c) <? irs then Z.of_nat (length c) else irs)))
  = firstn (Z.to_nat n) (chunk_payload c).
Proof.
  intros Hrr [H1 H2] Hn.
  unfold chunk_payload. rewrite firstn_firstn.
  replace (Nat.min (Z.to_nat n) (Z.to_nat (chunk_count c))) with (Z.to_nat n) by lia.
  apply payload_prefix.
  apply firstn_delivered; try lia.
  destruct (Z.ltb_spec (Z.of_nat (length c)) irs); lia.
Qed.

Lemma after_chunk_step c rest h :
  reader_step h (after_chunk c rest h) /\ inbound (after_chunk c rest h) = rest.
Proof.
  unfold reader_step, after_chunk; simpl.
  repeat split.
  - apply length_memcpy.
  - rewrite test_bit_clear_other, test_bit_set_other; try reflexivity;
      discriminate.
  - apply test_bit_clear_same.
Qed.

Lemma read_data_loop_take fuel len br bn ret buf h c rest :
  test_bit RMI_READ_REQUEST_PENDING (flags (drvdata h)) = true ->
  test_bit RMI_READ_DATA_PENDING (flags (drvdata h)) = false ->
  Z.of_nat (length (readReport (drvdata h))) = input_report_size (drvdata h) ->
  chunk_ok (input_report_size (drvdata h)) c ->
  inbound h = Some c :: rest ->
  br < len -> 0 <= bn ->
  read_data_loop (S fuel) len br bn ret buf h =
  read_data_loop fuel len (int32 (br + chunk_count c)) (int32 (bn - chunk_count c))
    ret
    (blit (firstn (Z.to_nat (Z.min (chunk_count c) bn)) (chunk_payload c))
          (Z.to_nat br) buf)
    (after_chunk c rest h).
Proof.
  intros Hreq Hdat Hrr Hok Hin Hbr Hbn.
  cbn [read_data_loop].
  rewrite (proj2 (Z.ltb_lt br len)) by assumption.
  rewrite (wait_deliver h c rest) by assumption.
  cbn [negb].
  cbn [drvdata with_inbound upd with_drvdata readReport with_flags with_readReport].
  rewrite (delivered_count _ _ c Hrr Hok).
  fold (after_chunk c rest h).
  f_equal.
  pose proof (chunk_count_range c) as Hc.
  unfold memcpy at 1.
  replace (if chunk_count c <? bn then chunk_count c else bn)
    with (Z.min (chunk_count c) bn)
    by (destruct (Z.ltb_spec (chunk_count c) bn); lia).
  now rewrite (delivered_payload _ _ c _ Hrr Hok) by lia.
Qed.

Lemma read_data_loop_short cs : forall fuel len br ret buf h rest,
  test_bit RMI_READ_REQUEST_PENDING (flags (drvdata h)) = true ->
  test_bit RMI_READ_DATA_PENDING (flags (drvdata h)) = false ->
  Z.of_nat (length (readReport (drvdata h))) = input_report_size (drvdata h) ->
  Forall (chunk_ok (input_report_size (drvdata h))) cs ->
  inbound h = map Some cs ++ rest ->
  0 <= br -> br + chunks_total cs < len -> len <= INT_MAX - 255 ->
  exists h', reader_step h h' /\ inbound h' = rest /\
    read_data_loop (length cs + fuel) len br (len - br) ret buf h =
    read_data_loop fuel len (br + chunks_total cs)
      (len - (br + chunks_total cs)) ret
      (blit (chunks_payload cs) (Z.to_nat br) buf) h'.
Proof.
  induction cs as [|c cs IH];
    intros fuel len br ret buf h rest Hreq Hdat Hrr Hok Hin Hbr Hlt Hlen.
  - exists h. split; [now apply reader_step_refl|]. split; [exact Hin|].
    simpl. unfold chunks_payload; simpl. rewrite blit_nil, Z.add_0_r.
    reflexivity.
  - inversion Hok as [|? ? Hc Hcs]; subst.
    cbn [chunks_total fold_right] in Hlt. fold (chunks_total cs) in Hlt.
    pose proof (chunk_count_range c) as Rc.
    pose proof (chunks_total_nonneg cs) as Rt.
    cbn [length Nat.add].
    rewrite (read_data_loop_take _ _ _ _ _ _ _ c (map Some cs ++ rest))
      by (try assumption; lia).
    destruct (after_chunk_step c (map Some cs ++ rest) h) as [St Hin'].
    pose proof St as (T1 & T2 & T3 & T4 & T5 & T6 & T7 & T8).
    assert (Hirs : input_report_size (drvdata (after_chunk c (map Some cs ++ rest) h))
                   = input_report_size (drvdata h)) by reflexivity.
    rewrite !int32_small by (unfold INT_MAX in *; lia).
    rewrite Z.min_l by lia.
    destruct (IH fuel len (br + chunk_count c) ret
                (blit (firstn (Z.to_nat (chunk_count c)) (chunk_payload c))
                      (Z.to_nat br) buf)
                (after_chunk c (map Some cs ++ rest) h) rest)
      as (h' & St' & Hin'' & E); try assumption; try lia.
    + rewrite T7; assumption.
    + exists h'. split; [eapply reader_step_trans; eassumption|].
      split; [assumption|].
      replace (len - br - chunk_count c) with (len - (br + chunk_count c)) by lia.
      rewrite E. cbn [chunks_total fold_right]. fold (chunks_total cs).
      rewrite Z.add_assoc. f_equal.
      unfold chunks_payload; cbn [map concat]. fold (chunks_payload cs).
      rewrite <- blit_blit.
      rewrite firstn_all2
        by (pose proof (length_chunk_payload _ c Hc); lia).
      f_equal.
      pose proof (length_chunk_payload _ c Hc). lia.
Qed.

(** ** One attempt *)

Lemma transport_of_sizes h h' :
  transport_of h' = transport_of h ->
  input_report_size (drvdata h') = input_report_size (drvdata h) /\
  output_report_size (drvdata h') = output_report_size (drvdata h) /\
  hw_output_ret h' = hw_output_ret h.
Proof. unfold transport_of; intros E; inversion E; auto. Qed.

Lemma chunks_payload_app cs cs' :
  chunks_payload (cs ++ cs') = chunks_payload cs ++ chunks_payload cs'.
Proof. unfold chunks_payload. now rewrite map_app, concat_app. Qed.

Lemma chunks_payload_one c : chunks_payload [c] = chunk_payload c.
Proof. unfold chunks_payload; simpl. apply app_nil_r. Qed.

Section Attempts.

(** One call of [rmi_read_block]: the address as the protocol carries it
    and a length that leaves room for the count of a last report. *)
Variables addr len : Z.
Hypothesis Haddr : 0 <= addr < 65536.
Hypothesis Hlen : len <= INT_MAX - 255.

(** The state a request leaves behind is ready for the reader's loop. *)
Lemma send_read_request_ready h :
  engine_ready h ->
  exists h1,
    send_read_request addr len h = (output_report_size (drvdata h), h1) /\
    engine_ready h1 /\
    test_bit RMI_READ_REQUEST_PENDING (flags (drvdata h1)) = true /\
    inbound h1 = inbound h /\
    requested (out_log h1) = requested (out_log h) ++ [addr] /\
    transport_of h1 = transport_of h /\ tables_of h1 = tables_of h /\
    page (drvdata h1) = page (drvdata h).
Proof.
  intros (Hd & Hrr & Hwr & Hosz & Hsend).
  pose proof (send_read_request_spec addr len h) as S; cbv zeta in S.
  destruct (send_read_request addr len h) as [ret1 h1]; cbn [fst snd] in S.
  destruct S as (S0 & S1 & S2 & S3 & S4 & S5 & S6 & S7 & S8 & S9 & S10).
  destruct (transport_of_sizes _ _ S1) as (E1 & E2 & E3).
  exists h1. split.
  { f_equal. rewrite S0. apply Hsend. lia. }
  split.
  { unfold engine_ready. rewrite S5, S6, S7, E1, E2, E3, S8.
    repeat split; try assumption.
    - rewrite test_bit_set_other; [assumption|discriminate|discriminate].
    - intros k Hk. apply Hsend. lia. }
  split. { rewrite S7. apply test_bit_set_same. discriminate. }
  split; [assumption|].
  split. { apply S10; lia. }
  auto.
Qed.

Lemma reader_step_ready h h' :
  engine_ready h -> reader_step h h' -> engine_ready h'.
Proof.
  intros (Hd & Hrr & Hwr & Hosz & Hsend) (T1 & T2 & T3 & T4 & T5 & T6 & T7 & T8).
  destruct (transport_of_sizes _ _ T1) as (E1 & E2 & E3).
  unfold engine_ready.
  rewrite T6, T4, E1, E2, E3, T5. repeat split; assumption.
Qed.

Lemma attempt_times_out r ret buf h cs rest :
  engine_ready h ->
  Forall (chunk_ok (input_report_size (drvdata h))) cs ->
  falls_short len cs ->
  inbound h = timed_out_attempt cs ++ rest ->
  exists buf' h',
    read_retry_loop (S r) addr len ret buf h =
      read_retry_loop r addr len (- EAGAIN) buf' h' /\
    length buf' = length buf /\
    engine_ready h' /\ inbound h' = rest /\
    requested (out_log h') = requested (out_log h) ++ [addr] /\
    transport_of h' = transport_of h /\ tables_of h' = tables_of h /\
    page (drvdata h') = page (drvdata h).
Proof.
  intros Hready Hok Hshort Hin.
  destruct (send_read_request_ready h Hready)
    as (h1 & Es & Hready1 & Hreq1 & Hin1 & Hcnt1 & Htr1 & Htb1 & Hpg1).
  destruct (transport_of_sizes _ _ Htr1) as (E1 & E2 & E3).
  pose proof Hready1 as (Hd1 & Hrr1 & Hwr1 & Hosz1 & Hsend1).
  unfold timed_out_attempt in Hin. rewrite <- app_assoc in Hin. simpl in Hin.
  rewrite <- Hin1 in Hin.
  destruct (read_data_loop_short cs (S (length rest + 2)) len 0
              (output_report_size (drvdata h)) buf h1 (None :: rest))
    as (h2 & St & Hin2 & E); try assumption; try lia.
  { now rewrite E1. }
  pose proof St as (T1 & T2 & T3 & T4 & T5 & T6 & T7 & T8).
  exists (blit (chunks_payload cs) (Z.to_nat 0) buf), (with_inbound rest h2).
  split.
  { cbn [read_retry_loop]. rewrite Es, E2, Z.eqb_refl. cbn [negb].
    rewrite Hin, length_app, length_map. cbn [length].
    replace (length cs + S (length rest) + 2)%nat
      with (length cs + S (length rest + 2))%nat by lia.
    rewrite Z.sub_0_r in E. rewrite E.
    cbn [read_data_loop].
    unfold falls_short in Hshort.
    rewrite (proj2 (Z.ltb_lt _ _)) by lia.
    rewrite (wait_timeout h2 rest T8 Hin2). cbn [negb].
    reflexivity. }
  split. { apply length_blit. }
  split. { exact (reader_step_ready _ _ Hready1 St). }
  split; [reflexivity|].
  cbn [with_inbound out_log drvdata].
  rewrite T5, T3. repeat split; try congruence.
  - change (transport_of h2 = transport_of h). congruence.
  - change (tables_of h2 = tables_of h). congruence.
Qed.

Lemma attempt_completes r ret buf h cs rest :
  engine_ready h ->
  Forall (chunk_ok (input_report_size (drvdata h))) cs ->
  completes len cs ->
  inbound h = map Some cs ++ rest ->
  exists h',
    read_retry_loop (S r) addr len ret buf h =
      (0, blit (firstn (Z.to_nat len) (chunks_payload cs)) 0 buf, h') /\
    engine_ready h' /\ inbound h' = rest /\
    requested (out_log h') = requested (out_log h) ++ [addr] /\
    transport_of h' = transport_of h /\ tables_of h' = tables_of h /\
    page (drvdata h') = page (drvdata h).
Proof.
  intros Hready Hok Hcomp Hin.
  destruct (send_read_request_ready h Hready)
    as (h1 & Es & Hready1 & Hreq1 & Hin1 & Hcnt1 & Htr1 & Htb1 & Hpg1).
  destruct (transport_of_sizes _ _ Htr1) as (E1 & E2 & E3).
  pose proof Hready1 as (Hd1 & Hrr1 & Hwr1 & Hosz1 & Hsend1).
  rewrite <- Hin1 in Hin.
  cbn [read_retry_loop]. rewrite Es, E2, Z.eqb_refl. cbn [negb].
  destruct Hcomp as [[Hle ->] | (cs' & c & -> & Hshort & Hfin)].
  - (* nothing is asked for: the loop is not entered *)
    exists h1. split.
    { rewrite Nat.add_comm. cbn [Nat.add read_data_loop].
      rewrite (proj2 (Z.ltb_ge 0 len)) by lia.
      rewrite (proj2 (Z.geb_le _ _)) by lia.
      replace (Z.to_nat len) with 0%nat by lia.
      simpl firstn. now rewrite blit_0_nil. }
    simpl in Hin. auto 10.
  - apply Forall_app in Hok. destruct Hok as [Hok' Hc].
    inversion Hc as [|? ? Hc' _]; subst.
    rewrite map_app, <- app_assoc in Hin. simpl in Hin.
    unfold falls_short in Hshort.
    pose proof (chunk_count_range c) as Rc.
    pose proof (chunks_total_nonneg cs') as Rt.
    destruct (read_data_loop_short cs' (S (length rest + 2)) len 0
                (output_report_size (drvdata h)) buf h1 (Some c :: rest))
      as (h2 & St & Hin2 & E); try assumption; try lia.
    { now rewrite E1. }
    pose proof St as (T1 & T2 & T3 & T4 & T5 & T6 & T7 & T8).
    destruct (transport_of_sizes _ _ T1) as (F1 & F2 & F3).
    destruct (after_chunk_step c rest h2) as [St3 Hin3].
    pose proof St3 as (U1 & U2 & U3 & U4 & U5 & U6 & U7 & U8).
    exists (after_chunk c rest h2). split.
    { rewrite Hin, length_app, length_map. cbn [length].
      replace (length cs' + S (length rest) + 2)%nat
        with (length cs' + S (length rest + 2))%nat by lia.
      rewrite Z.sub_0_r in E. rewrite E. rewrite Z.add_0_l.
      rewrite (read_data_loop_take _ _ _ _ _ _ _ c rest);
        try assumption; try lia.
      2: congruence.
      2: rewrite F1, E1; assumption.
      rewrite !int32_small by (unfold INT_MAX in *; lia).
      rewrite Z.min_r by lia.
      rewrite Nat.add_comm. cbn [Nat.add read_data_loop].
      rewrite (proj2 (Z.ltb_ge _ _)) by lia.
      rewrite (proj2 (Z.geb_le _ _)) by lia.
      f_equal. f_equal.
      pose proof (length_chunks_payload _ _ Hok') as L.
      replace (Z.to_nat (chunks_total cs'))
        with (0 + length (chunks_payload cs'))%nat by lia.
      rewrite blit_blit.
      f_equal.
      rewrite chunks_payload_app, chunks_payload_one, firstn_app.
      rewrite (firstn_all2 (chunks_payload cs')) by lia.
      f_equal. f_equal. lia. }
    split.
    { exact (reader_step_ready _ _ Hready1 (reader_step_trans _ _ _ St St3)). }
    split; [assumption|].
    rewrite U5, T5, U3, T3.
    repeat split; try congruence.
Qed.

(** ** A run of attempts *)

Lemma attempts_time_out css : forall m ret buf h rest,
  engine_ready h ->
  Forall (Forall (chunk_ok (input_report_size (drvdata h)))) css ->
  Forall (falls_short len) css ->
  inbound h = concat (map timed_out_attempt css) ++ rest ->
  exists ret' buf' h',
    read_retry_loop (length css + m) addr len ret buf h =
      read_retry_loop m addr len ret' buf' h' /\
    ret' = match css with [] => ret | _ => - EAGAIN end /\
    length buf' = length buf /\
    engine_ready h' /\ inbound h' = rest /\
    requested (out_log h') = requested (out_log h) ++ repeat addr (length css) /\
    transport_of h' = transport_of h /\ tables_of h' = tables_of h /\
    page (drvdata h') = page (drvdata h).
Proof.
  induction css as [|cs css IH];
    intros m ret buf h rest Hready Hok Hshort Hin.
  - exists ret, buf, h. simpl. rewrite app_nil_r. auto 10.
  - inversion Hok as [|? ? Hok1 Hok2]; subst.
    inversion Hshort as [|? ? Hs1 Hs2]; subst.
    cbn [map concat] in Hin. rewrite <- app_assoc in Hin.
    destruct (attempt_times_out (length css + m) ret buf h cs
                (concat (map timed_out_attempt css) ++ rest))
      as (buf1 & h1 & E1 & L1 & R1 & I1 & Q1 & T1 & B1 & P1); try assumption.
    destruct (transport_of_sizes _ _ T1) as (S1 & _ & _).
    destruct (IH m (- EAGAIN) buf1 h1 rest)
      as (ret2 & buf2 & h2 & E2 & Hret & L2 & R2 & I2 & Q2 & T2 & B2 & P2);
      try assumption.
    { now rewrite S1. }
    exists (- EAGAIN), buf2, h2.
    split.
    { cbn [length Nat.add]. rewrite E1, E2.
      destruct css; subst ret2; reflexivity. }
    split; [reflexivity|].
    split; [congruence|].
    split; [assumption|]. split; [assumption|].
    split.
    { rewrite Q2, Q1, <- app_assoc. reflexivity. }
    repeat split; congruence.
Qed.

End Attempts.

Lemma rmi_set_page_ready pg h :
  engine_ready h ->
  exists h1,
    rmi_set_page pg h = (0, h1) /\ engine_ready h1 /\
    page (drvdata h1) = u8 pg /\ inbound h1 = inbound h /\
    requested (out_log h1) = requested (out_log h) /\
    transport_of h1 = transport_of h /\ tables_of h1 = tables_of h.
Proof.
  intros (Hd & Hrr & Hwr & Hosz & Hsend).
  pose proof (rmi_set_page_log pg h) as [L1 L2].
  pose proof (rmi_set_page_frame pg h) as F; cbv zeta in F.
  destruct F as (F1 & F2 & F3 & F4 & F5 & F6).
  destruct (transport_of_sizes _ _ F1) as (E1 & E2 & E3).
  assert (E : rmi_set_page pg h = (0, snd (rmi_set_page pg h)) /\
              page (drvdata (snd (rmi_set_page pg h))) = u8 pg).
  { unfold rmi_set_page, rmi_write_report, hid_hw_output_report.
    cbn [upd with_drvdata drvdata with_writeReport writeReport
         output_report_size out_log hw_output_ret with_out_log].
    rewrite (Hsend (length (out_log h))) by lia.
    destruct (output_report_size (drvdata h) <? 0);
      rewrite Z.eqb_refl; cbn [negb snd]; split; reflexivity. }
  destruct E as [E Hpg].
  exists (snd (rmi_set_page pg h)).
  split; [exact E|].
  split.
  { unfold engine_ready. rewrite F4, F5, F6, E1, E2, E3, L2.
    repeat split; try assumption. intros k Hk. apply Hsend. lia. }
  auto 10.
Qed.

Lemma exit_ready h :
  engine_ready h ->
  engine_ready (upd (fun d => with_flags
                   (clear_bit RMI_READ_REQUEST_PENDING (flags d)) d) h).
Proof.
  intros (Hd & Hrr & Hwr & Hosz & Hsend).
  unfold engine_ready; simpl. repeat split; try assumption.
  rewrite test_bit_clear_other; [assumption|discriminate].
Qed.

Lemma RMI_PAGE_u8 addr : 0 <= addr -> u8 (RMI_PAGE addr) = RMI_PAGE addr.
Proof.
  intros H. unfold u8, RMI_PAGE. change 0xff with (Z.ones 8).
  rewrite Z.land_ones by lia. change (2 ^ 8) with 256.
  now rewrite Z.mod_mod by lia.
Qed.

(** Entering [rmi_read_block] on a ready engine: the page is selected and
    the retry loop starts from a ready engine on the right page. *)
Lemma rmi_read_block_enter addr buf len h :
  engine_ready h ->
  exists ret0 h0,
    rmi_read_block addr buf len h =
      (let '(ret, buf, h) := read_retry_loop 5 (u16 addr) len ret0 buf h0 in
       (ret, buf,
        upd (fun d => with_flags
               (clear_bit RMI_READ_REQUEST_PENDING (flags d)) d) h)) /\
    engine_ready h0 /\ inbound h0 = inbound h /\
    page (drvdata h0) = RMI_PAGE (u16 addr) /\
    requested (out_log h0) = requested (out_log h) /\
    transport_of h0 = transport_of h /\ tables_of h0 = tables_of h.
Proof.
  intros Hready. unfold rmi_read_block.
  destruct (Z.eqb_spec (RMI_PAGE (u16 addr)) (page (drvdata h))) as [Hp|Hp];
    cbn [negb].
  - exists 0, h. auto 10.
  - destruct (rmi_set_page_ready (RMI_PAGE (u16 addr)) h Hready)
      as (h1 & E & R1 & P1 & I1 & Q1 & T1 & B1).
    rewrite E. cbn [Z.ltb Z.compare].
    exists 0, h1. rewrite RMI_PAGE_u8 in P1 by apply u16_range. auto 10.
Qed.

(** ** The whole read, against a scripted transport *)

Lemma rmi_read_block_times_out addr buf len h css rest :
  engine_ready h -> len <= INT_MAX - 255 ->
  Forall (Forall (chunk_ok (input_report_size (drvdata h)))) css ->
  Forall (falls_short len) css -> length css = 5%nat ->
  inbound h = concat (map timed_out_attempt css) ++ rest ->
  exists buf' h',
    rmi_read_block addr buf len h = (- EAGAIN, buf', h') /\
    length buf' = length buf /\
    engine_ready h' /\ inbound h' = rest /\
    requested (out_log h') = requested (out_log h) ++ repeat (u16 addr) 5 /\
    transport_of h' = transport_of h /\ tables_of h' = tables_of h /\
    page (drvdata h') = RMI_PAGE (u16 addr).
Proof.
  intros Hready Hlen Hok Hshort Hfive Hin.
  destruct (rmi_read_block_enter addr buf len h Hready)
    as (ret0 & h0 & E0 & R0 & I0 & P0 & Q0 & T0 & B0).
  destruct (transport_of_sizes _ _ T0) as (S0 & _ & _).
  destruct (attempts_time_out (u16 addr) len (u16_range addr) Hlen
              css 0 ret0 buf h0 rest)
    as (ret1 & buf1 & h1 & E1 & Hret & L1 & R1 & I1 & Q1 & T1 & B1 & P1);
    try assumption.
  { now rewrite S0. } { congruence. }
  rewrite Nat.add_0_r, Hfive in E1. rewrite Hfive in Q1.
  assert (Hr : ret1 = - EAGAIN) by (destruct css; [discriminate|assumption]).
  clear Hret. subst ret1.
  rewrite E0, E1. cbn [read_retry_loop].
  eexists _, _. split; [reflexivity|].
  split; [assumption|].
  split; [now apply exit_ready|].
  cbn [upd with_drvdata inbound out_log drvdata page with_flags].
  repeat split; try congruence.
  - change (transport_of h1 = transport_of h). congruence.
  - change (tables_of h1 = tables_of h). congruence.
Qed.

Lemma rmi_read_block_succeeds addr buf len h css cs rest :
  engine_ready h -> len <= INT_MAX - 255 ->
  Forall (Forall (chunk_ok (input_report_size (drvdata h)))) css ->
  Forall (falls_short len) css -> (length css < 5)%nat ->
  Forall (chunk_ok (input_report_size (drvdata h))) cs ->
  completes len cs ->
  inbound h = concat (map timed_out_attempt css) ++ map Some cs ++ rest ->
  exists buf' h',
    rmi_read_block addr buf len h =
      (0, blit (firstn (Z.to_nat len) (chunks_payload cs)) 0 buf', h') /\
    length buf' = length buf /\
    engine_ready h' /\ inbound h' = rest /\
    requested (out_log h') =
      requested (out_log h) ++ repeat (u16 addr) (S (length css)) /\
    transport_of h' = transport_of h /\ tables_of h' = tables_of h /\
    page (drvdata h') = RMI_PAGE (u16 addr).
Proof.
  intros Hready Hlen Hok Hshort Hfew Hokc Hcomp Hin.
  destruct (rmi_read_block_enter addr buf len h Hready)
    as (ret0 & h0 & E0 & R0 & I0 & P0 & Q0 & T0 & B0).
  destruct (transport_of_sizes _ _ T0) as (S0 & _ & _).
  destruct (attempts_time_out (u16 addr) len (u16_range addr) Hlen
              css (S (4 - length css)) ret0 buf h0 (map Some cs ++ rest))
    as (ret1 & buf1 & h1 & E1 & Hret & L1 & R1 & I1 & Q1 & T1 & B1 & P1);
    try assumption.
  { now rewrite S0. } { congruence. }
  destruct (transport_of_sizes _ _ T1) as (S1 & _ & _).
  destruct (attempt_completes (u16 addr) len (u16_range addr) Hlen
              (4 - length css) ret1 buf1 h1 cs rest)
    as (h2 & E2 & R2 & I2 & Q2 & T2 & B2 & P2); try assumption.
  { now rewrite S1, S0. }
  replace (length css + S (4 - length css))%nat with 5%nat in E1 by lia.
  rewrite E0, E1, E2.
  exists buf1. eexists. split; [reflexivity|].
  split; [assumption|].
  split; [now apply exit_ready|].
  cbn [upd with_drvdata inbound out_log drvdata page with_flags].
  split; [assumption|].
  split.
  { rewrite Q2, Q1, Q0, <- app_assoc. f_equal.
    change [u16 addr] with (repeat (u16 addr) 1).
    rewrite <- repeat_app. f_equal. lia. }
  repeat split; try congruence.
  - change (transport_of h2 = transport_of h). congruence.
  - change (tables_of h2 = tables_of h). congruence.
Qed.

(** ** The reader's loop never runs out of passes *)

Lemma wait_event_consumes script h :
  let r := wait_event script h in
  if test_bit RMI_READ_DATA_PENDING (flags (drvdata h))
  then inbound (snd r) = script
  else fst r = true -> (length (inbound (snd r)) < length script)%nat.
Proof.
  revert h; induction script as [|[c|] rest IH]; intros h; simpl.
  - case_if; simpl; [reflexivity | discriminate].
  - case_if; simpl; [reflexivity|].
    specialize (IH (snd (rmi_read_data_event c (Z.of_nat (length c)) h))).
    cbv zeta in IH.
    destruct (test_bit _ (flags (drvdata (snd (rmi_read_data_event _ _ h))))).
    + intros _. rewrite IH. lia.
    + intros H. specialize (IH H). lia.
  - case_if; simpl; [reflexivity | discriminate].
Qed.

Lemma read_data_loop_fuel f1 : forall f2 len br bn ret buf h,
  (passes_left h <= f1)%nat -> (passes_left h <= f2)%nat ->
  read_data_loop f1 len br bn ret buf h = read_data_loop f2 len br bn ret buf h.
Proof.
  induction f1 as [|f1 IH]; intros f2 len br bn ret buf h H1 H2.
  - unfold passes_left in H1. destruct (test_bit _ _); lia.
  - destruct f2 as [|f2].
    { unfold passes_left in H2. destruct (test_bit _ _); lia. }
    cbn [read_data_loop].
    destruct (br <? len); [|reflexivity].
    unfold wait_event_timeout.
    pose proof (wait_event_consumes (inbound h) h) as C; cbv zeta in C.
    destruct (wait_event (inbound h) h) as [woken h1]; cbn [fst snd] in C.
    destruct woken; [|reflexivity]. cbn [negb].
    apply IH; unfold passes_left in *; simpl;
      rewrite test_bit_clear_same;
      destruct (test_bit RMI_READ_DATA_PENDING (flags (drvdata h)));
      try (specialize (C eq_refl)); try rewrite C; lia.
Qed.

(** More passes than [rmi_read_block] allows for change nothing. *)
Lemma read_loop_fuel fuel len br bn ret buf h :
  (length (inbound h) + 2 <= fuel)%nat ->
  read_data_loop fuel len br bn ret buf h =
  read_data_loop (length (inbound h) + 2) len br bn ret buf h.
Proof.
  intros H. apply read_data_loop_fuel; unfold passes_left;
    destruct (test_bit _ _); lia.
Qed.

(** ** The claims about the register engine *)

Lemma bench_device_ready input_size output_size script :
  0 <= input_size -> 6 <= output_size ->
  engine_ready (bench_device input_size output_size script).
Proof.
  intros Hi Ho. unfold engine_ready; simpl.
  rewrite !repeat_length. repeat split; lia.
Qed.

(** C10.  [rmi_set_page] records the new page exactly when the transport
    reports the whole output report sent; when the send fails or is short
    the recorded page is the one from before and the transport's result is
    returned. *)
Theorem rmi_set_page_atomic (pg : Z) (h : hid_device) :
  let sent := hw_output_ret h (length (out_log h)) in
  let ret := fst (rmi_set_page pg h) in
  let h' := snd (rmi_set_page pg h) in
  (sent <> output_report_size (drvdata h) ->
   page (drvdata h') = page (drvdata h) /\ ret = sent) /\
  (sent = output_report_size (drvdata h) ->
   page (drvdata h') = u8 pg /\ ret = 0).
Proof.
  cbv zeta.
  unfold rmi_set_page, rmi_write_report, hid_hw_output_report. simpl.
  set (sent := hw_output_ret h (length (out_log h))).
  split; intros Hs.
  - apply Z.eqb_neq in Hs.
    destruct (sent <? 0); simpl; rewrite Hs; simpl; split; reflexivity.
  - apply Z.eqb_eq in Hs.
    destruct (sent <? 0); simpl; rewrite Hs; simpl; split; reflexivity.
Qed.

Lemma rmi_set_page_atomic_witness :
  page (drvdata (snd (rmi_set_page 3 (bench_device 16 8 [])))) = 3 /\
  page (drvdata (snd (rmi_set_page 3 (dead_device 16 8)))) = 0.
Proof.
  split.
  - apply (proj2 (rmi_set_page_atomic 3 (bench_device 16 8 []))). reflexivity.
  - apply (proj1 (rmi_set_page_atomic 3 (dead_device 16 8))). discriminate.
Defined.

(** C1.  [rmi_read_block] sends at most five read requests.  On a ready
    engine: when five attempts in a row each meet a timeout before [len]
    bytes are in, the call fails with [-EAGAIN] after exactly five
    requests for the address; when fewer than five attempts time out and
    the next one collects [len] bytes, the call returns 0 after exactly
    one request per attempt.  Either way the reader has consumed exactly
    the deliveries of those attempts. *)
Theorem rmi_read_block_attempts (addr : Z) (buf : list Z) (len : Z)
    (h : hid_device) :
  (read_requests (out_log (snd (rmi_read_block addr buf len h)))
   <= read_requests (out_log h) + 5)%nat /\
  (forall css rest,
     engine_ready h -> len <= INT_MAX - 255 ->
     Forall (Forall (chunk_ok (input_report_size (drvdata h)))) css ->
     Forall (falls_short len) css ->
     (length css = 5%nat ->
      inbound h = concat (map timed_out_attempt css) ++ rest ->
      let '(ret, _, h') := rmi_read_block addr buf len h in
      ret = - EAGAIN /\
      requested (out_log h') = requested (out_log h) ++ repeat (u16 addr) 5 /\
      inbound h' = rest) /\
     (forall cs,
        (length css < 5)%nat ->
        Forall (chunk_ok (input_report_size (drvdata h))) cs ->
        completes len cs ->
        inbound h = concat (map timed_out_attempt css) ++ map Some cs ++ rest ->
        let '(ret, _, h') := rmi_read_block addr buf len h in
        ret = 0 /\
        requested (out_log h') =
          requested (out_log h) ++ repeat (u16 addr) (S (length css)) /\
        inbound h' = rest)).
Proof.
  split.
  - apply (rmi_read_block_frame addr buf len h).
  - intros css rest Hready Hlen Hok Hshort. split.
    + intros Hfive Hin.
      destruct (rmi_read_block_times_out addr buf len h css rest)
        as (buf' & h' & E & _ & _ & I & Q & _); try assumption.
      rewrite E. auto.
    + intros cs Hfew Hokc Hcomp Hin.
      destruct (rmi_read_block_succeeds addr buf len h css cs rest)
        as (buf' & h' & E & _ & _ & I & Q & _); try assumption.
      rewrite E. auto.
Qed.

Lemma rmi_read_block_attempts_witness :
  (let h := bench_device 16 8
              [None; None; None; None;
               Some (read_data_report [1; 2; 3; 4; 5; 6; 7; 8; 9; 10]);
               Some (read_data_report [11])] in
   let '(ret, _, h') := rmi_read_block 0x0123 (repeat 0 10) 10 h in
   ret = 0 /\
   requested (out_log h') = requested (out_log h) ++ repeat (u16 0x0123) 5 /\
   inbound h' = [Some (read_data_report [11])]) /\
  (let h := bench_device 16 8
              [None; Some (read_data_report [1; 2; 3]); None; None; None; None;
               Some (read_data_report [11])] in
   let '(ret, _, h') := rmi_read_block 0x0123 (repeat 0 10) 10 h in
   ret = - EAGAIN /\
   requested (out_log h') = requested (out_log h) ++ repeat (u16 0x0123) 5 /\
   inbound h' = [Some (read_data_report [11])]).
Proof.
  split; intros h.
  - refine (proj2 (proj2 (rmi_read_block_attempts 0x0123 (repeat 0 10) 10 h)
                     [[]; []; []; []] [Some (read_data_report [11])]
                     (bench_device_ready 16 8 _ _ _) _ _ _)
              [read_data_report [1; 2; 3; 4; 5; 6; 7; 8; 9; 10]] _ _ _ _).
    + lia.
    + lia.
    + unfold INT_MAX; lia.
    + repeat constructor.
    + repeat constructor.
    + simpl; lia.
    + repeat constructor; vm_compute; discriminate.
    + right. exists [], (read_data_report [1; 2; 3; 4; 5; 6; 7; 8; 9; 10]).
      repeat split; vm_compute; congruence.
    + reflexivity.
  - refine (proj1 (proj2 (rmi_read_block_attempts 0x0123 (repeat 0 10) 10 h)
                     [[]; [read_data_report [1; 2; 3]]; []; []; []]
                     [Some (read_data_report [11])]
                     (bench_device_ready 16 8 _ _ _) _ _ _) _ _).
    + lia.
    + lia.
    + unfold INT_MAX; lia.
    + repeat constructor; vm_compute; discriminate.
    + repeat constructor.
    + reflexivity.
    + reflexivity.
Defined.




(** ** The claim about the finger count *)

Lemma tables_of_fingers h h' :
  tables_of h' = tables_of h ->
  max_fingers (drvdata h') = max_fingers (drvdata h) /\
  f11 (drvdata h') = f11 (drvdata h).
Proof. unfold tables_of; intros E; inversion E; auto. Qed.

Lemma rmi_read_block_keeps_fingers addr buf len h :
  max_fingers (drvdata (snd (rmi_read_block addr buf len h)))
    = max_fingers (drvdata h) /\
  f11 (drvdata (snd (rmi_read_block addr buf len h))) = f11 (drvdata h).
Proof.
  apply tables_of_fingers. apply (rmi_read_block_frame addr buf len h).
Qed.

Lemma f11_max_fingers_cases q1 :
  (Z.land q1 0x07 <= 4 /\ f11_max_fingers q1 = Z.land q1 0x07 + 1) \/
  (5 <= Z.land q1 0x07 /\ f11_max_fingers q1 = 10).
Proof.
  unfold f11_max_fingers.
  destruct (Z.gtb_spec (Z.land q1 7 + 1) 5); [right | left]; split; lia.
Qed.

Lemma f11_max_fingers_le q1 : 1 <= f11_max_fingers q1 <= 10.
Proof.
  assert (0 <= Z.land q1 0x07) by (apply Z.land_nonneg; lia).
  destruct (f11_max_fingers_cases q1) as [[H1 ->] | [H1 ->]]; lia.
Qed.

Lemma fingers_from_read q1 addr buf len h :
  fingers_from q1 h -> fingers_from q1 (snd (rmi_read_block addr buf len h)).
Proof.
  unfold fingers_from.
  destruct (rmi_read_block_keeps_fingers addr buf len h) as [-> ->]. auto.
Qed.

Lemma rmi_populate_f11_fingers h :
  let h' := snd (rmi_populate_f11 h) in
  tables_of h' = tables_of h \/ exists q1, fingers_from q1 h'.
Proof.
  cbv zeta. unfold rmi_populate_f11, rmi_read.
  destruct (query_base_addr (f11 (drvdata h)) =? 0); [left; reflexivity|].
  pose proof (rmi_read_block_frame (query_base_addr (f11 (drvdata h)))
                (repeat 0 20) 1 h) as F0; cbv zeta in F0.
  destruct (rmi_read_block (query_base_addr (f11 (drvdata h))) (repeat 0 20) 1 h)
    as [[ret0 buf0] h0]; cbn [snd] in F0.
  destruct F0 as (_ & F0 & _).
  destruct (negb (ret0 =? 0)); [left; exact F0|].
  pose proof (rmi_read_block_frame (query_base_addr (f11 (drvdata h)) + 1)
                buf0 1 h0) as F1; cbv zeta in F1.
  destruct (rmi_read_block (query_base_addr (f11 (drvdata h)) + 1) buf0 1 h0)
    as [[ret1 buf1] h1]; cbn [snd] in F1.
  destruct F1 as (_ & F1 & _).
  destruct (negb (ret1 =? 0)); [left; cbn [snd]; congruence|].
  right. exists (load buf1 0).
  set (h2 := upd (f11_query1 (load buf1 0)) h1).
  assert (H2 : fingers_from (load buf1 0) h2) by (split; reflexivity).
  clearbody h2.
  destruct (negb (flag (load buf1 0) 4)); [exact H2|].
  pose proof (fingers_from_read _ (query_base_addr (f11 (drvdata h)) + 8)
                buf1 1 h2 H2) as H3.
  destruct (rmi_read_block (query_base_addr (f11 (drvdata h)) + 8) buf1 1 h2)
    as [[ret3 buf3] h3]; cbn [snd] in H3.
  destruct (negb (ret3 =? 0)); [exact H3|].
  assert (Hctrl : forall buf hh, fingers_from (load buf1 0) hh ->
            fingers_from (load buf1 0)
              (snd (let '(ret, buf, h) :=
                      rmi_read_block (control_base_addr (f11 (drvdata hh)))
                        buf 20 hh in
                    if negb (ret =? 0) then (ret, h)
                    else (0, upd (with_max_xy
                            (Z.lor (load buf 6) (Z.shiftl (load buf 7) 8))
                            (Z.lor (load buf 8) (Z.shiftl (load buf 9) 8))) h)))).
  { intros buf hh Hh.
    pose proof (fingers_from_read _ (control_base_addr (f11 (drvdata hh)))
                  buf 20 hh Hh) as Hc.
    destruct (rmi_read_block (control_base_addr (f11 (drvdata hh))) buf 20 hh)
      as [[retc bufc] hc]; cbn [snd] in Hc.
    destruct (negb (retc =? 0)); exact Hc. }
  destruct (flag (load buf0 0) 5); [|apply Hctrl; exact H3].
  match goal with
  | |- context [rmi_read_block ?a buf3 1 h3] =>
      pose proof (fingers_from_read _ a buf3 1 h3 H3) as H4;
      destruct (rmi_read_block a buf3 1 h3) as [[ret4 buf4] h4]
  end.
  cbn [snd] in H4.
  destruct (negb (ret4 =? 0)); [exact H4|].
  destruct (flag (load buf4 0) 5); [|apply Hctrl; exact H4].
  match goal with
  | |- context [rmi_read_block ?a buf4 4 h4] =>
      pose proof (fingers_from_read _ a buf4 4 h4 H4) as H5;
      destruct (rmi_read_block a buf4 4 h4) as [[ret5 buf5] h5]
  end.
  cbn [snd] in H5.
  destruct (negb (ret5 =? 0)); [exact H5|].
  apply Hctrl. exact H5.
Qed.

(** C8.  Query 1 gives the finger count as its low three bits plus one,
    and any count above five becomes ten: raw 6 gives 10, raw 2 gives 3,
    and no query byte gives more than ten.  After [rmi_populate_f11] the
    context either has the tables it had (the call failed before reading
    query 1) or carries the count and touch report size of some query
    byte. *)
Theorem rmi_populate_f11_max_fingers :
  (forall q1,
     ((Z.land q1 0x07 <= 4 /\ f11_max_fingers q1 = Z.land q1 0x07 + 1) \/
      (5 <= Z.land q1 0x07 /\ f11_max_fingers q1 = 10)) /\
     f11_max_fingers q1 <= 10) /\
  f11_max_fingers 6 = 10 /\ f11_max_fingers 2 = 3 /\
  (forall h,
     tables_of (snd (rmi_populate_f11 h)) = tables_of h \/
     exists q1, fingers_from q1 (snd (rmi_populate_f11 h))) /\
  max_fingers (drvdata (attached_sensor 0x16)) = 10 /\
  max_fingers (drvdata (attached_sensor 0x12)) = 3.
Proof.
  split.
  { intros q1. split; [apply f11_max_fingers_cases | apply f11_max_fingers_le]. }
  split; [reflexivity|]. split; [reflexivity|].
  split; [intros h; apply rmi_populate_f11_fingers|].
  split; vm_compute; reflexivity.
Qed.

(** ** The claims about the attention decoder *)

(** What the touch decoder reports for a finger that is down, byte by
    byte: Y, the second width and the pressure use every bit the layout
    gives them; X and the first width keep three bits of their nibble. *)
Lemma rmi_f11_process_touch_live slot t0 t1 t2 t3 t4 tail h :
  rmi_f11_process_touch slot 0x01 (t0 :: t1 :: t2 :: t3 :: t4 :: tail) h =
  Some (tt, with_input_log
    (input_log h ++
     [Ev_mt_slot slot; Ev_mt_slot_state true;
      Ev_abs ABS_MT_POSITION_X
        (Z.lor (Z.shiftl (u8 t0) 4) (Z.land (u8 t2) 0x07));
      Ev_abs ABS_MT_POSITION_Y
        (int32 (max_y (drvdata h)
                - Z.lor (Z.shiftl (u8 t1) 4) (Z.shiftr (u8 t2) 4)));
      Ev_abs ABS_MT_ORIENTATION
        (if Z.land (u8 t3) 0x07 >? Z.shiftr (u8 t3) 4 then 1 else 0);
      Ev_abs ABS_MT_PRESSURE (u8 t4);
      Ev_abs ABS_MT_TOUCH_MAJOR (Z.max (Z.land (u8 t3) 0x07) (Z.shiftr (u8 t3) 4));
      Ev_abs ABS_MT_TOUCH_MINOR (Z.min (Z.land (u8 t3) 0x07) (Z.shiftr (u8 t3) 4))])
    h).
Proof.
  unfold rmi_f11_process_touch, mbind, hdata_of, emit, ld, load_chk, mret.
  simpl. rewrite <- !app_assoc. reflexivity.
Qed.

(** C3.  The layout gives X the whole low nibble of byte 2 and the first
    width the whole low nibble of byte 3; the decoder masks both with
    [0x07].  For the finger bytes 12 34 AF 9C 40 it reports X = 0x127 and
    widths 4 and 9, where the layout has X = 0x12F and widths 12 and 9. *)
Theorem rmi_f11_process_touch_masks_nibble :
  let touch_data := [0x12; 0x34; 0xAF; 0x9C; 0x40] in
  option_map (fun r => input_log (snd r))
    (rmi_f11_process_touch 0 0x01 touch_data (attached_sensor 0x14)) =
  Some [Ev_mt_slot 0; Ev_mt_slot_state true;
        Ev_abs ABS_MT_POSITION_X 0x127;
        Ev_abs ABS_MT_POSITION_Y (1000 - 0x34A);
        Ev_abs ABS_MT_ORIENTATION 0;
        Ev_abs ABS_MT_PRESSURE 0x40;
        Ev_abs ABS_MT_TOUCH_MAJOR 9;
        Ev_abs ABS_MT_TOUCH_MINOR 4] /\
  layout_x touch_data = 0x12F /\ layout_wx touch_data = 0xC.
Proof. vm_compute. repeat split. Qed.

(** The touch decoder's guard: a payload shorter than the function's
    report size is skipped, nothing is read and nothing reported. *)
Lemma rmi_f11_input_event_skips_short irq data size h :
  0 <= size <= INT_MAX -> size < report_size (f11 (drvdata h)) ->
  rmi_f11_input_event irq data size h = Some (0, h).
Proof.
  intros H Hlt. unfold rmi_f11_input_event, mbind, hdata_of.
  unfold u32. rewrite Z.mod_small by (unfold INT_MAX in H; lia).
  now rewrite (proj2 (Z.ltb_lt _ _)) by lia.
Qed.

(** C5.  The touch decoder skips a payload shorter than its report size;
    the button decoder has no such guard.  On the attached sensor (F11
    report size 27, F30 report size 1) an attention report with both
    interrupts set that ends after the interrupt byte is skipped by the
    touch decoder and makes the button decoder read the byte after the
    report's end. *)
Theorem rmi_f30_input_event_overreads :
  let h := attached_sensor 0x14 in
  report_size (f11 (drvdata h)) = 27 /\
  report_size (f30 (drvdata h)) = 1 /\
  rmi_f11_input_event 0x03 [] 0 h = Some (0, h) /\
  rmi_f30_input_event 0x03 [] 0 h = None /\
  rmi_raw_event [RMI_ATTN_REPORT_ID; 0x03] 2 h = None /\
  option_map (fun r => input_log (snd r))
    (rmi_raw_event [RMI_ATTN_REPORT_ID; 0x03; 0x00] 3 h) =
  Some [Ev_key BTN_LEFT true].
Proof. vm_compute. repeat split. Qed.

(** C4.  For four fingers the status region is one byte, the declared
    report size is 21, and the decoder places the first finger's block at
    offset 2: on the sensor whose query 1 reads 0x13, a 21-byte payload
    with finger 3 down makes it read byte 21.  For the other finger counts
    the offset is the size of the status region. *)
Theorem rmi_f11_input_event_offset_four :
  let h := attached_sensor 0x13 in
  max_fingers (drvdata h) = 4 /\
  report_size (f11 (drvdata h)) = 21 /\
  f11_data_offset 4 = 2 /\ DIV_ROUND_UP 4 4 = 1 /\
  rmi_f11_input_event 0x01
    ([0x40] ++ repeat 0 15 ++ [0x12; 0x34; 0xAF; 0x9C; 0x40]) 21 h = None /\
  (forall mf, In mf [1; 2; 3; 5; 10] -> f11_data_offset mf = DIV_ROUND_UP mf 4).
Proof.
  repeat split; try (vm_compute; reflexivity).
  intros mf Hin. simpl in Hin.
  repeat (destruct Hin as [<- | Hin]; [reflexivity|]). contradiction.
Qed.

(** ** The claim about mode recovery *)

(** C9 (amended).  A mouse report whose second byte is zero makes
    [rmi_raw_event] queue the reset work and return 0; the report path
    itself issues no feature request and leaves the driver context alone;
    the queued work, when the work queue runs it, sends the set-mode
    feature report for attention mode.  A mouse report whose second byte
    is not zero queues nothing and sends nothing: the device is left
    exactly as it was, in whatever state it is. *)
Theorem rmi_raw_event_mouse_schedules_reset (data : list Z) (size : Z)
    (h : hid_device) (d1 : Z) :
  load_chk data 0 = Some RMI_MOUSE_REPORT_ID ->
  load_chk data 1 = Some d1 ->
  (d1 = 0 ->
   exists h',
     rmi_raw_event data size h = Some (0, h') /\
     reset_work_pending h' = true /\
     feature_log h' = feature_log h /\
     out_log h' = out_log h /\
     drvdata h' = drvdata h /\
     feature_log (run_work_queue h') =
       feature_log h ++ [[RMI_SET_RMI_MODE_REPORT_ID; RMI_MODE_ATTN_REPORTS]] /\
     reset_work_pending (run_work_queue h') = false) /\
  (d1 <> 0 -> rmi_raw_event data size h = Some (0, h)).
Proof.
  intros H0 H1.
  assert (E : rmi_raw_event data size h =
              if d1 =? 0 then Some (0, with_reset_work_pending true h)
              else Some (0, h)).
  { unfold rmi_raw_event, mbind, ld. rewrite H0. cbn [option_map].
    cbn [Z.eqb RMI_MOUSE_REPORT_ID RMI_READ_DATA_REPORT_ID RMI_ATTN_REPORT_ID
         Pos.eqb].
    rewrite H1. cbn [option_map]. destruct (d1 =? 0); reflexivity. }
  split.
  - intros ->. exists (with_reset_work_pending true h).
    split; [exact E|].
    unfold run_work_queue, rmi_reset_work, rmi_set_mode, hid_hw_raw_request.
    simpl. destruct (hw_request_ret h (length (feature_log h)) <? 0);
      simpl; repeat split.
  - intros Hd. rewrite E. now rewrite (proj2 (Z.eqb_neq _ _) Hd).
Qed.

Lemma rmi_raw_event_mouse_schedules_reset_witness :
  (exists h',
     rmi_raw_event [0x01; 0x00; 0x05; 0xfb] 4 (attached_sensor 0x14)
       = Some (0, h') /\
     reset_work_pending h' = true /\
     feature_log (run_work_queue h') = [[0x0f; 0x01]; [0x0f; 0x01]]) /\
  rmi_raw_event [0x01; 0x02; 0x05; 0xfb] 4 (attached_sensor 0x14)
    = Some (0, attached_sensor 0x14).
Proof.
  split.
  - destruct (proj1 (rmi_raw_event_mouse_schedules_reset
                       [0x01; 0x00; 0x05; 0xfb] 4
                       (attached_sensor 0x14) 0 eq_refl eq_refl) eq_refl)
      as (h' & E & P & _ & _ & _ & F & _).
    exists h'. repeat split; assumption.
  - refine (proj2 (rmi_raw_event_mouse_schedules_reset
                     [0x01; 0x02; 0x05; 0xfb] 4
                     (attached_sensor 0x14) 2 eq_refl eq_refl) _).
    discriminate.
Defined.

(** C9 as stated fails for a mouse report whose second byte is not zero:
    nothing is queued and nothing is sent. *)
Lemma rmi_raw_event_mouse_button_down :
  let h := attached_sensor 0x14 in
  rmi_raw_event [0x01; 0x01; 0x05; 0xfb] 4 h = Some (0, h) /\
  reset_work_pending h = false /\
  run_work_queue h = h.
Proof. vm_compute. repeat split. Qed.

(** ** Reading one register block answered in one report *)

Lemma chunk_count_report p :
  (length p <= 255)%nat -> chunk_count (read_data_report p) = Z.of_nat (length p).
Proof.
  intros H. unfold chunk_count, read_data_report, load, u8. simpl.
  apply Z.mod_small. lia.
Qed.

Lemma chunk_payload_report p :
  (length p <= 255)%nat -> chunk_payload (read_data_report p) = p.
Proof.
  intros H. unfold chunk_payload. rewrite chunk_count_report by assumption.
  unfold read_data_report. simpl skipn. rewrite Nat2Z.id. apply firstn_all.
Qed.

Lemma rmi_read_block_one_report addr buf h p rest :
  engine_ready h ->
  (0 < length p <= 255)%nat ->
  2 + Z.of_nat (length p) <= input_report_size (drvdata h) ->
  length buf = length p ->
  inbound h = Some (read_data_report p) :: rest ->
  exists h',
    rmi_read_block addr buf (Z.of_nat (length p)) h = (0, p, h') /\
    engine_ready h' /\ inbound h' = rest /\
    requested (out_log h') = requested (out_log h) ++ [u16 addr] /\
    transport_of h' = transport_of h /\ tables_of h' = tables_of h /\
    page (drvdata h') = RMI_PAGE (u16 addr).
Proof.
  intros Hready Hp Hirs Hbuf Hin.
  assert (Hc : chunk_count (read_data_report p) = Z.of_nat (length p))
    by (apply chunk_count_report; lia).
  destruct (rmi_read_block_succeeds addr buf (Z.of_nat (length p)) h []
              [read_data_report p] rest)
    as (buf' & h' & E & L & R & I & Q & T & B & P); try assumption.
  - unfold INT_MAX; lia.
  - constructor.
  - constructor.
  - simpl; lia.
  - constructor; [|constructor]. unfold chunk_ok. rewrite Hc.
    unfold read_data_report. simpl length. lia.
  - right. exists [], (read_data_report p). unfold falls_short. simpl.
    rewrite Hc. repeat split; lia.
  - exists h'. split.
    { rewrite E. f_equal. f_equal.
      rewrite chunks_payload_one, chunk_payload_report by lia.
      rewrite Nat2Z.id, firstn_all.
      rewrite blit_cover by lia. rewrite L, Hbuf. apply firstn_all. }
    auto 10.
Qed.

(** ** Registration leaves the engine alone *)

Lemma rmi_register_function_frame e pg i h :
  let h' := upd (rmi_register_function e pg i) h in
  (engine_ready h -> engine_ready h') /\
  inbound h' = inbound h /\ out_log h' = out_log h /\
  transport_of h' = transport_of h /\
  page (drvdata h') = page (drvdata h).
Proof.
  cbv zeta. unfold rmi_register_function, engine_ready.
  destruct (function_number e =? 17); [|destruct (function_number e =? 48)];
    simpl; repeat split; tauto.
Qed.

Lemma rmi_register_function_tables e pg i h1 h2 :
  tables_of h1 = tables_of h2 ->
  tables_of (upd (rmi_register_function e pg i) h1) =
  tables_of (upd (rmi_register_function e pg i) h2).
Proof.
  unfold tables_of, rmi_register_function. simpl. intros E.
  inversion E as [[E1 E2 E3 E4 E5 E6 E7 E8 E9 E10 E11 E12]].
  destruct (function_number e =? 17); [|destruct (function_number e =? 48)];
    simpl; congruence.
Qed.

Lemma register_page_tables pg es : forall i h1 h2,
  tables_of h1 = tables_of h2 ->
  tables_of (upd (register_page pg i es) h1) =
  tables_of (upd (register_page pg i es) h2).
Proof.
  induction es as [|e es IH]; intros i h1 h2 E.
  - exact E.
  - change (tables_of (upd (register_page pg (i + interrupt_source_count e) es)
                         (upd (rmi_register_function e pg i) h1)) =
            tables_of (upd (register_page pg (i + interrupt_source_count e) es)
                         (upd (rmi_register_function e pg i) h2))).
    apply IH. now apply rmi_register_function_tables.
Qed.

(** ** The scanner's loops never run out of passes *)

Lemma pdt_entry_loop_fuel f1 : forall f2 i pdt_end pg has interrupt entry h,
  (Z.to_nat (i - pdt_end + 1) <= f1)%nat ->
  (Z.to_nat (i - pdt_end + 1) <= f2)%nat ->
  pdt_entry_loop f1 i pdt_end pg has interrupt entry h =
  pdt_entry_loop f2 i pdt_end pg has interrupt entry h.
Proof.
  induction f1 as [|f1 IH]; intros f2 i pdt_end pg has interrupt entry h H1 H2.
  - destruct f2 as [|f2]; [reflexivity|]. cbn [pdt_entry_loop].
    rewrite Z.geb_leb. now rewrite (proj2 (Z.leb_gt _ _)) by lia.
  - destruct f2 as [|f2]; cbn [pdt_entry_loop].
    + rewrite Z.geb_leb. now rewrite (proj2 (Z.leb_gt _ _)) by lia.
    + destruct (Z.geb_spec i pdt_end); [|reflexivity].
      destruct (rmi_read_block i entry sizeof_pdt_entry h) as [[retval e1] h1].
      destruct (negb (retval =? 0)); [reflexivity|].
      destruct (RMI4_END_OF_PDT (function_number e1)); [reflexivity|].
      apply IH; unfold sizeof_pdt_entry; lia.
Qed.

Lemma pdt_page_loop_fuel f1 : forall f2 pg interrupt entry h,
  (Z.to_nat (RMI4_MAX_PAGE + 1 - pg) <= f1)%nat ->
  (Z.to_nat (RMI4_MAX_PAGE + 1 - pg) <= f2)%nat ->
  pdt_page_loop f1 pg interrupt entry h = pdt_page_loop f2 pg interrupt entry h.
Proof.
  induction f1 as [|f1 IH]; intros f2 pg interrupt entry h H1 H2.
  - destruct f2 as [|f2]; [reflexivity|]. cbn [pdt_page_loop].
    now rewrite (proj2 (Z.leb_gt _ _)) by (unfold RMI4_MAX_PAGE in *; lia).
  - destruct f2 as [|f2]; cbn [pdt_page_loop].
    + now rewrite (proj2 (Z.leb_gt _ _)) by (unfold RMI4_MAX_PAGE in *; lia).
    + destruct (Z.leb_spec pg RMI4_MAX_PAGE); [|reflexivity].
      destruct (pdt_entry_loop _ _ _ pg false interrupt entry h)
        as [[retval | has interrupt1 entry1] h1]; [reflexivity|].
      destruct (negb has); [reflexivity|].
      apply IH; unfold RMI4_MAX_PAGE in *; lia.
Qed.

(** ** Sentinels, whatever the transport does *)

(** A read that succeeds and brings a sentinel ends the walk over the
    page in the state that read left. *)
Lemma pdt_entry_loop_sentinel fuel i pdt_end pg has interrupt entry h e h' :
  pdt_end <= i ->
  rmi_read_block i entry sizeof_pdt_entry h = (0, e, h') ->
  RMI4_END_OF_PDT (function_number e) = true ->
  pdt_entry_loop (S fuel) i pdt_end pg has interrupt entry h =
  (Pdt_done has interrupt e, h').
Proof.
  intros Hi E He. cbn [pdt_entry_loop].
  rewrite (proj2 (Z.geb_le _ _)) by assumption.
  rewrite E. cbn [Z.eqb negb]. now rewrite He.
Qed.

(** A page whose first entry is a sentinel ends the scan in the state
    that one read left: no further page is read. *)
Lemma pdt_page_loop_empty_page fuel pg interrupt entry h e h' :
  0 <= pg <= RMI4_MAX_PAGE ->
  rmi_read_block (RMI4_PAGE_SIZE * pg + PDT_START_SCAN_LOCATION) entry
    sizeof_pdt_entry h = (0, e, h') ->
  RMI4_END_OF_PDT (function_number e) = true ->
  pdt_page_loop (S fuel) pg interrupt entry h = (0, h').
Proof.
  intros Hpg E He. cbn [pdt_page_loop].
  rewrite (proj2 (Z.leb_le _ _)) by lia.
  assert (B : u16 (u16 (RMI4_PAGE_SIZE * pg) + PDT_START_SCAN_LOCATION)
              = RMI4_PAGE_SIZE * pg + PDT_START_SCAN_LOCATION /\
              u16 (u16 (RMI4_PAGE_SIZE * pg) + PDT_END_SCAN_LOCATION)
              = RMI4_PAGE_SIZE * pg + PDT_END_SCAN_LOCATION).
  { unfold RMI4_MAX_PAGE, RMI4_PAGE_SIZE, PDT_START_SCAN_LOCATION,
      PDT_END_SCAN_LOCATION, u16 in *.
    rewrite (Z.mod_small (256 * pg)) by lia.
    split; apply Z.mod_small; lia. }
  destruct B as [-> ->].
  replace (Z.to_nat (RMI4_PAGE_SIZE * pg + PDT_START_SCAN_LOCATION
                     - (RMI4_PAGE_SIZE * pg + PDT_END_SCAN_LOCATION) + 1))
    with 229%nat
    by (unfold PDT_START_SCAN_LOCATION, PDT_END_SCAN_LOCATION; lia).
  rewrite (pdt_entry_loop_sentinel _ _ _ _ _ _ _ _ e h'); try assumption.
  - reflexivity.
  - unfold PDT_START_SCAN_LOCATION, PDT_END_SCAN_LOCATION; lia.
Qed.

(** ** The walk over one page *)

Lemma u16_small z : 0 <= z < 65536 -> u16 z = z.
Proof. intros H; unfold u16; now apply Z.mod_small. Qed.

Lemma descending_cons i n :
  i :: map (fun j => i - sizeof_pdt_entry - 6 * Z.of_nat j) (seq 0 n) =
  map (fun j => i - 6 * Z.of_nat j) (seq 0 (S n)).
Proof.
  cbn [seq map]. rewrite Z.sub_0_r. f_equal.
  rewrite <- seq_shift, map_map.
  apply map_ext. intros j. unfold sizeof_pdt_entry. lia.
Qed.

Lemma pdt_entry_loop_page es : forall fuel i pdt_end pg has interrupt entry h t rest,
  engine_ready h -> 8 <= input_report_size (drvdata h) ->
  length entry = 6%nat ->
  Forall entry_ok es -> sentinel_ok t ->
  inbound h = map (fun e => Some (read_data_report e)) (es ++ [t]) ++ rest ->
  0 <= pdt_end <= i - 6 * Z.of_nat (length es) -> i < 65536 ->
  (length es < fuel)%nat ->
  exists h',
    pdt_entry_loop fuel i pdt_end pg has interrupt entry h =
      (Pdt_done (match es with [] => has | _ => true end)
         (interrupt + interrupt_sources es) t, h') /\
    engine_ready h' /\ inbound h' = rest /\
    requested (out_log h') =
      requested (out_log h) ++
      map (fun j => i - 6 * Z.of_nat j) (seq 0 (S (length es))) /\
    transport_of h' = transport_of h /\
    tables_of h' = tables_of (upd (register_page pg interrupt es) h) /\
    page (drvdata h') = RMI_PAGE (i - 6 * Z.of_nat (length es)).
Proof.
  induction es as [|e es IH];
    intros fuel i pdt_end pg has interrupt entry h t rest
           Hready Hirs Hentry Hes Ht Hin Hrange Hi Hfuel.
  - destruct fuel as [|fuel]; [simpl in Hfuel; lia|].
    destruct Ht as [Lt Et]. simpl in Hrange, Hin.
    cbn [pdt_entry_loop].
    rewrite (proj2 (Z.geb_le _ _)) by lia.
    destruct (rmi_read_block_one_report i entry h t rest)
      as (h' & E & R & I & Q & T & B & P); try assumption; try lia.
    rewrite Lt in E. change (Z.of_nat 6) with sizeof_pdt_entry in E.
    rewrite E. cbn [Z.eqb negb]. rewrite Et.
    rewrite u16_small in Q, P by lia.
    exists h'. split; [simpl; now rewrite Z.add_0_r|].
    split; [assumption|]. split; [assumption|].
    split. { rewrite Q. simpl. now rewrite Z.sub_0_r. }
    split; [assumption|]. split; [exact B|].
    rewrite P. f_equal. simpl. lia.
  - destruct fuel as [|fuel]; [simpl in Hfuel; lia|].
    inversion Hes as [|? ? [Le Ee] Hes']; subst.
    cbn [length] in Hrange, Hfuel. cbn [app map] in Hin.
    cbn [pdt_entry_loop].
    rewrite (proj2 (Z.geb_le _ _)) by lia.
    destruct (rmi_read_block_one_report i entry h e
                (map (fun e => Some (read_data_report e)) (es ++ [t]) ++ rest))
      as (h1 & E & R & I & Q & T & B & P); try assumption; try lia.
    rewrite Le in E. change (Z.of_nat 6) with sizeof_pdt_entry in E.
    rewrite E. cbn [Z.eqb negb]. rewrite Ee.
    rewrite u16_small in Q by lia.
    destruct (transport_of_sizes _ _ T) as (S1 & _ & _).
    destruct (rmi_register_function_frame e pg interrupt h1)
      as (F1 & F2 & F3 & F4 & F5).
    set (h2 := upd (rmi_register_function e pg interrupt) h1) in *.
    destruct (IH fuel (i - sizeof_pdt_entry) pdt_end pg true
                (interrupt + interrupt_source_count e) e h2 t rest)
      as (h' & E' & R' & I' & Q' & T' & B' & P'); try assumption;
      try (unfold sizeof_pdt_entry; lia).
    { now apply F1. }
    { destruct (transport_of_sizes _ _ F4) as (S2 & _ & _). lia. }
    exists h'. split.
    { rewrite E'. unfold interrupt_sources. cbn [fold_right].
      rewrite Z.add_assoc. now destruct es. }
    split; [assumption|]. split; [assumption|].
    split.
    { rewrite Q', F3, Q, <- app_assoc. f_equal.
      exact (descending_cons i (S (length es))). }
    split; [congruence|].
    split.
    { rewrite B'. cbn [register_page].
      change (tables_of (upd (register_page pg (interrupt + interrupt_source_count e) es)
                           (upd (rmi_register_function e pg interrupt) h1)) =
              tables_of (upd (register_page pg (interrupt + interrupt_source_count e) es)
                           (upd (rmi_register_function e pg interrupt) h))).
      apply register_page_tables. now apply rmi_register_function_tables. }
    rewrite P'. f_equal. cbn [length]. unfold sizeof_pdt_entry. lia.
Qed.

(** ** The walk over the pages *)

Lemma pdt_script_cons pg p pages t :
  pdt_script pg (p :: pages) t = page_script p ++ pdt_script (pg + 1) pages t.
Proof.
  unfold pdt_script. cbn [map concat length]. rewrite <- app_assoc.
  do 2 f_equal. replace (pg + 1 + Z.of_nat (length pages))
    with (pg + Z.of_nat (S (length pages))) by lia.
  reflexivity.
Qed.

Lemma page_bounds pg :
  0 <= pg <= RMI4_MAX_PAGE ->
  u16 (u16 (RMI4_PAGE_SIZE * pg) + PDT_START_SCAN_LOCATION)
    = RMI4_PAGE_SIZE * pg + PDT_START_SCAN_LOCATION /\
  u16 (u16 (RMI4_PAGE_SIZE * pg) + PDT_END_SCAN_LOCATION)
    = RMI4_PAGE_SIZE * pg + PDT_END_SCAN_LOCATION.
Proof.
  unfold RMI4_MAX_PAGE, RMI4_PAGE_SIZE, PDT_START_SCAN_LOCATION,
    PDT_END_SCAN_LOCATION. intros H.
  rewrite (u16_small (256 * pg)) by lia.
  split; apply u16_small; lia.
Qed.

Lemma pdt_page_loop_pages pages : forall fuel pg interrupt entry h t rest,
  engine_ready h -> 8 <= input_report_size (drvdata h) ->
  length entry = 6%nat ->
  Forall page_ok pages -> sentinel_ok t ->
  0 <= pg -> pg + Z.of_nat (length pages) <= RMI4_MAX_PAGE + 1 ->
  inbound h = pdt_script pg pages t ++ rest ->
  (length pages < fuel)%nat ->
  exists h',
    pdt_page_loop fuel pg interrupt entry h = (0, h') /\
    engine_ready h' /\ inbound h' = rest /\
    requested (out_log h') = requested (out_log h) ++ pdt_addresses pg pages /\
    transport_of h' = transport_of h /\
    tables_of h' = tables_of (upd (register_pages pg interrupt pages) h).
Proof.
  induction pages as [|p pages IH];
    intros fuel pg interrupt entry h t rest
           Hready Hirs Hentry Hpages Ht Hpg Hlim Hin Hfuel.
  - destruct fuel as [|fuel]; [simpl in Hfuel; lia|].
    cbn [pdt_page_loop pdt_addresses]. unfold pdt_script in Hin.
    cbn [map concat length app] in Hin, Hlim. rewrite Z.add_0_r in Hin.
    destruct (Z.leb_spec pg RMI4_MAX_PAGE) as [Hle|Hgt].
    + destruct (page_bounds pg (conj Hpg Hle)) as [-> ->].
      destruct (pdt_entry_loop_page []
                  (Z.to_nat (RMI4_PAGE_SIZE * pg + PDT_START_SCAN_LOCATION
                             - (RMI4_PAGE_SIZE * pg + PDT_END_SCAN_LOCATION) + 1))
                  (RMI4_PAGE_SIZE * pg + PDT_START_SCAN_LOCATION)
                  (RMI4_PAGE_SIZE * pg + PDT_END_SCAN_LOCATION)
                  pg false interrupt entry h t rest)
        as (h' & E & R & I & Q & T & B & _); try assumption;
        try (unfold RMI4_MAX_PAGE, RMI4_PAGE_SIZE, PDT_START_SCAN_LOCATION,
               PDT_END_SCAN_LOCATION in *; simpl length; lia).
      { constructor. }
      rewrite E. cbn [negb].
      exists h'. split; [reflexivity|].
      split; [assumption|]. split; [assumption|].
      split; [rewrite Q; reflexivity|].
      split; [assumption | exact B].
    + exists h. simpl in Hin. rewrite app_nil_r.
      split; [reflexivity|]. split; [assumption|]. split; [assumption|].
      repeat split.
  - destruct fuel as [|fuel]; [simpl in Hfuel; lia|].
    inversion Hpages as [|? ? (Hne & Hlen & Hes & Hs) Hpages']; subst.
    cbn [length] in Hlim, Hfuel.
    assert (Hle : pg <= RMI4_MAX_PAGE) by lia.
    cbn [pdt_page_loop pdt_addresses].
    rewrite (proj2 (Z.leb_le _ _)) by assumption.
    rewrite pdt_script_cons in Hin. unfold page_script in Hin.
    rewrite <- app_assoc in Hin.
    destruct (page_bounds pg (conj Hpg Hle)) as [-> ->].
    destruct (pdt_entry_loop_page (fst p)
                (Z.to_nat (RMI4_PAGE_SIZE * pg + PDT_START_SCAN_LOCATION
                           - (RMI4_PAGE_SIZE * pg + PDT_END_SCAN_LOCATION) + 1))
                (RMI4_PAGE_SIZE * pg + PDT_START_SCAN_LOCATION)
                (RMI4_PAGE_SIZE * pg + PDT_END_SCAN_LOCATION)
                pg false interrupt entry h (snd p)
                (pdt_script (pg + 1) pages t ++ rest))
      as (h1 & E & R & I & Q & T & B & _); try assumption;
      try (unfold RMI4_MAX_PAGE, RMI4_PAGE_SIZE, PDT_START_SCAN_LOCATION,
             PDT_END_SCAN_LOCATION in *; lia).
    rewrite E.
    destruct (fst p) as [|e0 es0] eqn:Efst; [contradiction|].
    cbn [negb].
    destruct (transport_of_sizes _ _ T) as (S1 & _ & _).
    destruct (IH fuel (pg + 1) (interrupt + interrupt_sources (e0 :: es0))
                (snd p) h1 t rest)
      as (h' & E' & R' & I' & Q' & T' & B'); try assumption; try lia.
    { apply Hs. }
    exists h'. split; [exact E'|].
    split; [assumption|]. split; [assumption|].
    split.
    { rewrite Q', Q, <- app_assoc. reflexivity. }
    split; [congruence|].
    rewrite B'. cbn [register_pages]. rewrite Efst.
    change (tables_of
              (upd (register_pages (pg + 1)
                      (interrupt + interrupt_sources (e0 :: es0)) pages) h1) =
            tables_of
              (upd (register_pages (pg + 1)
                      (interrupt + interrupt_sources (e0 :: es0)) pages)
                 (upd (register_page pg interrupt (e0 :: es0)) h))).
    revert B. generalize (upd (register_page pg interrupt (e0 :: es0)) h).
    generalize (interrupt + interrupt_sources (e0 :: es0)).
    generalize (pg + 1).
    clear. revert h1. induction pages as [|q pages IHp]; intros h1 pg i h2 B.
    + exact B.
    + cbn [register_pages].
      change (tables_of
                (upd (register_pages (pg + 1) (i + interrupt_sources (fst q)) pages)
                   (upd (register_page pg i (fst q)) h1)) =
              tables_of
                (upd (register_pages (pg + 1) (i + interrupt_sources (fst q)) pages)
                   (upd (register_page pg i (fst q)) h2))).
      apply IHp. now apply register_page_tables.
Qed.

(** ** The claims about the scanner *)

Lemma RMI4_END_OF_PDT_spec id :
  RMI4_END_OF_PDT id = true <-> id = 0x00 \/ id = 0xff.
Proof.
  unfold RMI4_END_OF_PDT. rewrite orb_true_iff, !Z.eqb_eq. reflexivity.
Qed.

(** C6.  The end-of-table sentinels are the function numbers 0x00 and
    0xFF.  On a ready engine whose device answers every entry read with
    one report, where [pages] are the pages that hold functions (from
    page 0 on, each closed by a sentinel) and [t] is the sentinel opening
    the next page: the scan returns 0, has asked exactly for
    [pdt_addresses 0 pages] in that order (page 0 upward; within a page
    downward from 0xE9 in steps of six; nothing on a page after the read
    that met its sentinel; nothing after the first read of the page
    without functions; nothing past page 255), and has awaited nothing
    beyond the answers to these reads. *)
Theorem rmi_scan_pdt_walk (h : hid_device)
    (pages : list (list (list Z) * list Z)) (t : list Z)
    (rest : list (option (list Z))) :
  engine_ready h -> 8 <= input_report_size (drvdata h) ->
  Forall page_ok pages -> sentinel_ok t -> (length pages <= 256)%nat ->
  inbound h = pdt_script 0 pages t ++ rest ->
  (forall id, RMI4_END_OF_PDT id = true <-> id = 0x00 \/ id = 0xff) /\
  let '(ret, h') := rmi_scan_pdt h in
  ret = 0 /\ inbound h' = rest /\
  requested (out_log h') = requested (out_log h) ++ pdt_addresses 0 pages.
Proof.
  intros Hready Hirs Hpages Ht Hlen Hin.
  split; [exact RMI4_END_OF_PDT_spec|].
  unfold rmi_scan_pdt.
  destruct (pdt_page_loop_pages pages 257 0 0 (repeat 0 6) h t rest)
    as (h' & E & R & I & Q & T & B); try assumption; try reflexivity;
    try (unfold RMI4_MAX_PAGE; lia).
  rewrite E. auto.
Qed.

Lemma example_pdt_ok :
  let pages := [([pdt_bytes 0x10 0x20 0x30 0x40 1 0x11;
                  pdt_bytes 0x50 0x60 0x70 0x80 1 0x30],
                 pdt_bytes 0 0 0 0 0 0xff)] in
  Forall page_ok pages /\ sentinel_ok (pdt_bytes 0 0 0 0 0 0).
Proof.
  split.
  - constructor; [|constructor].
    split; [discriminate|]. split; [simpl; lia|].
    split; [|split; reflexivity].
    repeat constructor.
  - split; reflexivity.
Qed.

Lemma rmi_scan_pdt_walk_witness :
  let pages := [([pdt_bytes 0x10 0x20 0x30 0x40 1 0x11;
                  pdt_bytes 0x50 0x60 0x70 0x80 1 0x30],
                 pdt_bytes 0 0 0 0 0 0xff)] in
  let h := bench_device 32 8 (pdt_script 0 pages (pdt_bytes 0 0 0 0 0 0)) in
  let '(ret, h') := rmi_scan_pdt h in
  ret = 0 /\ inbound h' = [] /\
  requested (out_log h') = [0x00e9; 0x00e3; 0x00dd; 0x01e9].
Proof.
  intros pages h.
  assert (Hready : engine_ready h) by (apply bench_device_ready; lia).
  assert (Hirs : 8 <= input_report_size (drvdata h)) by (vm_compute; discriminate).
  assert (Hlen : (length pages <= 256)%nat) by (vm_compute; lia).
  assert (Hin : inbound h = pdt_script 0 pages (pdt_bytes 0 0 0 0 0 0) ++ [])
    by (symmetry; apply app_nil_r).
  destruct (rmi_scan_pdt_walk h pages (pdt_bytes 0 0 0 0 0 0) [] Hready Hirs
              (proj1 example_pdt_ok)
              (proj2 example_pdt_ok) Hlen Hin) as [_ H].
  destruct (rmi_scan_pdt h) as [ret h'].
  destruct H as (H1 & H2 & H3).
  split; [exact H1|]. split; [exact H2|].
  rewrite H3. reflexivity.
Defined.

(** ** Interrupt numbers *)

Lemma irq_of_register number e pg i d :
  number = 0x11 \/ number = 0x30 ->
  irq_of (function_slot number (rmi_register_function e pg i d)) =
  if function_number e =? number
  then (u32 i, interrupt_source_count e,
        rmi_gen_mask (u32 i) (interrupt_source_count e))
  else irq_of (function_slot number d).
Proof.
  intros [-> | ->]; unfold rmi_register_function, function_slot;
    destruct (Z.eqb_spec (function_number e) 0x11) as [E|E];
    [ | | rewrite E | ]; simpl; try reflexivity;
    destruct (function_number e =? 48); reflexivity.
Qed.

Lemma irq_of_register_page number pg pg' es : forall i d d',
  number = 0x11 \/ number = 0x30 ->
  irq_of (function_slot number d) = irq_of (function_slot number d') ->
  irq_of (function_slot number (register_page pg i es d)) =
  irq_of (function_slot number (register_page pg' i es d')).
Proof.
  induction es as [|e es IH]; intros i d d' Hn E; [exact E|].
  cbn [register_page]. apply IH; [assumption|].
  rewrite !irq_of_register by assumption.
  destruct (function_number e =? number); [reflexivity | exact E].
Qed.

Lemma register_page_app pg a : forall b i d,
  register_page pg i (a ++ b) d =
  register_page pg (i + interrupt_sources a) b (register_page pg i a d).
Proof.
  induction a as [|e a IH]; intros b i d.
  - simpl. now rewrite Z.add_0_r.
  - cbn [app register_page]. rewrite IH. f_equal.
    unfold interrupt_sources. cbn [fold_right]. lia.
Qed.

Lemma irq_of_register_pages number pages : forall pg i d,
  number = 0x11 \/ number = 0x30 ->
  irq_of (function_slot number (register_pages pg i pages d)) =
  irq_of (function_slot number
            (register_page 0 i (concat (map fst pages)) d)).
Proof.
  induction pages as [|p pages IH]; intros pg i d Hn; [reflexivity|].
  cbn [register_pages map concat]. rewrite register_page_app.
  rewrite IH by assumption.
  apply irq_of_register_page; [assumption|].
  now apply irq_of_register_page.
Qed.

Lemma irq_of_register_others number pg es : forall i d,
  number = 0x11 \/ number = 0x30 ->
  Forall (fun e => function_number e <> number) es ->
  irq_of (function_slot number (register_page pg i es d)) =
  irq_of (function_slot number d).
Proof.
  induction es as [|e es IH]; intros i d Hn Hes; [reflexivity|].
  inversion Hes as [|? ? He Hes']; subst.
  cbn [register_page]. rewrite IH by assumption.
  rewrite irq_of_register by assumption.
  now rewrite (proj2 (Z.eqb_neq _ _) He).
Qed.

Lemma interrupt_source_count_range e : 0 <= interrupt_source_count e <= 7.
Proof.
  unfold interrupt_source_count.
  assert (E : Z.land (load e 4) 7 = load e 4 mod 8)
    by (change 7 with (Z.ones 3); apply Z.land_ones; lia).
  rewrite E.
  pose proof (Z.mod_pos_bound (load e 4) 8 ltac:(lia)). lia.
Qed.

Lemma interrupt_sources_range es :
  0 <= interrupt_sources es <= 7 * Z.of_nat (length es).
Proof.
  induction es as [|e es IH]; [simpl; lia|].
  unfold interrupt_sources in *. cbn [fold_right length].
  pose proof (interrupt_source_count_range e). lia.
Qed.

Lemma interrupt_sources_app a b :
  interrupt_sources (a ++ b) = interrupt_sources a + interrupt_sources b.
Proof.
  induction a as [|e a IH]; [reflexivity|].
  unfold interrupt_sources in *. cbn [app fold_right]. lia.
Qed.

Lemma length_pdt_entries pages :
  Forall page_ok pages ->
  (length (concat (map fst pages)) <= 38 * length pages)%nat.
Proof.
  induction 1 as [|p pages (_ & Hlen & _) _ IH]; [simpl; lia|].
  cbn [map concat length]. rewrite length_app. lia.
Qed.

Lemma tables_of_slot number h h' :
  tables_of h' = tables_of h ->
  function_slot number (drvdata h') = function_slot number (drvdata h).
Proof.
  unfold tables_of, function_slot. intros E.
  injection E. intros.
  destruct (number =? 17); congruence.
Qed.

(** C7.  On a ready engine whose device answers every entry read with
    one report: when [e] is the last entry of a supported function
    (touch, 0x11, or buttons, 0x30) among the entries the scan meets, the
    function's interrupt base is the sum of the interrupt-source counts
    of all the entries met before [e], whatever their function numbers,
    its interrupt count is [e]'s, and its mask is generated from the
    two. *)
Theorem rmi_scan_pdt_interrupt_base (h : hid_device)
    (pages : list (list (list Z) * list Z)) (t : list Z)
    (rest : list (option (list Z)))
    (es1 : list (list Z)) (e : list Z) (es2 : list (list Z)) (number : Z) :
  engine_ready h -> 8 <= input_report_size (drvdata h) ->
  Forall page_ok pages -> sentinel_ok t -> (length pages <= 256)%nat ->
  inbound h = pdt_script 0 pages t ++ rest ->
  concat (map fst pages) = es1 ++ e :: es2 ->
  number = 0x11 \/ number = 0x30 ->
  function_number e = number ->
  Forall (fun e' => function_number e' <> number) es2 ->
  irq_of (function_slot number (drvdata (snd (rmi_scan_pdt h)))) =
  (interrupt_sources es1, interrupt_source_count e,
   rmi_gen_mask (interrupt_sources es1) (interrupt_source_count e)).
Proof.
  intros Hready Hirs Hpages Ht Hlen Hin Hcat Hn He Hes2.
  unfold rmi_scan_pdt.
  destruct (pdt_page_loop_pages pages 257 0 0 (repeat 0 6) h t rest)
    as (h' & E & R & I & Q & T & B); try assumption; try reflexivity;
    try (unfold RMI4_MAX_PAGE; lia).
  rewrite E. cbn [snd].
  rewrite (tables_of_slot number _ _ B).
  change (drvdata (upd (register_pages 0 0 pages) h))
    with (register_pages 0 0 pages (drvdata h)).
  rewrite irq_of_register_pages by assumption.
  rewrite Hcat, register_page_app. cbn [register_page].
  rewrite irq_of_register_others by assumption.
  rewrite irq_of_register by assumption.
  rewrite (proj2 (Z.eqb_eq _ _) He).
  assert (Hu : u32 (0 + interrupt_sources es1) = interrupt_sources es1).
  { pose proof (interrupt_sources_range es1) as R1.
    pose proof (length_pdt_entries pages Hpages) as L.
    rewrite Hcat, length_app in L.
    unfold u32. rewrite Z.add_0_l. apply Z.mod_small. lia. }
  rewrite Hu. reflexivity.
Qed.

Lemma example_alloc_ok :
  let pages := [([pdt_bytes 0x10 0x20 0x30 0x40 2 0x01;
                  pdt_bytes 0x50 0x60 0x70 0x80 4 0x11],
                 pdt_bytes 0 0 0 0 0 0)] in
  Forall page_ok pages /\ sentinel_ok (pdt_bytes 0 0 0 0 0 0).
Proof.
  split.
  - constructor; [|constructor].
    split; [discriminate|]. split; [simpl; lia|].
    split; [|split; reflexivity].
    repeat constructor.
  - split; reflexivity.
Qed.

Lemma rmi_scan_pdt_interrupt_base_witness :
  let pages := [([pdt_bytes 0x10 0x20 0x30 0x40 2 0x01;
                  pdt_bytes 0x50 0x60 0x70 0x80 4 0x11],
                 pdt_bytes 0 0 0 0 0 0)] in
  let h := bench_device 32 8 (pdt_script 0 pages (pdt_bytes 0 0 0 0 0 0)) in
  interrupt_base (f11 (drvdata (snd (rmi_scan_pdt h)))) = 2 /\
  irq_mask (f11 (drvdata (snd (rmi_scan_pdt h)))) = 0x3c.
Proof.
  intros pages h.
  assert (Hready : engine_ready h) by (apply bench_device_ready; lia).
  assert (Hirs : 8 <= input_report_size (drvdata h)) by (vm_compute; discriminate).
  assert (Hlen : (length pages <= 256)%nat) by (vm_compute; lia).
  assert (Hin : inbound h = pdt_script 0 pages (pdt_bytes 0 0 0 0 0 0) ++ [])
    by (symmetry; apply app_nil_r).
  pose proof (rmi_scan_pdt_interrupt_base h pages (pdt_bytes 0 0 0 0 0 0) []
                [pdt_bytes 0x10 0x20 0x30 0x40 2 0x01]
                (pdt_bytes 0x50 0x60 0x70 0x80 4 0x11) [] 0x11
                Hready Hirs (proj1 example_alloc_ok) (proj2 example_alloc_ok)
                Hlen Hin eq_refl (or_introl eq_refl) eq_refl (Forall_nil _))
    as H.
  split.
  - exact (f_equal (fun x => fst (fst x)) H).
  - exact (f_equal snd H).
Defined.

(** ** Flags through a register transaction *)

Lemma flags_kept_refl f : flags_kept f f.
Proof. intros n _ _; reflexivity. Qed.

Lemma flags_kept_trans f1 f2 f3 :
  flags_kept f1 f2 -> flags_kept f2 f3 -> flags_kept f1 f3.
Proof. intros A B n H1 H2. rewrite B, A by assumption. reflexivity. Qed.

Lemma flags_kept_set_request f : flags_kept f (set_bit RMI_READ_REQUEST_PENDING f).
Proof. intros n H1 H2. apply test_bit_set_other; [discriminate|congruence]. Qed.

Lemma flags_kept_set_data f : flags_kept f (set_bit RMI_READ_DATA_PENDING f).
Proof. intros n H1 H2. apply test_bit_set_other; [discriminate|congruence]. Qed.

Lemma flags_kept_clear_request f :
  flags_kept f (clear_bit RMI_READ_REQUEST_PENDING f).
Proof. intros n H1 H2. apply test_bit_clear_other; congruence. Qed.

Lemma flags_kept_clear_data f : flags_kept f (clear_bit RMI_READ_DATA_PENDING f).
Proof. intros n H1 H2. apply test_bit_clear_other; congruence. Qed.

Lemma settles_refl h : settles h h.
Proof. unfold settles; repeat split; auto using flags_kept_refl. Qed.

Lemma settles_trans h1 h2 h3 : settles h1 h2 -> settles h2 h3 -> settles h1 h3.
Proof.
  intros (A1 & A2 & A3 & A4 & A5) (B1 & B2 & B3 & B4 & B5).
  unfold settles; repeat split; try congruence.
  - eapply flags_kept_trans; eassumption.
  - auto.
Qed.

Lemma rmi_set_page_settles pg h : settles h (snd (rmi_set_page pg h)).
Proof.
  destruct (rmi_set_page_frame pg h) as (F1 & F2 & F3 & F4 & F5 & F6).
  unfold settles. rewrite F4, F5.
  repeat split; auto using flags_kept_refl.
Qed.

Lemma send_read_request_settles addr len h :
  settles h (snd (send_read_request addr len h)).
Proof.
  destruct (send_read_request_spec addr len h)
    as (_ & S1 & _ & _ & _ & S5 & S6 & S7 & _).
  unfold settles. rewrite S5, S7.
  repeat split; auto using flags_kept_set_request.
  intros H. rewrite test_bit_set_other; [assumption|discriminate|discriminate].
Qed.

(** A wait that reports data has data pending; one that times out has
    none.  Either way only the data bit and the input buffer changed. *)
Lemma wait_event_flags script : forall h,
  let r := wait_event script h in
  test_bit RMI_READ_DATA_PENDING (flags (drvdata (snd r))) = fst r /\
  flags_kept (flags (drvdata h)) (flags (drvdata (snd r))) /\
  test_bit RMI_READ_REQUEST_PENDING (flags (drvdata (snd r))) =
    test_bit RMI_READ_REQUEST_PENDING (flags (drvdata h)).
Proof.
  induction script as [|[c|] rest IH]; intros h; cbn [wait_event].
  - destruct (test_bit _ (flags (drvdata h))) eqn:E; simpl;
      auto using flags_kept_refl.
  - destruct (test_bit _ (flags (drvdata h))) eqn:E;
      [simpl; auto using flags_kept_refl|].
    specialize (IH (snd (rmi_read_data_event c (Z.of_nat (length c)) h))).
    cbv zeta in IH. destruct IH as (I1 & I2 & I3).
    split; [exact I1|].
    assert (K : flags_kept (flags (drvdata h))
                  (flags (drvdata (snd (rmi_read_data_event c
                                          (Z.of_nat (length c)) h)))) /\
                test_bit RMI_READ_REQUEST_PENDING
                  (flags (drvdata (snd (rmi_read_data_event c
                                          (Z.of_nat (length c)) h)))) =
                test_bit RMI_READ_REQUEST_PENDING (flags (drvdata h))).
    { unfold rmi_read_data_event. case_if; simpl;
        auto using flags_kept_refl, flags_kept_set_data.
      split; [apply flags_kept_set_data|].
      apply test_bit_set_other; discriminate. }
    destruct K as [K1 K2]. split.
    + eapply flags_kept_trans; eassumption.
    + congruence.
  - destruct (test_bit _ (flags (drvdata h))) eqn:E; simpl;
      auto using flags_kept_refl.
Qed.

Lemma read_data_loop_settles fuel : forall len br bn ret buf h,
  let r := read_data_loop fuel len br bn ret buf h in
  settles h (snd r) /\
  test_bit RMI_READ_REQUEST_PENDING (flags (drvdata (snd r))) =
    test_bit RMI_READ_REQUEST_PENDING (flags (drvdata h)) /\
  length (snd (fst r)) = length buf.
Proof.
  induction fuel as [|fuel IH]; intros len br bn ret buf h; cbn [read_data_loop].
  - simpl. auto using settles_refl.
  - destruct (br <? len); [|simpl; auto using settles_refl].
    pose proof (wait_event_frame (inbound h) h) as W; cbv zeta in W.
    pose proof (wait_event_flags (inbound h) h) as G; cbv zeta in G.
    unfold wait_event_timeout.
    destruct (wait_event (inbound h) h) as [woken h1]; cbn [fst snd] in W, G.
    destruct W as (W1 & _ & _ & W4 & _ & W6).
    destruct G as (G1 & G2 & G3).
    destruct woken; cbn [negb].
    + match goal with
      | |- context [read_data_loop fuel len ?a ?b ret ?c ?d] =>
          specialize (IH len a b ret c d)
      end.
      cbv zeta in IH. destruct IH as (I1 & I2 & I3).
      split; [|split].
      * eapply settles_trans; [|exact I1].
        unfold settles; simpl. rewrite W4, W6.
        repeat split; try assumption.
        -- eapply flags_kept_trans; [exact G2|apply flags_kept_clear_data].
        -- intros _. apply test_bit_clear_same.
      * rewrite I2. simpl.
        rewrite test_bit_clear_other by discriminate. exact G3.
      * rewrite I3. apply length_memcpy.
    + simpl. split; [|auto].
      unfold settles. rewrite W4, W6. repeat split; auto.
Qed.

Lemma clear_request_settles h :
  settles h (upd (fun d => with_flags
               (clear_bit RMI_READ_REQUEST_PENDING (flags d)) d) h).
Proof.
  unfold settles; simpl. repeat split; auto using flags_kept_clear_request.
  intros H. rewrite test_bit_clear_other; [assumption|discriminate].
Qed.

Lemma read_retry_loop_settles retries : forall addr len ret buf h,
  let r := read_retry_loop retries addr len ret buf h in
  settles h (snd r) /\ length (snd (fst r)) = length buf.
Proof.
  induction retries as [|retries IH]; intros addr len ret buf h;
    cbn [read_retry_loop].
  - simpl. auto using settles_refl.
  - pose proof (send_read_request_settles addr len h) as S.
    destruct (send_read_request addr len h) as [ret1 h1]; cbn [snd] in S.
    destruct (negb (ret1 =? output_report_size (drvdata h1))).
    { simpl. split; [|reflexivity].
      eapply settles_trans; [exact S|apply clear_request_settles]. }
    pose proof (read_data_loop_settles (length (inbound h1) + 2) len 0 len
                  ret1 buf h1) as D; cbv zeta in D.
    destruct (read_data_loop _ len 0 len ret1 buf h1) as [[ret2 buf2] h2].
    cbn [fst snd] in D. destruct D as (D1 & _ & D3).
    destruct (ret2 >=? 0).
    + simpl. split; [|assumption]. eapply settles_trans; eassumption.
    + specialize (IH addr len ret2 buf2 h2). cbv zeta in IH.
      destruct IH as [I1 I2]. split; [|congruence].
      eapply settles_trans; [exact S|].
      eapply settles_trans; eassumption.
Qed.

(** [rmi_read_block] settles the device, returns with no request pending
    and leaves the caller's buffer its size. *)
Lemma rmi_read_block_settles addr buf len h :
  let r := rmi_read_block addr buf len h in
  settles h (snd r) /\
  test_bit RMI_READ_REQUEST_PENDING (flags (drvdata (snd r))) = false /\
  length (snd (fst r)) = length buf.
Proof.
  cbv zeta. unfold rmi_read_block.
  assert (K : forall ret0 h0, settles h h0 ->
    let r := (let '(ret, buf, h) := read_retry_loop 5 (u16 addr) len ret0 buf h0 in
              (ret, buf, upd (fun d => with_flags
                 (clear_bit RMI_READ_REQUEST_PENDING (flags d)) d) h)) in
    settles h (snd r) /\
    test_bit RMI_READ_REQUEST_PENDING (flags (drvdata (snd r))) = false /\
    length (snd (fst r)) = length buf).
  { intros ret0 h0 S0.
    pose proof (read_retry_loop_settles 5 (u16 addr) len ret0 buf h0) as R.
    cbv zeta in R |- *.
    destruct (read_retry_loop 5 (u16 addr) len ret0 buf h0) as [[ret2 buf2] h2].
    cbn [fst snd] in R |- *. destruct R as [R1 R2].
    split; [|split; [apply test_bit_clear_same | assumption]].
    eapply settles_trans; [exact S0|].
    eapply settles_trans; [exact R1|apply clear_request_settles]. }
  destruct (negb (RMI_PAGE (u16 addr) =? page (drvdata h))).
  - pose proof (rmi_set_page_settles (RMI_PAGE (u16 addr)) h) as P.
    destruct (rmi_set_page (RMI_PAGE (u16 addr)) h) as [ret1 h1]; cbn [snd] in P.
    destruct (ret1 <? 0).
    + cbn [fst snd]. split; [|split; [apply test_bit_clear_same | reflexivity]].
      eapply settles_trans; [exact P|apply clear_request_settles].
    + apply (K ret1 h1 P).
  - apply (K 0 h (settles_refl h)).
Qed.


(** ** The reader takes deliveries from the front, in order *)

Lemma consumed_refl h : consumed h h.
Proof. exists []. reflexivity. Qed.

Lemma consumed_trans h1 h2 h3 : consumed h1 h2 -> consumed h2 h3 -> consumed h1 h3.
Proof.
  intros [u1 E1] [u2 E2]. exists (u1 ++ u2).
  now rewrite E1, E2, app_assoc.
Qed.

Lemma consumed_same h h' : inbound h' = inbound h -> consumed h h'.
Proof. intros E. exists []. now rewrite E. Qed.

Lemma wait_event_suffix script : forall h,
  exists used, script = used ++ inbound (snd (wait_event script h)).
Proof.
  induction script as [|[c|] rest IH]; intros h; cbn [wait_event].
  - exists []. destruct (test_bit _ _); reflexivity.
  - destruct (test_bit _ _); [exists []; reflexivity|].
    destruct (IH (snd (rmi_read_data_event c (Z.of_nat (length c)) h)))
      as [u E].
    exists (Some c :: u). simpl. now rewrite <- E.
  - destruct (test_bit _ _); [exists []; reflexivity|].
    exists [None]. reflexivity.
Qed.

Lemma read_data_loop_consumed fuel : forall len br bn ret buf h,
  consumed h (snd (read_data_loop fuel len br bn ret buf h)).
Proof.
  induction fuel as [|fuel IH]; intros len br bn ret buf h; cbn [read_data_loop].
  - apply consumed_refl.
  - destruct (br <? len); [|apply consumed_refl].
    unfold wait_event_timeout.
    pose proof (wait_event_suffix (inbound h) h) as W.
    destruct (wait_event (inbound h) h) as [woken h1]; cbn [snd] in W.
    destruct woken; cbn [negb]; [|exact W].
    eapply consumed_trans; [|apply IH]. exact W.
Qed.

Lemma read_retry_loop_consumed retries : forall addr len ret buf h,
  consumed h (snd (read_retry_loop retries addr len ret buf h)).
Proof.
  induction retries as [|retries IH]; intros addr len ret buf h;
    cbn [read_retry_loop].
  - apply consumed_refl.
  - destruct (send_read_request_spec addr len h) as (_ & _ & _ & _ & S4 & _).
    destruct (send_read_request addr len h) as [ret1 h1]; cbn [snd] in S4.
    destruct (negb (ret1 =? output_report_size (drvdata h1))).
    { apply consumed_same. simpl. exact S4. }
    pose proof (read_data_loop_consumed (length (inbound h1) + 2) len 0 len
                  ret1 buf h1) as D.
    destruct (read_data_loop _ len 0 len ret1 buf h1) as [[ret2 buf2] h2].
    cbn [snd] in D.
    assert (C : consumed h h2)
      by (eapply consumed_trans; [apply consumed_same; exact S4 | exact D]).
    destruct (ret2 >=? 0); [exact C|].
    eapply consumed_trans; [exact C | apply IH].
Qed.

Lemma rmi_read_block_consumed addr buf len h :
  consumed h (snd (rmi_read_block addr buf len h)).
Proof.
  unfold rmi_read_block.
  assert (K : forall ret0 h0, consumed h h0 ->
    consumed h
      (snd (let '(ret, buf, h) := read_retry_loop 5 (u16 addr) len ret0 buf h0 in
            (ret, buf, upd (fun d => with_flags
               (clear_bit RMI_READ_REQUEST_PENDING (flags d)) d) h)))).
  { intros ret0 h0 C0.
    pose proof (read_retry_loop_consumed 5 (u16 addr) len ret0 buf h0) as R.
    destruct (read_retry_loop 5 (u16 addr) len ret0 buf h0) as [[ret2 buf2] h2].
    cbn [snd] in R |- *.
    eapply consumed_trans; [exact C0|]. exact R. }
  destruct (negb (RMI_PAGE (u16 addr) =? page (drvdata h))).
  - destruct (rmi_set_page_frame (RMI_PAGE (u16 addr)) h) as (_ & _ & F3 & _).
    destruct (rmi_set_page (RMI_PAGE (u16 addr)) h) as [ret1 h1]; cbn [snd] in F3.
    destruct (ret1 <? 0).
    + apply consumed_same. exact F3.
    + apply K. apply consumed_same. exact F3.
  - apply K. apply consumed_refl.
Qed.

(** On a read-data report [rmi_raw_event] is [rmi_read_data_event]. *)
Lemma rmi_raw_event_read_data_report r size h :
  load_chk r 0 = Some RMI_READ_DATA_REPORT_ID ->
  rmi_raw_event r size h = Some (rmi_read_data_event r size h).
Proof.
  intros H. unfold rmi_raw_event, mbind, ld. rewrite H. cbn [option_map].
  change (RMI_READ_DATA_REPORT_ID =? RMI_READ_DATA_REPORT_ID) with true.
  cbv iota. reflexivity.
Qed.

(** While only read-data reports arrive, the wait that hands each report
    to [rmi_read_data_event] is the wait that dispatches each report
    through [rmi_raw_event]. *)
Lemma wait_event_dispatch_read_data script : forall h,
  Forall read_data_delivery script ->
  wait_event_dispatch script h = Some (wait_event script h).
Proof.
  induction script as [|[r|] rest IH]; intros h F;
    cbn [wait_event_dispatch wait_event];
    destruct (test_bit RMI_READ_DATA_PENDING (flags (drvdata h)));
    try reflexivity.
  inversion F as [|? ? Hr Hrest]; subst. cbn [read_data_delivery] in Hr.
  rewrite (rmi_raw_event_read_data_report r _ h Hr).
  destruct (rmi_read_data_event r (Z.of_nat (length r)) h) as [a h1].
  cbn [snd]. apply IH. exact Hrest.
Qed.

Lemma consumed_read_data h h' :
  consumed h h' ->
  Forall read_data_delivery (inbound h) ->
  Forall read_data_delivery (inbound h').
Proof.
  intros [used E] F. rewrite E in F. apply Forall_app in F. tauto.
Qed.

Lemma read_data_loop_dispatch_read_data fuel :
  forall len br bn ret buf h,
    Forall read_data_delivery (inbound h) ->
    read_data_loop_dispatch fuel len br bn ret buf h
      = Some (read_data_loop fuel len br bn ret buf h).
Proof.
  induction fuel as [|fuel IH]; intros len br bn ret buf h HF;
    cbn [read_data_loop_dispatch read_data_loop]; [reflexivity|].
  destruct (br <? len); [|reflexivity].
  unfold wait_event_timeout.
  rewrite (wait_event_dispatch_read_data (inbound h) h HF).
  pose proof (wait_event_suffix (inbound h) h) as W.
  destruct (wait_event (inbound h) h) as [woken h1]; cbn [snd] in W.
  destruct woken; cbn [negb]; [|reflexivity].
  apply IH. simpl. exact (consumed_read_data h h1 W HF).
Qed.

Lemma read_retry_loop_dispatch_read_data retries :
  forall addr len ret buf h,
    Forall read_data_delivery (inbound h) ->
    read_retry_loop_dispatch retries addr len ret buf h
      = Some (read_retry_loop retries addr len ret buf h).
Proof.
  induction retries as [|retries IH]; intros addr len ret buf h HF;
    cbn [read_retry_loop_dispatch read_retry_loop]; [reflexivity|].
  destruct (send_read_request_spec addr len h) as (_ & _ & _ & _ & S4 & _).
  destruct (send_read_request addr len h) as [ret1 h1]; cbn [snd] in S4.
  destruct (negb (ret1 =? output_report_size (drvdata h1))); [reflexivity|].
  assert (HF1 : Forall read_data_delivery (inbound h1)) by (now rewrite S4).
  rewrite (read_data_loop_dispatch_read_data _ len 0 len ret1 buf h1 HF1).
  pose proof (read_data_loop_consumed (length (inbound h1) + 2) len 0 len
                ret1 buf h1) as D.
  destruct (read_data_loop _ len 0 len ret1 buf h1) as [[ret2 buf2] h2].
  cbn [snd] in D.
  destruct (ret2 >=? 0); [reflexivity|].
  apply IH. exact (consumed_read_data h1 h2 D HF1).
Qed.

(** While only read-data reports arrive, [rmi_read_block] is the read
    whose wait dispatches every report through [rmi_raw_event]. *)
Lemma rmi_read_block_dispatch_read_data addr buf len h :
  Forall read_data_delivery (inbound h) ->
  rmi_read_block_dispatch addr buf len h
    = Some (rmi_read_block addr buf len h).
Proof.
  intros HF. unfold rmi_read_block_dispatch, rmi_read_block. cbv zeta.
  destruct (negb (RMI_PAGE (u16 addr) =? page (drvdata h))).
  - destruct (rmi_set_page_frame (RMI_PAGE (u16 addr)) h) as (_ & _ & F3 & _).
    destruct (rmi_set_page (RMI_PAGE (u16 addr)) h) as [ret1 h1];
      cbn [snd] in F3.
    destruct (ret1 <? 0); [reflexivity|].
    rewrite read_retry_loop_dispatch_read_data by (now rewrite F3).
    destruct (read_retry_loop 5 (u16 addr) len ret1 buf h1) as [[r b] k].
    reflexivity.
  - rewrite read_retry_loop_dispatch_read_data by exact HF.
    destruct (read_retry_loop 5 (u16 addr) len 0 buf h) as [[r b] k].
    reflexivity.
Qed.

(** A mouse report that arrives during a read is outside that case:
    dispatched, it queues the reset work while the read goes on to the
    answer behind it. *)
Lemma rmi_read_block_dispatch_mouse :
  let h := bench_device 16 8
             [Some [0x01; 0x00; 0x05; 0xfb];
              Some (read_data_report [1; 2; 3; 4])] in
  option_map (fun r => (fst (fst r), snd (fst r), reset_work_pending (snd r)))
    (rmi_read_block_dispatch 0x0010 (repeat 0 4) 4 h)
  = Some (0, [1; 2; 3; 4], true).
Proof. vm_compute. reflexivity. Qed.

Lemma sensor_script_read_data q1 :
  Forall read_data_delivery (sensor_script q1).
Proof.
  unfold sensor_script. apply Forall_map, Forall_forall.
  intros p _. reflexivity.
Qed.

(** X1.  While the deliveries the reader meets are read-data reports or
    timeouts, [rmi_read_block] leaves the function tables, the geometry,
    the button wiring, the report sizes and what was sent as feature
    reports, reported to the input layer or queued as work as they were,
    whatever the transport returns; it keeps the sizes of the caller's
    buffer and of the two report buffers; it takes deliveries only from
    the front of [inbound], so what is left there is of the same kind;
    it returns with no request pending and with every flag other than
    the two pending bits as it found it. *)
Theorem rmi_read_block_keeps (addr : Z) (buf : list Z) (len : Z)
    (h : hid_device) :
  Forall read_data_delivery (inbound h) ->
  let '(ret, buf', h') := rmi_read_block addr buf len h in
  transport_of h' = transport_of h /\
  tables_of h' = tables_of h /\
  consumed h h' /\
  Forall read_data_delivery (inbound h') /\
  length buf' = length buf /\
  length (readReport (drvdata h')) = length (readReport (drvdata h)) /\
  length (writeReport (drvdata h')) = length (writeReport (drvdata h)) /\
  test_bit RMI_READ_REQUEST_PENDING (flags (drvdata h')) = false /\
  flags_kept (flags (drvdata h)) (flags (drvdata h')).
Proof.
  intros HF.
  pose proof (rmi_read_block_settles addr buf len h) as S.
  pose proof (rmi_read_block_consumed addr buf len h) as C.
  pose proof (rmi_read_block_frame addr buf len h) as F.
  cbv zeta in S, F.
  destruct (rmi_read_block addr buf len h) as [[ret buf'] h'].
  cbn [fst snd] in *.
  destruct S as ((S1 & S2 & S3 & S4 & S5) & S6 & S7).
  destruct F as (_ & F2 & _).
  pose proof (consumed_read_data h h' C HF) as HF'.
  repeat split; assumption.
Qed.

Lemma rmi_read_block_keeps_witness :
  let h := bench_device 16 8 [Some (read_data_report [1; 2; 3; 4])] in
  let '(ret, buf', h') := rmi_read_block 0x0110 (repeat 0 4) 4 h in
  transport_of h' = transport_of h /\
  tables_of h' = tables_of h /\
  Forall read_data_delivery (inbound h') /\
  length buf' = 4%nat.
Proof.
  intros h.
  assert (HF : Forall read_data_delivery (inbound h))
    by (constructor; [reflexivity|constructor]).
  pose proof (rmi_read_block_keeps 0x0110 (repeat 0 4) 4 h HF) as K.
  destruct (rmi_read_block 0x0110 (repeat 0 4) 4 h) as [[ret buf'] h'].
  destruct K as (K1 & K2 & _ & K4 & K5 & _).
  repeat split; assumption.
Defined.



(** ** What goes out on the wire *)

Lemma len_bytes len :
  u8 (Z.land len 0xFF) + 256 * u8 (Z.land (Z.shiftr len 8) 0xFF) = len mod 65536.
Proof.
  unfold u8. change 0xFF with (Z.ones 8). rewrite !Z.land_ones by lia.
  rewrite Z.shiftr_div_pow2 by lia. change (2 ^ 8) with 256.
  rewrite !Z.mod_mod by lia.
  pose proof (Z.div_mod len 256 ltac:(lia)) as E.
  pose proof (Z.mod_pos_bound len 256 ltac:(lia)).
  pose proof (Z.mod_pos_bound (len / 256) 256 ltac:(lia)).
  pose proof (Z.div_mod (len / 256) 256 ltac:(lia)) as E2.
  apply Z.mod_unique_pos with (q := len / 256 / 256); lia.
Qed.

Lemma request_report_fields n a b c d wr :
  (6 <= n)%nat -> (6 <= length wr)%nat ->
  let r := firstn n (store 5 a (store 4 b (store 3 c (store 2 d (store 1 0
             (store 0 RMI_READ_ADDR_REPORT_ID wr)))))) in
  load r 1 = 0 /\ request_len r = u8 b + 256 * u8 a.
Proof.
  intros Hn Hw.
  do 6 (destruct wr as [|? wr]; [simpl in Hw; lia|]).
  do 6 (destruct n as [|n]; [lia|]).
  unfold request_len, load, store; simpl.
  unfold u8. rewrite !Z.mod_mod by lia. split; reflexivity.
Qed.

Lemma output_fits_keep h h' :
  transport_of h' = transport_of h ->
  length (writeReport (drvdata h')) = length (writeReport (drvdata h)) ->
  output_fits h -> output_fits h'.
Proof.
  intros T L [A B]. destruct (transport_of_sizes _ _ T) as (E1 & E2 & E3).
  unfold output_fits. rewrite E2, L. auto.
Qed.

(** The request [send_read_request] puts on the wire. *)
Lemma send_read_request_wire addr len h :
  output_fits h -> 0 <= addr < 65536 ->
  exists r, out_log (snd (send_read_request addr len h)) = out_log h ++ [r] /\
            is_request_for addr len r.
Proof.
  intros [Ho Hw] Ha.
  unfold send_read_request, rmi_write_report, hid_hw_output_report; simpl.
  eexists. split.
  { case_if; simpl; reflexivity. }
  unfold is_request_for.
  rewrite request_report_is_request, request_report_addr, addr_bytes by lia.
  destruct (request_report_fields (Z.to_nat (output_report_size (drvdata h)))
              (Z.land (Z.shiftr len 8) 255) (Z.land len 255)
              (Z.land (Z.shiftr addr 8) 255) (Z.land addr 255)
              (writeReport (drvdata h)) ltac:(lia) Hw) as [F1 F2].
  rewrite F1, F2, len_bytes. auto.
Qed.

Lemma read_retry_loop_wire retries : forall addr len ret buf h,
  output_fits h -> 0 <= addr < 65536 ->
  exists reqs,
    out_log (snd (read_retry_loop retries addr len ret buf h)) =
      out_log h ++ reqs /\
    Forall (is_request_for addr len) reqs /\ (length reqs <= retries)%nat.
Proof.
  induction retries as [|retries IH]; intros addr len ret buf h Hf Ha;
    cbn [read_retry_loop].
  - exists []. rewrite app_nil_r. auto.
  - destruct (send_read_request_wire addr len h Hf Ha) as (r & Er & Hr).
    pose proof (send_read_request_spec addr len h) as S; cbv zeta in S.
    destruct (send_read_request addr len h) as [ret1 h1]; cbn [fst snd] in *.
    destruct S as (_ & S1 & _ & _ & _ & _ & S5 & _).
    assert (Hf1 : output_fits h1) by (eapply output_fits_keep; eauto).
    destruct (negb (ret1 =? output_report_size (drvdata h1))).
    { exists [r]. simpl. split; [exact Er|]. split; [auto|lia]. }
    pose proof (read_data_loop_frame (length (inbound h1) + 2) len 0 len ret1
                  buf h1) as D; cbv zeta in D.
    destruct (read_data_loop _ len 0 len ret1 buf h1) as [[ret2 buf2] h2].
    cbn [snd] in D; destruct D as (D1 & _ & _ & D4 & D5 & _).
    destruct (ret2 >=? 0).
    + exists [r]. cbn [snd]. rewrite D5. split; [exact Er|].
      split; [auto|simpl; lia].
    + assert (Hf2 : output_fits h2).
      { eapply output_fits_keep; [exact D1| |exact Hf1]. now rewrite D4. }
      destruct (IH addr len ret2 buf2 h2 Hf2 Ha) as (reqs & E & F & L).
      exists (r :: reqs). rewrite E, D5, Er, <- app_assoc. simpl.
      split; [reflexivity|]. split; [auto|lia].
Qed.

Lemma rmi_set_page_wire pg h :
  (5 <= Z.to_nat (output_report_size (drvdata h)))%nat ->
  (5 <= length (writeReport (drvdata h)))%nat ->
  exists s, out_log (snd (rmi_set_page pg h)) = out_log h ++ [s] /\
            is_page_select (u8 pg) s = true.
Proof.
  intros Ho Hw.
  unfold rmi_set_page, rmi_write_report, hid_hw_output_report; simpl.
  eexists. split.
  { repeat case_if; simpl; reflexivity. }
  destruct (writeReport (drvdata h)) as [|a [|b [|c [|d [|e wr]]]]];
    try (simpl in Hw; lia).
  destruct (Z.to_nat (output_report_size (drvdata h)))
    as [|[|[|[|[|n]]]]]; try lia.
  unfold is_page_select, load, store; simpl.
  unfold u8. rewrite !Z.mod_mod by lia. rewrite Z.eqb_refl. reflexivity.
Qed.

(** X3.  Everything one [rmi_read_block] puts on the wire: first a page
    select, exactly when the page of the address is not the recorded one,
    then at most five read requests, each carrying the address and the
    length (modulo 65536), and nothing else. *)
Theorem rmi_read_block_wire (addr : Z) (buf : list Z) (len : Z)
    (h : hid_device) :
  output_fits h ->
  exists sel reqs,
    out_log (snd (rmi_read_block addr buf len h)) = out_log h ++ sel ++ reqs /\
    (RMI_PAGE (u16 addr) = page (drvdata h) -> sel = []) /\
    (RMI_PAGE (u16 addr) <> page (drvdata h) ->
     exists s, sel = [s] /\ is_page_select (RMI_PAGE (u16 addr)) s = true) /\
    Forall (is_request_for (u16 addr) len) reqs /\ (length reqs <= 5)%nat.
Proof.
  intros Hf. pose proof (u16_range addr) as Ha.
  unfold rmi_read_block.
  destruct (Z.eqb_spec (RMI_PAGE (u16 addr)) (page (drvdata h))) as [Hp|Hp];
    cbn [negb].
  - destruct (read_retry_loop_wire 5 (u16 addr) len 0 buf h Hf Ha)
      as (reqs & E & F & L).
    destruct (read_retry_loop 5 (u16 addr) len 0 buf h) as [[ret2 buf2] h2].
    cbn [snd] in *. exists [], reqs. simpl.
    split; [exact E|]. split; [reflexivity|]. split; [contradiction|]. auto.
  - destruct Hf as [Ho Hw].
    destruct (rmi_set_page_wire (RMI_PAGE (u16 addr)) h ltac:(lia) ltac:(lia))
      as (s & Es & Hs).
    rewrite RMI_PAGE_u8 in Hs by lia.
    destruct (rmi_set_page_frame (RMI_PAGE (u16 addr)) h)
      as (F1 & _ & _ & _ & _ & F6).
    destruct (rmi_set_page (RMI_PAGE (u16 addr)) h) as [ret1 h1].
    cbn [snd] in *.
    destruct (ret1 <? 0).
    + cbn [snd]. exists [s], []. simpl.
      split; [exact Es|]. split; [contradiction|].
      split; [intros _; exists s; auto|]. split; [constructor|lia].
    + assert (Hf1 : output_fits h1)
        by (eapply output_fits_keep; [exact F1|exact F6|split; assumption]).
      destruct (read_retry_loop_wire 5 (u16 addr) len ret1 buf h1 Hf1 Ha)
        as (reqs & E & F & L).
      destruct (read_retry_loop 5 (u16 addr) len ret1 buf h1)
        as [[ret2 buf2] h2].
      cbn [snd] in *. exists [s], reqs. simpl.
      rewrite E, Es, <- app_assoc.
      split; [reflexivity|]. split; [contradiction|].
      split; [intros _; exists s; auto|]. auto.
Qed.

Lemma bench_device_fits input_size output_size script :
  6 <= output_size -> output_fits (bench_device input_size output_size script).
Proof.
  intros H. unfold output_fits; simpl. rewrite repeat_length. lia.
Qed.

Lemma rmi_read_block_wire_witness :
  exists sel reqs,
    out_log (snd (rmi_read_block 0x0110 (repeat 0 4) 4
                    (bench_device 16 8 [Some (read_data_report [1; 2; 3; 4])])))
      = [] ++ sel ++ reqs /\
    (RMI_PAGE (u16 0x0110) = 0 -> sel = []) /\
    (RMI_PAGE (u16 0x0110) <> 0 ->
     exists s, sel = [s] /\ is_page_select (RMI_PAGE (u16 0x0110)) s = true) /\
    Forall (is_request_for (u16 0x0110) 4) reqs /\ (length reqs <= 5)%nat.
Proof.
  refine (rmi_read_block_wire 0x0110 (repeat 0 4) 4
            (bench_device 16 8 [Some (read_data_report [1; 2; 3; 4])]) _).
  apply bench_device_fits. lia.
Defined.

(** ** Sends that fail or fall short *)

Lemma read_retry_loop_send_fails retries addr len ret buf h :
  hw_output_ret h (length (out_log h)) <> output_report_size (drvdata h) ->
  exists h',
    read_retry_loop (S retries) addr len ret buf h =
      (hw_output_ret h (length (out_log h)), buf, h') /\
    length (out_log h') = S (length (out_log h)) /\
    inbound h' = inbound h /\ page (drvdata h') = page (drvdata h).
Proof.
  intros Hs. cbn [read_retry_loop].
  pose proof (send_read_request_spec addr len h) as S; cbv zeta in S.
  destruct (send_read_request addr len h) as [ret1 h1]; cbn [fst snd] in S.
  destruct S as (S0 & S1 & _ & S3 & S4 & _ & _ & _ & S8 & _).
  destruct (transport_of_sizes _ _ S1) as (_ & E2 & _).
  subst ret1. rewrite E2.
  rewrite (proj2 (Z.eqb_neq _ _) Hs). cbn [negb].
  eexists. split; [reflexivity|]. simpl. auto.
Qed.

(** X4.  When the transport does not take the whole read request of a
    read on the recorded page, [rmi_read_block] gives up at once: it returns the transport's result
    as it is, a negative error or a short count, after that one request,
    without another attempt, without waiting for a delivery and without
    touching the caller's buffer. *)
Theorem rmi_read_block_send_fails (addr : Z) (buf : list Z) (len : Z)
    (h : hid_device) :
  RMI_PAGE (u16 addr) = page (drvdata h) ->
  hw_output_ret h (length (out_log h)) <> output_report_size (drvdata h) ->
  exists h',
    rmi_read_block addr buf len h =
      (hw_output_ret h (length (out_log h)), buf, h') /\
    length (out_log h') = S (length (out_log h)) /\
    inbound h' = inbound h /\
    test_bit RMI_READ_REQUEST_PENDING (flags (drvdata h')) = false.
Proof.
  intros Hp Hs. unfold rmi_read_block.
  rewrite Hp, Z.eqb_refl. cbn [negb].
  destruct (read_retry_loop_send_fails 4 (u16 addr) len 0 buf h Hs)
    as (h1 & E & L & I & _).
  rewrite E. eexists. split; [reflexivity|]. simpl.
  split; [exact L|]. split; [exact I|]. apply test_bit_clear_same.
Qed.

Lemma rmi_read_block_send_fails_witness :
  exists h',
    rmi_read_block 0x0010 [7; 7] 2 (dead_device 16 8) = (-5, [7; 7], h') /\
    length (out_log h') = 1%nat /\
    inbound h' = [] /\
    test_bit RMI_READ_REQUEST_PENDING (flags (drvdata h')) = false.
Proof.
  refine (rmi_read_block_send_fails 0x0010 [7; 7] 2 (dead_device 16 8) _ _).
  - reflexivity.
  - simpl. discriminate.
Defined.

Lemma rmi_set_page_result pg h :
  fst (rmi_set_page pg h) =
    (if hw_output_ret h (length (out_log h)) =? output_report_size (drvdata h)
     then 0 else hw_output_ret h (length (out_log h))) /\
  page (drvdata (snd (rmi_set_page pg h))) =
    (if hw_output_ret h (length (out_log h)) =? output_report_size (drvdata h)
     then u8 pg else page (drvdata h)).
Proof.
  unfold rmi_set_page, rmi_write_report, hid_hw_output_report. simpl.
  destruct (hw_output_ret h (length (out_log h)) <? 0); simpl;
    destruct (hw_output_ret h (length (out_log h)) =?
              output_report_size (drvdata h)); simpl; auto.
Qed.

(** X5.  A page select the transport rejects ends the read before any
    request: the error is returned, the recorded page stays, the caller's
    buffer is untouched and nothing is awaited. *)
Theorem rmi_read_block_select_fails (addr : Z) (buf : list Z) (len : Z)
    (h : hid_device) :
  RMI_PAGE (u16 addr) <> page (drvdata h) ->
  0 <= output_report_size (drvdata h) ->
  hw_output_ret h (length (out_log h)) < 0 ->
  exists h',
    rmi_read_block addr buf len h =
      (hw_output_ret h (length (out_log h)), buf, h') /\
    page (drvdata h') = page (drvdata h) /\
    length (out_log h') = S (length (out_log h)) /\
    requested (out_log h') = requested (out_log h) /\
    inbound h' = inbound h.
Proof.
  intros Hp Ho Hs. unfold rmi_read_block.
  rewrite (proj2 (Z.eqb_neq _ _) Hp). cbn [negb].
  destruct (rmi_set_page_result (RMI_PAGE (u16 addr)) h) as [R P].
  destruct (rmi_set_page_log (RMI_PAGE (u16 addr)) h) as [L1 L2].
  destruct (rmi_set_page_frame (RMI_PAGE (u16 addr)) h)
    as (_ & _ & F3 & _).
  rewrite (proj2 (Z.eqb_neq _ _)) in R, P by lia.
  destruct (rmi_set_page (RMI_PAGE (u16 addr)) h) as [ret1 h1].
  cbn [fst snd] in *. subst ret1.
  rewrite (proj2 (Z.ltb_lt _ _) Hs).
  eexists. split; [reflexivity|]. simpl. auto.
Qed.

Lemma rmi_read_block_select_fails_witness :
  exists h',
    rmi_read_block 0x0110 [7; 7] 2 (dead_device 16 8) = (-5, [7; 7], h') /\
    page (drvdata h') = 0 /\
    length (out_log h') = 1%nat /\
    requested (out_log h') = [] /\
    inbound h' = [].
Proof.
  refine (rmi_read_block_select_fails 0x0110 [7; 7] 2 (dead_device 16 8) _ _ _).
  - vm_compute. discriminate.
  - simpl. lia.
  - simpl. lia.
Defined.

Lemma read_retry_loop_sends retries addr len ret buf h :
  (length (out_log h) <
   length (out_log (snd (read_retry_loop (S retries) addr len ret buf h))))%nat.
Proof.
  cbn [read_retry_loop].
  pose proof (send_read_request_spec addr len h) as S; cbv zeta in S.
  destruct (send_read_request addr len h) as [ret1 h1]; cbn [fst snd] in S.
  destruct S as (_ & _ & _ & _ & _ & _ & _ & _ & S8 & _).
  destruct (negb (ret1 =? output_report_size (drvdata h1))).
  { simpl. lia. }
  pose proof (read_data_loop_frame (length (inbound h1) + 2) len 0 len ret1
                buf h1) as D; cbv zeta in D.
  destruct (read_data_loop _ len 0 len ret1 buf h1) as [[ret2 buf2] h2].
  cbn [snd] in D; destruct D as (_ & _ & _ & _ & D5 & _).
  destruct (ret2 >=? 0).
  - cbn [snd]. rewrite D5. lia.
  - pose proof (read_retry_loop_frame retries addr len ret2 buf2 h2) as F.
    cbv zeta in F. destruct F as (_ & _ & _ & _ & _ & _ & F7).
    rewrite D5 in F7. lia.
Qed.

(** X6.  A page select the transport takes only in part (a count that is
    neither negative nor the report size) does not stop the read: the
    recorded page stays as it was, and the read request for the address
    goes out all the same, right after the page select. *)
Theorem rmi_read_block_select_short (addr : Z) (buf : list Z) (len : Z)
    (h : hid_device) :
  output_fits h ->
  RMI_PAGE (u16 addr) <> page (drvdata h) ->
  0 <= hw_output_ret h (length (out_log h)) ->
  hw_output_ret h (length (out_log h)) <> output_report_size (drvdata h) ->
  let h' := snd (rmi_read_block addr buf len h) in
  page (drvdata h') = page (drvdata h) /\
  exists s r rest,
    out_log h' = out_log h ++ s :: r :: rest /\
    is_page_select (RMI_PAGE (u16 addr)) s = true /\
    is_request_for (u16 addr) len r.
Proof.
  intros Hf Hp H0 Hs. cbv zeta. pose proof (u16_range addr) as Ha.
  unfold rmi_read_block.
  rewrite (proj2 (Z.eqb_neq _ _) Hp). cbn [negb].
  destruct (rmi_set_page_result (RMI_PAGE (u16 addr)) h) as [R P].
  destruct (rmi_set_page_frame (RMI_PAGE (u16 addr)) h)
    as (F1 & _ & _ & _ & _ & F6).
  destruct Hf as [Ho Hw].
  destruct (rmi_set_page_wire (RMI_PAGE (u16 addr)) h ltac:(lia) ltac:(lia))
    as (s & Es & Hsel).
  rewrite RMI_PAGE_u8 in Hsel by lia.
  rewrite (proj2 (Z.eqb_neq _ _) Hs) in R, P.
  destruct (rmi_set_page (RMI_PAGE (u16 addr)) h) as [ret1 h1].
  cbn [fst snd] in *. subst ret1.
  rewrite (proj2 (Z.ltb_ge _ _) H0).
  assert (Hf1 : output_fits h1)
    by (eapply output_fits_keep; [exact F1|exact F6|split; assumption]).
  pose proof (read_retry_loop_frame 5 (u16 addr) len
                (hw_output_ret h (length (out_log h))) buf h1) as F.
  cbv zeta in F. destruct F as (_ & _ & F3 & _).
  pose proof (read_retry_loop_sends 4 (u16 addr) len
                (hw_output_ret h (length (out_log h))) buf h1) as Hn.
  destruct (read_retry_loop_wire 5 (u16 addr) len
              (hw_output_ret h (length (out_log h))) buf h1 Hf1 Ha)
    as (reqs & E & Fa & L).
  destruct (read_retry_loop 5 (u16 addr) len
              (hw_output_ret h (length (out_log h))) buf h1)
    as [[ret2 buf2] h2].
  cbn [snd] in *. simpl.
  split; [congruence|].
  destruct reqs as [|r rest].
  { rewrite E, app_nil_r in Hn. lia. }
  exists s, r, rest. rewrite E, Es, <- app_assoc. simpl.
  split; [reflexivity|]. split; [exact Hsel|].
  now inversion Fa.
Qed.

Lemma rmi_read_block_select_short_witness :
  let h' := snd (rmi_read_block 0x0110 [7; 7] 2
                   (short_first_device 16 8 3 [])) in
  page (drvdata h') = 0 /\
  exists s r rest,
    out_log h' = [] ++ s :: r :: rest /\
    is_page_select (RMI_PAGE (u16 0x0110)) s = true /\
    is_request_for (u16 0x0110) 2 r.
Proof.
  refine (rmi_read_block_select_short 0x0110 [7; 7] 2
            (short_first_device 16 8 3 []) _ _ _ _).
  - unfold output_fits; simpl. lia.
  - vm_compute. discriminate.
  - simpl. lia.
  - simpl. lia.
Defined.

(** X7.  A read of no registers ([len] at most 0) on a ready engine still
    sends its request, then returns 0 at once: no delivery is awaited and
    the caller's buffer is as it was. *)
Theorem rmi_read_block_nothing_to_read (addr : Z) (buf : list Z) (len : Z)
    (h : hid_device) :
  engine_ready h -> len <= 0 ->
  exists h',
    rmi_read_block addr buf len h = (0, buf, h') /\
    inbound h' = inbound h /\
    requested (out_log h') = requested (out_log h) ++ [u16 addr] /\
    engine_ready h'.
Proof.
  intros Hr Hlen.
  destruct (rmi_read_block_enter addr buf len h Hr)
    as (ret0 & h0 & E & R0 & I0 & _ & Q0 & _).
  rewrite E. cbn [read_retry_loop].
  destruct (send_read_request_ready (u16 addr) len (u16_range addr) h0 R0)
    as (h1 & Es & R1 & _ & I1 & Q1 & _).
  rewrite Es.
  assert (Ez : (output_report_size (drvdata h0) =?
                output_report_size (drvdata h1)) = true).
  { apply Z.eqb_eq. destruct R0 as (_ & _ & A & _), R1 as (_ & _ & B & _).
    pose proof (send_read_request_spec (u16 addr) len h0) as S; cbv zeta in S.
    rewrite Es in S; cbn [fst snd] in S.
    destruct S as (_ & S1 & _).
    destruct (transport_of_sizes _ _ S1) as (_ & E2 & _). now rewrite E2. }
  rewrite Ez. cbn [negb].
  rewrite Nat.add_comm. cbn [Nat.add read_data_loop].
  rewrite (proj2 (Z.ltb_ge 0 len) Hlen).
  destruct R0 as (_ & _ & _ & Hsz & _).
  rewrite (proj2 (Z.geb_le _ _)) by lia.
  eexists. split; [reflexivity|]. simpl.
  split; [congruence|]. split; [congruence|].
  apply exit_ready. exact R1.
Qed.

Lemma rmi_read_block_nothing_to_read_witness :
  exists h',
    rmi_read_block 0x0010 [7; 7] 0 (bench_device 16 8 []) = (0, [7; 7], h') /\
    inbound h' = [] /\
    requested (out_log h') = [] ++ [u16 0x0010] /\
    engine_ready h'.
Proof.
  refine (rmi_read_block_nothing_to_read 0x0010 [7; 7] 0
            (bench_device 16 8 []) _ _).
  - apply bench_device_ready; lia.
  - lia.
Defined.

(** ** The inbound path *)

Lemma mbind_inv {A B} (m : M A) (k : A -> M B) h r :
  mbind m k h = Some r ->
  exists a h1, m h = Some (a, h1) /\ k a h1 = Some r.
Proof. unfold mbind. destruct (m h) as [[a h1]|]; [eauto|discriminate]. Qed.

Lemma ld_inv p i h v h' :
  ld p i h = Some (v, h') -> h' = h /\ load_chk p i = Some v.
Proof.
  unfold ld. destruct (load_chk p i); simpl; [|discriminate].
  intros E. inversion E. auto.
Qed.

Lemma reports_refl h : reports h h.
Proof. exists []. destruct h; unfold with_input_log; simpl. now rewrite app_nil_r. Qed.

Lemma reports_trans h1 h2 h3 : reports h1 h2 -> reports h2 h3 -> reports h1 h3.
Proof.
  intros [e1 ->] [e2 ->]. exists (e1 ++ e2).
  unfold with_input_log; simpl. now rewrite app_assoc.
Qed.

Lemma emit_reports e h u h' : emit e h = Some (u, h') -> reports h h'.
Proof. unfold emit. intros E. inversion E. exists [e]. reflexivity. Qed.

Lemma reports_drvdata h h' : reports h h' -> drvdata h' = drvdata h.
Proof. intros [e ->]. reflexivity. Qed.

Lemma for_loop_reports {A} (body : Z -> A -> M A) :
  (forall i acc h a h', body i acc h = Some (a, h') -> reports h h') ->
  forall n i acc h a h',
    for_loop n i body acc h = Some (a, h') -> reports h h'.
Proof.
  intros Hb. induction n as [|n IH]; intros i acc h a h' E; cbn [for_loop] in E.
  - unfold mret in E. inversion E. apply reports_refl.
  - apply mbind_inv in E. destruct E as (acc1 & h1 & E1 & E2).
    eapply reports_trans; [eapply Hb; exact E1 | eapply IH; exact E2].
Qed.

Tactic Notation "mstep" hyp(H) "as" ident(a) ident(h1) ident(E) :=
  apply mbind_inv in H; destruct H as (a & h1 & E & H).
Ltac mdata H :=
  let a := fresh "d" in let h1 := fresh "h" in let E := fresh "E" in
  apply mbind_inv in H; destruct H as (a & h1 & E & H);
  unfold hdata_of in E; inversion E; subst; clear E.
Ltac mld H :=
  let a := fresh "b" in let h1 := fresh "h" in let E := fresh "E" in
  apply mbind_inv in H; destruct H as (a & h1 & E & H);
  apply ld_inv in E; destruct E as [-> E].
Ltac memit H R :=
  let a := fresh "u" in let h1 := fresh "h" in
  apply mbind_inv in H; destruct H as (a & h1 & R & H);
  apply emit_reports in R.
Ltac mdone H := unfold mret in H; inversion H; subst; clear H.

Lemma rmi_f11_process_touch_reports slot fs td h u h' :
  rmi_f11_process_touch slot fs td h = Some (u, h') -> reports h h'.
Proof.
  unfold rmi_f11_process_touch. intros H.
  mdata H. memit H R1. memit H R2.
  eapply reports_trans; [exact R1|]. eapply reports_trans; [exact R2|].
  clear R1 R2.
  destruct (fs =? 1).
  - do 5 mld H.
    memit H R1. memit H R2. memit H R3. memit H R4. memit H R5.
    apply emit_reports in H.
    repeat (eapply reports_trans; [eassumption|]). apply reports_refl.
  - mdone H. apply reports_refl.
Qed.

Lemma rmi_f11_input_event_reports irq data size h r h' :
  rmi_f11_input_event irq data size h = Some (r, h') -> reports h h'.
Proof.
  unfold rmi_f11_input_event. intros H.
  mdata H.
  destruct (u32 size <? _). { mdone H. apply reports_refl. }
  destruct (Z.land irq _ =? 0). { mdone H. apply reports_refl. }
  mstep H as u1 h1 L. apply for_loop_reports in L.
  2:{ intros i acc h2 a2 h2' Hb. mld Hb.
      eapply rmi_f11_process_touch_reports; exact Hb. }
  memit H R1. memit H R2. mdone H.
  repeat (eapply reports_trans; [eassumption|]). apply reports_refl.
Qed.

Lemma rmi_f30_input_event_reports irq data size h r h' :
  rmi_f30_input_event irq data size h = Some (r, h') -> reports h h'.
Proof.
  unfold rmi_f30_input_event. intros H.
  mdata H.
  destruct (Z.land irq _ =? 0). { mdone H. apply reports_refl. }
  mstep H as u1 h1 L. apply for_loop_reports in L.
  2:{ intros i acc h2 a2 h2' Hb.
      destruct (test_bit i _).
      - mld Hb. memit Hb R1. mdone Hb. exact R1.
      - mdone Hb. apply reports_refl. }
  mdone H. exact L.
Qed.

Lemma rmi_input_event_reports data size h r h' :
  rmi_input_event data size h = Some (r, h') ->
  reports h h' /\ (r = 0 \/ r = 1).
Proof.
  unfold rmi_input_event. intros H.
  mdata H.
  destruct (negb _). { mdone H. split; [apply reports_refl|auto]. }
  mld H.
  destruct (_ <? _).
  - mstep H as n1 h1 R1. apply rmi_f11_input_event_reports in R1.
    mstep H as n2 h2 R2. apply rmi_f30_input_event_reports in R2.
    mdone H. split; [eapply reports_trans; eassumption|auto].
  - mstep H as n1 h1 R1. apply rmi_f30_input_event_reports in R1.
    mstep H as n2 h2 R2. apply rmi_f11_input_event_reports in R2.
    mdone H. split; [eapply reports_trans; eassumption|auto].
Qed.

(** X8.  Whatever report the HID core hands in, [rmi_raw_event] sends
    nothing and changes neither the function tables nor the recorded
    page, the output buffer or the report sizes.  All it may do is fill
    the input buffer (keeping its size) and set the data-pending bit,
    report events to the input device, or queue the mode reset; its
    result is 0 or 1. *)
Theorem rmi_raw_event_keeps (data : list Z) (size : Z) (h : hid_device)
    (r : Z) (h' : hid_device) :
  rmi_raw_event data size h = Some (r, h') ->
  (r = 0 \/ r = 1) /\
  out_log h' = out_log h /\ feature_log h' = feature_log h /\
  inbound h' = inbound h /\
  hw_output_ret h' = hw_output_ret h /\ hw_request_ret h' = hw_request_ret h /\
  tables_of h' = tables_of h /\
  page (drvdata h') = page (drvdata h) /\
  writeReport (drvdata h') = writeReport (drvdata h) /\
  input_report_size (drvdata h') = input_report_size (drvdata h) /\
  output_report_size (drvdata h') = output_report_size (drvdata h) /\
  length (readReport (drvdata h')) = length (readReport (drvdata h)) /\
  (forall n, n <> RMI_READ_DATA_PENDING ->
             test_bit n (flags (drvdata h')) = test_bit n (flags (drvdata h))) /\
  (exists evs, input_log h' = input_log h ++ evs) /\
  (reset_work_pending h = true -> reset_work_pending h' = true).
Proof.
  unfold rmi_raw_event. intros H.
  assert (Hrep : forall k, reports h k ->
    out_log k = out_log h /\ feature_log k = feature_log h /\
    inbound k = inbound h /\
    hw_output_ret k = hw_output_ret h /\ hw_request_ret k = hw_request_ret h /\
    tables_of k = tables_of h /\
    page (drvdata k) = page (drvdata h) /\
    writeReport (drvdata k) = writeReport (drvdata h) /\
    input_report_size (drvdata k) = input_report_size (drvdata h) /\
    output_report_size (drvdata k) = output_report_size (drvdata h) /\
    length (readReport (drvdata k)) = length (readReport (drvdata h)) /\
    (forall n, n <> RMI_READ_DATA_PENDING ->
               test_bit n (flags (drvdata k)) = test_bit n (flags (drvdata h))) /\
    (exists evs, input_log k = input_log h ++ evs) /\
    (reset_work_pending h = true -> reset_work_pending k = true)).
  { intros k [evs ->]. simpl. repeat split; auto. exists evs. reflexivity. }
  mstep H as id h1 L. apply ld_inv in L. destruct L as [-> _].
  destruct (id =? RMI_READ_DATA_REPORT_ID).
  { unfold lift, rmi_read_data_event in H.
    destruct (negb _); inversion H; subst; clear H; simpl.
    - split; [auto|]. apply Hrep, reports_refl.
    - split; [auto|]. rewrite length_memcpy.
      repeat split; auto.
      + intros n Hn. apply test_bit_set_other; [discriminate|congruence].
      + exists []. now rewrite app_nil_r. }
  destruct (id =? RMI_ATTN_REPORT_ID).
  { apply rmi_input_event_reports in H. destruct H as [R Hr].
    split; [exact Hr|]. apply Hrep, R. }
  destruct (id =? RMI_MOUSE_REPORT_ID).
  { mstep H as d1 h1 L. apply ld_inv in L. destruct L as [-> _].
    destruct (d1 =? 0).
    - mstep H as q h1 L. unfold lift in L. inversion L; subst; clear L.
      mdone H.
      simpl. repeat split; auto. exists []. now rewrite app_nil_r.
    - mdone H. split; [auto|]. apply Hrep, reports_refl. }
  mdone H. split; [auto|]. apply Hrep, reports_refl.
Qed.

Lemma rmi_raw_event_keeps_witness :
  let h := attached_sensor 0x14 in
  let h' := with_input_log (input_log h ++ [Ev_key BTN_LEFT true]) h in
  rmi_raw_event [0x0C; 0x02; 0x00] 3 h = Some (1, h') /\
  out_log h' = out_log h /\ feature_log h' = feature_log h /\
  tables_of h' = tables_of h.
Proof.
  intros h h'.
  assert (E : rmi_raw_event [0x0C; 0x02; 0x00] 3 h = Some (1, h'))
    by (vm_compute; reflexivity).
  split; [exact E|].
  pose proof (rmi_raw_event_keeps [0x0C; 0x02; 0x00] 3 h 1 h' E) as K.
  destruct K as (_ & K1 & K2 & _ & _ & _ & K6 & _). auto.
Defined.

Lemma memcpy_head (dst src : list Z) (n : Z) :
  0 <= n <= Z.of_nat (length src) -> n <= Z.of_nat (length dst) ->
  memcpy dst 0 src 0 n =
    firstn (Z.to_nat n) src ++ skipn (Z.to_nat n) dst.
Proof.
  intros Hs Hd. unfold memcpy, blit. simpl.
  rewrite Nat.sub_0_r, length_firstn, Nat.min_l by lia.
  rewrite firstn_firstn, Nat.min_r by lia. reflexivity.
Qed.

(** X9.  A read-data report is taken only while a read request is
    pending.  Without one [rmi_raw_event] returns 0 and leaves the device
    exactly as it was.  With one it returns 1, marks data pending and
    copies the first min(size, input_report_size) bytes of the report
    over the start of the input buffer, whose remaining bytes stay. *)
Theorem rmi_raw_event_read_data (data : list Z) (size : Z) (h : hid_device) :
  load_chk data 0 = Some RMI_READ_DATA_REPORT_ID ->
  0 <= size <= Z.of_nat (length data) ->
  Z.of_nat (length (readReport (drvdata h))) = input_report_size (drvdata h) ->
  (test_bit RMI_READ_REQUEST_PENDING (flags (drvdata h)) = false ->
   rmi_raw_event data size h = Some (0, h)) /\
  (test_bit RMI_READ_REQUEST_PENDING (flags (drvdata h)) = true ->
   exists h',
     rmi_raw_event data size h = Some (1, h') /\
     readReport (drvdata h') =
       firstn (Z.to_nat (Z.min size (input_report_size (drvdata h)))) data ++
       skipn (Z.to_nat (Z.min size (input_report_size (drvdata h))))
         (readReport (drvdata h)) /\
     test_bit RMI_READ_DATA_PENDING (flags (drvdata h')) = true /\
     test_bit RMI_READ_REQUEST_PENDING (flags (drvdata h')) = true).
Proof.
  intros Hid Hsz Hrr.
  unfold rmi_raw_event, mbind, ld. rewrite Hid. cbn [option_map].
  change (RMI_READ_DATA_REPORT_ID =? RMI_READ_DATA_REPORT_ID) with true.
  cbv iota. unfold lift, rmi_read_data_event.
  split; intros Hp; rewrite Hp; cbn [negb].
  - reflexivity.
  - eexists. split; [reflexivity|]. simpl.
    split.
    + destruct (Z.ltb_spec size (input_report_size (drvdata h))).
      * rewrite Z.min_l by lia. apply memcpy_head; lia.
      * rewrite Z.min_r by lia. apply memcpy_head; lia.
    + split.
      * apply test_bit_set_same. discriminate.
      * rewrite test_bit_set_other; [exact Hp|discriminate|discriminate].
Qed.

Lemma rmi_raw_event_read_data_witness :
  rmi_raw_event [0x0B; 2; 5; 6] 4 (bench_device 4 8 []) =
    Some (0, bench_device 4 8 []) /\
  exists h',
    rmi_raw_event [0x0B; 2; 5; 6; 9] 5
      (snd (send_read_request 0x10 2 (bench_device 4 8 []))) = Some (1, h') /\
    readReport (drvdata h') = [0x0B; 2; 5; 6] /\
    test_bit RMI_READ_DATA_PENDING (flags (drvdata h')) = true /\
    test_bit RMI_READ_REQUEST_PENDING (flags (drvdata h')) = true.
Proof.
  split.
  - refine (proj1 (rmi_raw_event_read_data [0x0B; 2; 5; 6] 4
                     (bench_device 4 8 []) _ _ _) _).
    + reflexivity.
    + simpl. lia.
    + reflexivity.
    + reflexivity.
  - refine (proj2 (rmi_raw_event_read_data [0x0B; 2; 5; 6; 9] 5
                     (snd (send_read_request 0x10 2 (bench_device 4 8 [])))
                     _ _ _) _).
    + reflexivity.
    + simpl. lia.
    + reflexivity.
    + reflexivity.
Defined.

(** ** Decoding an attention report *)

Lemma mbind_some {A B} (m : M A) (k : A -> M B) h a h1 :
  m h = Some (a, h1) -> mbind m k h = k a h1.
Proof. unfold mbind. now intros ->. Qed.

Lemma for_loop_S {A} n i (body : Z -> A -> M A) acc h :
  for_loop (S n) i body acc h =
    match body i acc h with
    | Some (a, h') => for_loop n (i + 1) body a h'
    | None => None
    end.
Proof. reflexivity. Qed.

Lemma with_input_log_app h e1 e2 :
  with_input_log
    (input_log (with_input_log (input_log h ++ e1) h) ++ e2)
    (with_input_log (input_log h ++ e1) h) =
  with_input_log (input_log h ++ e1 ++ e2) h.
Proof. unfold with_input_log; simpl. now rewrite app_assoc. Qed.

Lemma load_chk_some p i :
  0 <= i < Z.of_nat (length p) -> load_chk p i = Some (load p i).
Proof.
  intros H. unfold load_chk, load.
  rewrite (proj2 (Z.ltb_ge _ _)) by lia.
  destruct (nth_error p (Z.to_nat i)) eqn:E.
  - simpl. now rewrite (nth_error_nth _ _ _ E).
  - apply nth_error_None in E. lia.
Qed.

Lemma ld_some p i h :
  0 <= i < Z.of_nat (length p) -> ld p i h = Some (load p i, h).
Proof. intros H. unfold ld. now rewrite load_chk_some. Qed.

Lemma lor_bound a b n :
  0 <= n -> 0 <= a < 2 ^ n -> 0 <= b < 2 ^ n -> 0 <= Z.lor a b < 2 ^ n.
Proof.
  intros Hn Ha Hb.
  assert (H0 : 0 <= Z.lor a b) by (apply Z.lor_nonneg; lia).
  split; [exact H0|].
  destruct (Z.eq_dec (Z.lor a b) 0) as [E|E]; [rewrite E; lia|].
  apply Z.log2_lt_pow2; [lia|].
  rewrite Z.log2_lor by lia.
  assert (La : forall x, 0 <= x < 2 ^ n -> Z.lor a b <> 0 -> Z.log2 x < n).
  { intros x Hx _. destruct (Z.eq_dec x 0) as [->|Nx].
    - simpl. destruct (Z.eq_dec n 0) as [->|]; [|lia].
      simpl in Ha, Hb. assert (a = 0) by lia. assert (b = 0) by lia.
      subst. simpl in E. congruence.
    - apply Z.log2_lt_pow2; lia. }
  apply Z.max_lub_lt; apply La; auto.
Qed.

Lemma bit_of b k :
  negb (Z.land (Z.shiftr b k) (BIT 0) =? 0) = Z.testbit b k.
Proof.
  rewrite Z.testbit_odd. change (BIT 0) with (Z.ones 1).
  rewrite Z.land_ones by lia. change (2 ^ 1) with 2.
  rewrite Zmod_odd. destruct (Z.odd (Z.shiftr b k)); reflexivity.
Qed.

Lemma slots_of_app a b : slots_of (a ++ b) = slots_of a ++ slots_of b.
Proof. apply flat_map_app. Qed.

Lemma states_of_app a b : states_of (a ++ b) = states_of a ++ states_of b.
Proof. apply flat_map_app. Qed.

(** One finger: the slot, its state, and for a finger that is down the
    six axis values. *)
Lemma rmi_f11_process_touch_spec slot fs td h :
  (5 <= length td)%nat ->
  exists evs,
    rmi_f11_process_touch slot fs td h =
      Some (tt, with_input_log
                  (input_log h ++
                   Ev_mt_slot slot :: Ev_mt_slot_state (fs =? 1) :: evs) h) /\
    slots_of evs = [] /\ states_of evs = [].
Proof.
  intros Hl.
  do 5 (destruct td as [|? td]; [simpl in Hl; lia|]).
  destruct (Z.eqb_spec fs 1) as [->|Hfs].
  - rewrite rmi_f11_process_touch_live.
    eexists. split; [reflexivity|]. split; reflexivity.
  - unfold rmi_f11_process_touch, mbind, hdata_of, emit, mret.
    rewrite (proj2 (Z.eqb_neq _ _) Hfs).
    exists []. split; [|split; reflexivity].
    unfold with_input_log; simpl. now rewrite <- app_assoc.
Qed.

Lemma f11_loop_spec data offset : forall n k h,
  0 <= offset ->
  offset + 5 * Z.of_nat (k + n) <= Z.of_nat (length data) ->
  exists evs,
    for_loop n (Z.of_nat k)
      (fun i _ =>
         b <- ld data (Z.shiftr i 2) ;;
         rmi_f11_process_touch i
           (Z.land (Z.shiftr b (Z.shiftl (Z.land i 0x3) 1)) 0x03)
           (skipn (Z.to_nat (offset + 5 * i)) data)) tt h =
      Some (tt, with_input_log (input_log h ++ evs) h) /\
    slots_of evs = map Z.of_nat (seq k n) /\
    states_of evs =
      map (fun i => finger_state data i =? 1) (map Z.of_nat (seq k n)).
Proof.
  induction n as [|n IH]; intros k h Ho Hl.
  - exists []. cbn [for_loop]. unfold mret. split; [|split; reflexivity].
    destruct h; unfold with_input_log; simpl. now rewrite app_nil_r.
  - assert (Hk : 0 <= Z.shiftr (Z.of_nat k) 2 < Z.of_nat (length data)).
    { rewrite Z.shiftr_div_pow2 by lia. change (2 ^ 2) with 4.
      split; [apply Z.div_pos; lia|].
      apply Z.div_lt_upper_bound; lia. }
    rewrite for_loop_S. cbv beta.
    rewrite (mbind_some _ _ _ _ _ (ld_some data _ h Hk)).
    destruct (rmi_f11_process_touch_spec (Z.of_nat k)
                (finger_state data (Z.of_nat k))
                (skipn (Z.to_nat (offset + 5 * Z.of_nat k)) data) h)
      as (e1 & E1 & S1 & T1).
    { rewrite length_skipn. lia. }
    unfold finger_state in E1 at 1. rewrite E1.
    replace (Z.of_nat k + 1) with (Z.of_nat (S k)) by lia.
    destruct (IH (S k)
                (with_input_log
                   (input_log h ++
                    Ev_mt_slot (Z.of_nat k)
                    :: Ev_mt_slot_state (finger_state data (Z.of_nat k) =? 1)
                    :: e1) h) Ho) as (e2 & E2 & S2 & T2).
    { lia. }
    rewrite E2, with_input_log_app.
    eexists. split; [reflexivity|].
    split.
    + rewrite slots_of_app, S2.
      change (slots_of (Ev_mt_slot (Z.of_nat k)
                :: Ev_mt_slot_state (finger_state data (Z.of_nat k) =? 1) :: e1))
        with (Z.of_nat k :: slots_of e1).
      rewrite S1. reflexivity.
    + rewrite states_of_app, T2.
      change (states_of (Ev_mt_slot (Z.of_nat k)
                :: Ev_mt_slot_state (finger_state data (Z.of_nat k) =? 1) :: e1))
        with ((finger_state data (Z.of_nat k) =? 1) :: states_of e1).
      rewrite T1. reflexivity.
Qed.

(** X10.  What the touch decoder reports for a payload that holds the
    finger blocks it reads: every finger slot from 0 to [max_fingers - 1]
    once, in order; a slot is reported in contact exactly when the
    finger's two status bits are 01; then the frame is closed with
    [input_mt_sync_frame] and [input_sync], and the function's report
    size is returned.  No byte outside the payload is read. *)
Theorem rmi_f11_input_event_fingers (irq : Z) (data : list Z) (size : Z)
    (h : hid_device) :
  report_size (f11 (drvdata h)) <= u32 size ->
  Z.land irq (irq_mask (f11 (drvdata h))) <> 0 ->
  0 <= max_fingers (drvdata h) ->
  f11_data_offset (max_fingers (drvdata h)) + 5 * max_fingers (drvdata h)
    <= Z.of_nat (length data) ->
  exists evs,
    rmi_f11_input_event irq data size h =
      Some (int32 (report_size (f11 (drvdata h))),
            with_input_log
              (input_log h ++ evs ++ [Ev_mt_sync_frame; Ev_sync]) h) /\
    slots_of evs =
      map Z.of_nat (seq 0 (Z.to_nat (max_fingers (drvdata h)))) /\
    states_of evs =
      map (fun i => finger_state data i =? 1)
        (map Z.of_nat (seq 0 (Z.to_nat (max_fingers (drvdata h))))).
Proof.
  intros Hsz Hirq Hmf Hlen.
  unfold rmi_f11_input_event, mbind at 1, hdata_of.
  rewrite (proj2 (Z.ltb_ge _ _) Hsz), (proj2 (Z.eqb_neq _ _) Hirq).
  cbv zeta.
  assert (Hoff : 0 <= f11_data_offset (max_fingers (drvdata h))).
  { unfold f11_data_offset.
    pose proof (proj2 (Z.shiftr_nonneg (max_fingers (drvdata h)) 2) Hmf). lia. }
  destruct (f11_loop_spec data (f11_data_offset (max_fingers (drvdata h)))
              (Z.to_nat (max_fingers (drvdata h))) 0 h Hoff)
    as (evs & E & S & T).
  { rewrite Nat.add_0_l, Z2Nat.id by exact Hmf. exact Hlen. }
  change (Z.of_nat 0) with 0 in E.
  rewrite (mbind_some _ _ _ _ _ E).
  exists evs. split; [|split; assumption].
  unfold mbind, emit, mret. simpl.
  unfold with_input_log; simpl. now rewrite <- !app_assoc.
Qed.

Lemma rmi_f11_input_event_fingers_witness :
  exists evs,
    rmi_f11_input_event 1 (0x11 :: repeat 0 26) 27 (attached_sensor 0x14) =
      Some (int32 (report_size (f11 (drvdata (attached_sensor 0x14)))),
            with_input_log
              (input_log (attached_sensor 0x14) ++
               evs ++ [Ev_mt_sync_frame; Ev_sync]) (attached_sensor 0x14)) /\
    slots_of evs =
      map Z.of_nat
        (seq 0 (Z.to_nat (max_fingers (drvdata (attached_sensor 0x14))))) /\
    states_of evs =
      map (fun i => finger_state (0x11 :: repeat 0 26) i =? 1)
        (map Z.of_nat
           (seq 0 (Z.to_nat (max_fingers (drvdata (attached_sensor 0x14)))))).
Proof.
  refine (rmi_f11_input_event_fingers 1 (0x11 :: repeat 0 26) 27
            (attached_sensor 0x14) _ _ _ _).
  - vm_compute. discriminate.
  - vm_compute. discriminate.
  - vm_compute. discriminate.
  - vm_compute. discriminate.
Defined.

Lemma land_7 a : Z.land a 7 = a mod 8.
Proof. change 7 with (Z.ones 3). now rewrite Z.land_ones by lia. Qed.

(** X11.  The values reported for a finger in contact: X is below 4096
    and never negative; Y is the recorded maximum minus a raw value below
    4096; the orientation is 0 or 1; the pressure is a byte; the minor
    width is at most 7 and at most the major width, which is at most
    15. *)
Theorem rmi_f11_process_touch_ranges (slot : Z) (td : list Z)
    (h h' : hid_device) :
  0 <= max_y (drvdata h) <= 65535 ->
  rmi_f11_process_touch slot 1 td h = Some (tt, h') ->
  exists x y o z major minor,
    h' = with_input_log
           (input_log h ++
            [Ev_mt_slot slot; Ev_mt_slot_state true;
             Ev_abs ABS_MT_POSITION_X x; Ev_abs ABS_MT_POSITION_Y y;
             Ev_abs ABS_MT_ORIENTATION o; Ev_abs ABS_MT_PRESSURE z;
             Ev_abs ABS_MT_TOUCH_MAJOR major;
             Ev_abs ABS_MT_TOUCH_MINOR minor]) h /\
    0 <= x < 4096 /\
    max_y (drvdata h) - 4095 <= y <= max_y (drvdata h) /\
    (o = 0 \/ o = 1) /\
    0 <= z <= 255 /\
    0 <= minor <= major /\ major <= 15 /\ minor <= 7.
Proof.
  intros Hy H.
  assert (Hl : (5 <= length td)%nat).
  { unfold rmi_f11_process_touch, mbind, hdata_of, emit, ld in H.
    simpl in H.
    do 5 (destruct td as [|? td]; [discriminate H|]). simpl. lia. }
  do 5 (destruct td as [|? td]; [simpl in Hl; lia|]).
  rewrite rmi_f11_process_touch_live in H.
  apply (f_equal (fun o => match o with Some (_, k) => k | None => h end)) in H.
  cbv beta iota in H. subst h'.
  do 6 eexists. split; [reflexivity|].
  pose proof (u8_range z) as R0. pose proof (u8_range z0) as R1.
  pose proof (u8_range z1) as R2. pose proof (u8_range z2) as R3.
  pose proof (u8_range z3) as R4.
  assert (Hwx : 0 <= Z.land (u8 z2) 7 <= 7).
  { rewrite land_7. pose proof (Z.mod_pos_bound (u8 z2) 8 ltac:(lia)). lia. }
  assert (Hwy : 0 <= Z.shiftr (u8 z2) 4 <= 15).
  { rewrite Z.shiftr_div_pow2 by lia. change (2 ^ 4) with 16.
    split; [apply Z.div_pos; lia|].
    assert (u8 z2 / 16 < 16) by (apply Z.div_lt_upper_bound; lia). lia. }
  assert (Hx : 0 <= Z.lor (Z.shiftl (u8 z) 4) (Z.land (u8 z1) 7) < 2 ^ 12).
  { apply lor_bound; [lia| |].
    - rewrite Z.shiftl_mul_pow2 by lia. change (2 ^ 4) with 16.
      change (2 ^ 12) with 4096. lia.
    - rewrite land_7. change (2 ^ 12) with 4096.
      pose proof (Z.mod_pos_bound (u8 z1) 8 ltac:(lia)). lia. }
  assert (Hry : 0 <= Z.lor (Z.shiftl (u8 z0) 4) (Z.shiftr (u8 z1) 4) < 2 ^ 12).
  { apply lor_bound; [lia| |].
    - rewrite Z.shiftl_mul_pow2 by lia. change (2 ^ 4) with 16.
      change (2 ^ 12) with 4096. lia.
    - rewrite Z.shiftr_div_pow2 by lia. change (2 ^ 4) with 16.
      change (2 ^ 12) with 4096.
      split; [apply Z.div_pos; lia|].
      assert (u8 z1 / 16 < 16) by (apply Z.div_lt_upper_bound; lia). lia. }
  change (2 ^ 12) with 4096 in Hx, Hry.
  rewrite int32_small by (unfold INT_MAX; lia).
  split; [exact Hx|]. split; [lia|].
  split; [destruct (_ >? _); auto|].
  split; [lia|]. lia.
Qed.

Lemma rmi_f11_process_touch_ranges_witness :
  let h := bench_device 16 8 [] in
  exists x y o z major minor,
    with_input_log
      (input_log h ++
       [Ev_mt_slot 0; Ev_mt_slot_state true;
        Ev_abs ABS_MT_POSITION_X 0x127; Ev_abs ABS_MT_POSITION_Y (- 0x34A);
        Ev_abs ABS_MT_ORIENTATION 0; Ev_abs ABS_MT_PRESSURE 0x40;
        Ev_abs ABS_MT_TOUCH_MAJOR 9; Ev_abs ABS_MT_TOUCH_MINOR 4]) h =
    with_input_log
      (input_log h ++
       [Ev_mt_slot 0; Ev_mt_slot_state true;
        Ev_abs ABS_MT_POSITION_X x; Ev_abs ABS_MT_POSITION_Y y;
        Ev_abs ABS_MT_ORIENTATION o; Ev_abs ABS_MT_PRESSURE z;
        Ev_abs ABS_MT_TOUCH_MAJOR major;
        Ev_abs ABS_MT_TOUCH_MINOR minor]) h /\
    0 <= x < 4096 /\
    max_y (drvdata h) - 4095 <= y <= max_y (drvdata h) /\
    (o = 0 \/ o = 1) /\
    0 <= z <= 255 /\
    0 <= minor <= major /\ major <= 15 /\ minor <= 7.
Proof.
  intros h.
  refine (rmi_f11_process_touch_ranges 0 [0x12; 0x34; 0xAF; 0x9C; 0x40] h _ _ _).
  - simpl. lia.
  - reflexivity.
Defined.

Lemma f30_loop_spec d data : forall n k button h,
  Z.of_nat (k + n) <= 8 * Z.of_nat (length data) ->
  for_loop n (Z.of_nat k)
    (fun i button =>
       if test_bit i (button_mask d) then
         b <- ld data (i / 8) ;;
         emit (Ev_key (BTN_LEFT + button)
                 (if test_bit i (button_state_mask d)
                  then negb (negb (Z.land (Z.shiftr b (Z.land i 0x07)) (BIT 0)
                                   =? 0))
                  else negb (Z.land (Z.shiftr b (Z.land i 0x07)) (BIT 0)
                             =? 0))) ;;;
         mret (button + 1)
       else mret button) button h =
  Some (button +
        Z.of_nat (length (filter (fun i => test_bit i (button_mask d))
                            (map Z.of_nat (seq k n)))),
        with_input_log
          (input_log h ++
           key_events d data
             (filter (fun i => test_bit i (button_mask d))
                (map Z.of_nat (seq k n))) button) h).
Proof.
  induction n as [|n IH]; intros k button h Hl.
  - cbn [for_loop seq map filter key_events length]. unfold mret.
    rewrite Z.add_0_r. do 2 f_equal.
    destruct h; unfold with_input_log; simpl. now rewrite app_nil_r.
  - rewrite for_loop_S. cbv beta.
    cbn [seq map filter].
    replace (Z.of_nat k + 1) with (Z.of_nat (S k)) by lia.
    destruct (test_bit (Z.of_nat k) (button_mask d)).
    + assert (Hk : 0 <= Z.of_nat k / 8 < Z.of_nat (length data)).
      { split; [apply Z.div_pos; lia|]. apply Z.div_lt_upper_bound; lia. }
      rewrite (mbind_some _ _ _ _ _ (ld_some data _ h Hk)).
      unfold mbind at 1, emit at 1, mret at 1. cbv beta iota.
      rewrite IH by lia.
      rewrite with_input_log_app.
      cbn [length key_events app].
      rewrite !bit_of, land_7.
      rewrite Nat2Z.inj_succ, <- Z.add_1_l, Z.add_assoc.
      replace (if test_bit (Z.of_nat k) (button_state_mask d)
               then negb (Z.testbit (load data (Z.of_nat k / 8))
                            (Z.of_nat k mod 8))
               else Z.testbit (load data (Z.of_nat k / 8)) (Z.of_nat k mod 8))
        with (xorb (test_bit (Z.of_nat k) (button_state_mask d))
                (Z.testbit (load data (Z.of_nat k / 8)) (Z.of_nat k mod 8)))
        by (destruct (test_bit (Z.of_nat k) (button_state_mask d)),
                     (Z.testbit (load data (Z.of_nat k / 8))
                        (Z.of_nat k mod 8)); reflexivity).
      reflexivity.
    + unfold mret at 1. rewrite IH by lia. reflexivity.
Qed.

(** X12.  What the button decoder reports when its interrupt is set and
    the payload holds a bit for every GPIO position: one key event for
    each position wired as a button, lowest position first, with the
    codes BTN_LEFT, BTN_LEFT + 1, ... in that order; the value is the
    position's bit in the payload, inverted where the state mask is set.
    Nothing else is reported and no byte outside the payload is read. *)
Theorem rmi_f30_input_event_keys (irq : Z) (data : list Z) (size : Z)
    (h : hid_device) :
  Z.land irq (irq_mask (f30 (drvdata h))) <> 0 ->
  gpio_led_count (drvdata h) <= 8 * Z.of_nat (length data) ->
  rmi_f30_input_event irq data size h =
    Some (int32 (report_size (f30 (drvdata h))),
          with_input_log
            (input_log h ++
             key_events (drvdata h) data (button_positions (drvdata h)) 0) h).
Proof.
  intros Hirq Hlen.
  unfold rmi_f30_input_event, mbind at 1, hdata_of.
  rewrite (proj2 (Z.eqb_neq _ _) Hirq).
  pose proof (f30_loop_spec (drvdata h) data
                (Z.to_nat (gpio_led_count (drvdata h))) 0 0 h ltac:(lia)) as L.
  change (Z.of_nat 0) with 0 in L. cbv zeta.
  rewrite (mbind_some _ _ _ _ _ L). reflexivity.
Qed.

Lemma rmi_f30_input_event_keys_witness :
  rmi_f30_input_event 2 [0x00] 1 (attached_sensor 0x14) =
    Some (int32 (report_size (f30 (drvdata (attached_sensor 0x14)))),
          with_input_log
            (input_log (attached_sensor 0x14) ++
             key_events (drvdata (attached_sensor 0x14)) [0x00]
               (button_positions (drvdata (attached_sensor 0x14))) 0)
            (attached_sensor 0x14)).
Proof.
  refine (rmi_f30_input_event_keys 2 [0x00] 1 (attached_sensor 0x14) _ _).
  - vm_compute. discriminate.
  - vm_compute. discriminate.
Defined.

(** X13.  An attention report is dropped without a look at it while the
    driver is not started; once started, a report whose interrupt byte
    holds no source of the touch or of the button function is read up to
    that byte and reports nothing, whatever follows in it. *)
Theorem rmi_input_event_ignores (data : list Z) (size : Z) (h : hid_device) :
  (test_bit RMI_STARTED (flags (drvdata h)) = false ->
   rmi_input_event data size h = Some (0, h)) /\
  (forall irq,
     test_bit RMI_STARTED (flags (drvdata h)) = true ->
     load_chk data 1 = Some irq ->
     Z.land irq (irq_mask (f11 (drvdata h))) = 0 ->
     Z.land irq (irq_mask (f30 (drvdata h))) = 0 ->
     rmi_input_event data size h = Some (1, h)).
Proof.
  split.
  - intros Hs. unfold rmi_input_event, mbind, hdata_of. now rewrite Hs.
  - intros irq Hs Hld H11 H30.
    unfold rmi_input_event, mbind at 1, hdata_of. rewrite Hs. cbn [negb].
    unfold mbind at 1, ld at 1. rewrite Hld. cbn [option_map].
    assert (F11 : forall d n, rmi_f11_input_event irq d n h = Some (0, h)).
    { intros d n. unfold rmi_f11_input_event, mbind, hdata_of.
      rewrite H11. cbn [Z.eqb]. now destruct (u32 n <? _). }
    assert (F30 : forall d n, rmi_f30_input_event irq d n h = Some (0, h)).
    { intros d n. unfold rmi_f30_input_event, mbind, hdata_of.
      now rewrite H30. }
    destruct (_ <? _); unfold mbind; rewrite ?F11, ?F30; cbv beta iota;
      rewrite ?F11, ?F30; reflexivity.
Qed.

Lemma rmi_input_event_ignores_witness :
  rmi_input_event [0x0C; 0x03] 2 (bench_device 16 8 []) =
    Some (0, bench_device 16 8 []) /\
  rmi_input_event [0x0C; 0x04; 0xFF] 3 (attached_sensor 0x14) =
    Some (1, attached_sensor 0x14).
Proof.
  split.
  - refine (proj1 (rmi_input_event_ignores [0x0C; 0x03] 2
                     (bench_device 16 8 [])) _).
    reflexivity.
  - refine (proj2 (rmi_input_event_ignores [0x0C; 0x04; 0xFF] 3
                     (attached_sensor 0x14)) 0x04 _ _ _ _).
    + vm_compute. reflexivity.
    + reflexivity.
    + vm_compute. reflexivity.
    + vm_compute. reflexivity.
Defined.

(** ** Interrupt masks and function addresses *)

Lemma rmi_gen_mask_ones base count :
  0 <= base < 32 -> 0 <= count < 32 ->
  rmi_gen_mask base count = Z.shiftl (Z.ones count) base mod 2 ^ 32.
Proof.
  intros Hb Hc. unfold rmi_gen_mask, GENMASK.
  assert (P : 0 < 2 ^ count) by (apply Z.pow_pos_nonneg; lia).
  assert (Q : 2 ^ count < 2 ^ 32) by (apply Z.pow_lt_mono_r; lia).
  assert (E : u32 (u32 (Z.shiftl 1 (u32 (u32 (count + base - 1) - base + 1))) - 1)
              = Z.ones count).
  { destruct (Z.eq_dec (count + base) 0) as [Z0|NZ].
    - assert (count = 0) by lia. assert (base = 0) by lia. subst. reflexivity.
    - unfold u32 at 4. rewrite (Z.mod_small (count + base - 1))
        by (change 4294967296 with (2 ^ 32); lia).
      replace (count + base - 1 - base + 1) with count by lia.
      unfold u32 at 3. rewrite (Z.mod_small count)
        by (change 4294967296 with (2 ^ 32); lia).
      rewrite Z.shiftl_1_l. unfold u32.
      change 4294967296 with (2 ^ 32).
      rewrite (Z.mod_small (2 ^ count)) by lia.
      rewrite Z.mod_small by lia.
      rewrite Z.ones_equiv. lia. }
  rewrite E. reflexivity.
Qed.

Lemma rmi_gen_mask_testbit base count n :
  0 <= base < 32 -> 0 <= count < 32 ->
  Z.testbit (rmi_gen_mask base count) n =
  (base <=? n) && (n <? base + count) && (n <? 32).
Proof.
  intros Hb Hc. rewrite rmi_gen_mask_ones by assumption.
  destruct (Z.leb_spec base n) as [L1|L1];
  destruct (Z.ltb_spec n (base + count)) as [L2|L2];
  destruct (Z.ltb_spec n 32) as [L3|L3]; cbn [andb].
  all: try (rewrite Z.mod_pow2_bits_high by lia; reflexivity).
  all: destruct (Z.neg_nonneg_cases n) as [Hn|Hn];
         [first [lia | apply Z.testbit_neg_r; exact Hn]|].
  all: rewrite Z.mod_pow2_bits_low by lia.
  all: rewrite Z.shiftl_spec by lia.
  all: first [ apply Z.ones_spec_low; lia
             | apply Z.ones_spec_high; lia
             | apply Z.testbit_neg_r; lia ].
Qed.

Lemma rmi_gen_mask_apart b1 c1 b2 c2 :
  0 <= b1 < 32 -> 0 <= c1 < 32 -> 0 <= b2 < 32 -> 0 <= c2 < 32 ->
  b1 + c1 <= b2 ->
  Z.land (rmi_gen_mask b1 c1) (rmi_gen_mask b2 c2) = 0.
Proof.
  intros H1 H2 H3 H4 H. apply Z.bits_inj'. intros n Hn.
  rewrite Z.land_spec, !rmi_gen_mask_testbit, Z.bits_0 by assumption.
  destruct (Z.leb_spec b1 n), (Z.ltb_spec n (b1 + c1)),
           (Z.leb_spec b2 n), (Z.ltb_spec n (b2 + c2)),
           (Z.ltb_spec n 32); cbn [andb]; try reflexivity; lia.
Qed.

(** X14.  The mask [rmi_gen_mask] gives a function with interrupt base
    [base] and [count] interrupt sources has exactly the bits
    [base .. base + count - 1] that fit 32 bits; a function without
    interrupt sources gets the empty mask, and two functions whose
    source ranges do not overlap get masks without a common bit. *)
Theorem rmi_gen_mask_bits (base count : Z) :
  0 <= base < 32 -> 0 <= count < 32 ->
  (forall n, Z.testbit (rmi_gen_mask base count) n =
             (base <=? n) && (n <? base + count) && (n <? 32)) /\
  (count = 0 -> rmi_gen_mask base count = 0) /\
  (forall base' count',
     0 <= base' < 32 -> 0 <= count' < 32 -> base + count <= base' ->
     Z.land (rmi_gen_mask base count) (rmi_gen_mask base' count') = 0).
Proof.
  intros Hb Hc. split; [|split].
  - intros n. now apply rmi_gen_mask_testbit.
  - intros ->. rewrite rmi_gen_mask_ones by lia.
    now rewrite Z.shiftl_0_l.
  - intros b' c' Hb' Hc' H. now apply rmi_gen_mask_apart.
Qed.

Lemma rmi_gen_mask_bits_witness :
  rmi_gen_mask 2 4 = 0x3c /\
  Z.testbit (rmi_gen_mask 2 4) 5 = (2 <=? 5) && (5 <? 2 + 4) && (5 <? 32) /\
  Z.land (rmi_gen_mask 2 4) (rmi_gen_mask 6 1) = 0.
Proof.
  split; [reflexivity|]. split.
  - refine (proj1 (rmi_gen_mask_bits 2 4 _ _) 5); lia.
  - refine (proj2 (proj2 (rmi_gen_mask_bits 2 4 _ _)) 6 1 _ _ _); lia.
Defined.

Lemma lor_page_base pg b :
  0 <= pg -> 0 <= b < 256 -> Z.lor (Z.shiftl pg 8) b = 256 * pg + b.
Proof.
  intros Hp Hb.
  assert (H : Z.land (Z.shiftl pg 8) b = 0).
  { apply Z.bits_inj'. intros n Hn.
    rewrite Z.land_spec, Z.bits_0.
    destruct (Z.ltb_spec n 8).
    - now rewrite Z.shiftl_spec_low by lia.
    - rewrite (Z.bits_above_log2 b n); [apply andb_false_r|lia|].
      destruct (Z.eq_dec b 0) as [->|]; [simpl; lia|].
      assert (Z.log2 b < 8)
        by (apply Z.log2_lt_pow2; change (2 ^ 8) with 256; lia).
      lia. }
  rewrite <- Z.lxor_lor, <- Z.add_nocarry_lxor by exact H.
  rewrite Z.shiftl_mul_pow2 by lia. change (2 ^ 8) with 256. lia.
Qed.

Lemma RMI_PAGE_of pg b :
  0 <= pg <= 255 -> 0 <= b < 256 -> RMI_PAGE (256 * pg + b) = pg.
Proof.
  intros Hp Hb. unfold RMI_PAGE.
  rewrite Z.shiftr_div_pow2 by lia. change (2 ^ 8) with 256.
  change 0xff with (Z.ones 8). rewrite Z.land_ones by lia.
  change (2 ^ 8) with 256.
  replace ((256 * pg + b) / 256) with pg
    by (apply Z.div_unique with (r := b); lia).
  apply Z.mod_small. lia.
Qed.

(** X15.  What [rmi_register_function] records for an entry of a
    supported function found on page [pg]: the page, and the four
    register bases as full addresses on that page (so that reads of the
    function's registers select page [pg]); the report size of the slot
    and the other function's slot stay as they were.  An entry of any
    other function number changes nothing. *)
Theorem rmi_register_function_addresses (number : Z) (e : list Z) (pg i : Z)
    (d : rmi_data) :
  0 <= pg <= 255 ->
  (number = 0x11 \/ number = 0x30) ->
  let d' := rmi_register_function e pg i d in
  (function_number e = number ->
   let f := function_slot number d' in
   f_page f = pg /\
   query_base_addr f = 256 * pg + pdt_query_base_addr e /\
   command_base_addr f = 256 * pg + pdt_command_base_addr e /\
   control_base_addr f = 256 * pg + pdt_control_base_addr e /\
   data_base_addr f = 256 * pg + pdt_data_base_addr e /\
   RMI_PAGE (query_base_addr f) = pg /\
   RMI_PAGE (control_base_addr f) = pg /\
   report_size f = report_size (function_slot number d)) /\
  (function_number e <> number ->
   function_slot number d' = function_slot number d) /\
  (function_number e <> 0x11 -> function_number e <> 0x30 -> d' = d).
Proof.
  intros Hp Hn. cbv zeta.
  assert (A : forall b, 0 <= b < 256 ->
            u16 (Z.lor (u16 (Z.shiftl pg 8)) b) = 256 * pg + b).
  { intros b Hb.
    assert (E : u16 (Z.shiftl pg 8) = Z.shiftl pg 8).
    { apply u16_small. rewrite Z.shiftl_mul_pow2 by lia.
      change (2 ^ 8) with 256. lia. }
    rewrite E, lor_page_base by lia. apply u16_small. lia. }
  assert (U : u32 pg = pg) by (unfold u32; apply Z.mod_small; lia).
  split; [|split].
  - intros He.
    assert (S : function_slot number (rmi_register_function e pg i d) =
      Build_rmi_function (u32 pg)
        (u16 (Z.lor (u16 (Z.shiftl pg 8)) (pdt_query_base_addr e)))
        (u16 (Z.lor (u16 (Z.shiftl pg 8)) (pdt_command_base_addr e)))
        (u16 (Z.lor (u16 (Z.shiftl pg 8)) (pdt_control_base_addr e)))
        (u16 (Z.lor (u16 (Z.shiftl pg 8)) (pdt_data_base_addr e)))
        (u32 i) (interrupt_source_count e)
        (report_size (function_slot number d))
        (rmi_gen_mask (u32 i) (interrupt_source_count e))).
    { unfold rmi_register_function, function_slot. rewrite He.
      destruct Hn as [-> | ->]; reflexivity. }
    rewrite S. cbn [f_page query_base_addr command_base_addr
                    control_base_addr data_base_addr report_size].
    unfold pdt_query_base_addr, pdt_command_base_addr,
      pdt_control_base_addr, pdt_data_base_addr.
    rewrite !A by apply load_range.
    rewrite !RMI_PAGE_of by (try apply load_range; lia).
    auto 10.
  - intros He. unfold rmi_register_function, function_slot.
    destruct Hn as [-> | ->].
    + rewrite (proj2 (Z.eqb_neq _ _) He).
      destruct (function_number e =? 48); reflexivity.
    + rewrite (proj2 (Z.eqb_neq _ _) He).
      destruct (function_number e =? 17); reflexivity.
  - intros H1 H2. unfold rmi_register_function.
    now rewrite (proj2 (Z.eqb_neq _ _) H1), (proj2 (Z.eqb_neq _ _) H2).
Qed.

Lemma rmi_register_function_addresses_witness :
  let d' := rmi_register_function (pdt_bytes 0x10 0x20 0x30 0x40 1 0x11) 2 0
              (probed_data 16 8) in
  query_base_addr (f11 d') = 0x210 /\ RMI_PAGE (control_base_addr (f11 d')) = 2.
Proof.
  intros d'.
  pose proof (proj1 (rmi_register_function_addresses 0x11
                       (pdt_bytes 0x10 0x20 0x30 0x40 1 0x11) 2 0
                       (probed_data 16 8) ltac:(lia) (or_introl eq_refl))
                eq_refl) as K.
  cbv zeta in K. destruct K as (_ & K1 & _ & _ & _ & _ & K2 & _).
  split; [exact K1|exact K2].
Defined.

(** ** The scan's frame *)

Lemma discovers_refl h : discovers h h.
Proof. split; [apply settles_refl|]. split; [apply consumed_refl|reflexivity]. Qed.

Lemma discovers_trans h1 h2 h3 :
  discovers h1 h2 -> discovers h2 h3 -> discovers h1 h3.
Proof.
  intros (A1 & A2 & A3) (B1 & B2 & B3).
  split; [eapply settles_trans; eassumption|].
  split; [eapply consumed_trans; eassumption|congruence].
Qed.

Lemma tables_of_geometry h h' :
  tables_of h' = tables_of h -> geometry_of h' = geometry_of h.
Proof.
  unfold tables_of, geometry_of. cbv zeta. intros E.
  injection E. intros. congruence.
Qed.

Lemma rmi_read_block_discovers addr buf len h :
  discovers h (snd (rmi_read_block addr buf len h)).
Proof.
  split; [apply rmi_read_block_settles|].
  split; [apply rmi_read_block_consumed|].
  apply tables_of_geometry. apply (rmi_read_block_frame addr buf len h).
Qed.

Lemma rmi_register_function_discovers e pg i h :
  discovers h (upd (rmi_register_function e pg i) h).
Proof.
  unfold discovers, settles, consumed, geometry_of, rmi_register_function.
  destruct (function_number e =? 17); [|destruct (function_number e =? 48)];
    simpl; (split; [repeat split; auto using flags_kept_refl|]);
    (split; [exists []; reflexivity|reflexivity]).
Qed.

Lemma pdt_entry_loop_discovers fuel :
  forall i pdt_end pg has interrupt entry h,
    discovers h (snd (pdt_entry_loop fuel i pdt_end pg has interrupt entry h)).
Proof.
  induction fuel as [|fuel IH]; intros i pdt_end pg has interrupt entry h;
    cbn [pdt_entry_loop]; [apply discovers_refl|].
  destruct (i >=? pdt_end); [|apply discovers_refl].
  pose proof (rmi_read_block_discovers i entry sizeof_pdt_entry h) as R.
  destruct (rmi_read_block i entry sizeof_pdt_entry h) as [[retval e] h1].
  cbn [snd] in R.
  destruct (negb (retval =? 0)); [exact R|].
  destruct (RMI4_END_OF_PDT (function_number e)); [exact R|].
  eapply discovers_trans; [exact R|].
  eapply discovers_trans; [apply rmi_register_function_discovers|apply IH].
Qed.

Lemma pdt_page_loop_discovers pages :
  forall pg interrupt entry h,
    discovers h (snd (pdt_page_loop pages pg interrupt entry h)).
Proof.
  induction pages as [|pages IH]; intros pg interrupt entry h;
    cbn [pdt_page_loop]; [apply discovers_refl|].
  destruct (pg <=? RMI4_MAX_PAGE); [|apply discovers_refl].
  match goal with
  | |- context [pdt_entry_loop ?f ?i ?e pg false interrupt entry h] =>
      pose proof (pdt_entry_loop_discovers f i e pg false interrupt entry h) as R;
      destruct (pdt_entry_loop f i e pg false interrupt entry h) as [[rv|has i' e'] h1]
  end; cbn [snd] in R; [exact R|].
  destruct (negb has); [exact R|].
  eapply discovers_trans; [exact R|apply IH].
Qed.

(** X16.  While the deliveries the reader meets are read-data reports or
    timeouts, whatever they carry, [rmi_scan_pdt] fills in the two
    function slots and nothing else: the report sizes of the slots, the
    finger count, the geometry and the button wiring stay as they were,
    as do the transport's side of the device, what was reported to the
    input device or queued as work, the sizes of the buffers and every
    flag other than the two pending bits; deliveries are taken from the
    front of the queue only, so what is left there is of the same
    kind. *)
Theorem rmi_scan_pdt_keeps (h : hid_device) :
  Forall read_data_delivery (inbound h) ->
  let h' := snd (rmi_scan_pdt h) in
  geometry_of h' = geometry_of h /\
  transport_of h' = transport_of h /\
  consumed h h' /\
  Forall read_data_delivery (inbound h') /\
  length (readReport (drvdata h')) = length (readReport (drvdata h)) /\
  length (writeReport (drvdata h')) = length (writeReport (drvdata h)) /\
  flags_kept (flags (drvdata h)) (flags (drvdata h')).
Proof.
  intros HF. cbv zeta. unfold rmi_scan_pdt.
  destruct (pdt_page_loop_discovers 257 0 0 (repeat 0 6) h)
    as ((S1 & S2 & S3 & S4 & _) & C & G).
  pose proof (consumed_read_data _ _ C HF) as HF'.
  auto 10.
Qed.

Lemma rmi_scan_pdt_keeps_witness :
  let h := bench_device 32 8 (sensor_script 0x14) in
  let h' := snd (rmi_scan_pdt h) in
  geometry_of h' = geometry_of h /\
  transport_of h' = transport_of h /\
  Forall read_data_delivery (inbound h').
Proof.
  intros h h'.
  pose proof (rmi_scan_pdt_keeps h (sensor_script_read_data 0x14)) as K.
  cbv zeta in K. destruct K as (K1 & K2 & _ & K4 & _).
  repeat split; assumption.
Defined.

(** ** Interrupt sources of the two functions *)

Lemma last_occurrence number es :
  Exists (fun e => function_number e = number) es ->
  exists es1 e es2,
    es = es1 ++ e :: es2 /\ function_number e = number /\
    Forall (fun e' => function_number e' <> number) es2.
Proof.
  induction es as [|a es IH]; intros H; [inversion H|].
  destruct (Exists_dec (fun e => function_number e = number) es
              (fun e => Z.eq_dec (function_number e) number)) as [Y|N].
  - destruct (IH Y) as (es1 & e & es2 & -> & He & Hes).
    exists (a :: es1), e, es2. auto.
  - inversion H as [? ? Ha|? ? Hes]; [|contradiction].
    exists [], a, es. split; [reflexivity|]. split; [exact Ha|].
    apply Forall_Exists_neg. exact N.
Qed.

Lemma sources_apart (x y : list Z) a1 : forall b1 a2 b2,
  function_number x <> function_number y ->
  a1 ++ x :: a2 = b1 ++ y :: b2 ->
  interrupt_sources a1 + interrupt_source_count x <= interrupt_sources b1 \/
  interrupt_sources b1 + interrupt_source_count y <= interrupt_sources a1.
Proof.
  induction a1 as [|a a1 IH]; intros [|b b1] a2 b2 Hxy E; simpl in E.
  - injection E as -> _. contradiction.
  - injection E as -> _. left.
    pose proof (interrupt_sources_range b1).
    unfold interrupt_sources in *. cbn [fold_right]. lia.
  - injection E as -> _. right.
    pose proof (interrupt_sources_range a1).
    unfold interrupt_sources in *. cbn [fold_right]. lia.
  - injection E as -> E.
    destruct (IH b1 a2 b2 Hxy E) as [L|R]; [left|right];
      unfold interrupt_sources in *; cbn [fold_right]; lia.
Qed.

Lemma register_page_irq number es1 e es2 pg i d :
  number = 0x11 \/ number = 0x30 ->
  function_number e = number ->
  Forall (fun e' => function_number e' <> number) es2 ->
  irq_of (function_slot number (register_page pg i (es1 ++ e :: es2) d)) =
  (u32 (i + interrupt_sources es1), interrupt_source_count e,
   rmi_gen_mask (u32 (i + interrupt_sources es1)) (interrupt_source_count e)).
Proof.
  intros Hn He Hes.
  rewrite register_page_app. cbn [register_page].
  rewrite irq_of_register_others by assumption.
  rewrite irq_of_register by assumption.
  now rewrite (proj2 (Z.eqb_eq _ _) He).
Qed.

(** X17.  On a ready engine whose device answers every entry read with
    one report: when the table holds an entry for the touch function and
    one for the button function, and all the interrupt sources of the
    table fit 31 bits, the two interrupt masks the scan leaves have no
    bit in common, so no interrupt bit of an attention report is taken
    for both functions. *)
Theorem rmi_scan_pdt_masks_apart (h : hid_device)
    (pages : list (list (list Z) * list Z)) (t : list Z)
    (rest : list (option (list Z))) :
  engine_ready h -> 8 <= input_report_size (drvdata h) ->
  Forall page_ok pages -> sentinel_ok t -> (length pages <= 256)%nat ->
  inbound h = pdt_script 0 pages t ++ rest ->
  Exists (fun e => function_number e = 0x11) (concat (map fst pages)) ->
  Exists (fun e => function_number e = 0x30) (concat (map fst pages)) ->
  interrupt_sources (concat (map fst pages)) <= 31 ->
  let d := drvdata (snd (rmi_scan_pdt h)) in
  Z.land (irq_mask (f11 d)) (irq_mask (f30 d)) = 0.
Proof.
  intros Hready Hirs Hpages Ht Hlen Hin H11 H30 Hfit. cbv zeta.
  unfold rmi_scan_pdt.
  destruct (pdt_page_loop_pages pages 257 0 0 (repeat 0 6) h t rest)
    as (h' & E & R & I & Q & T & B); try assumption; try reflexivity;
    try (unfold RMI4_MAX_PAGE; lia).
  rewrite E. cbn [snd].
  change (f11 (drvdata h')) with (function_slot 0x11 (drvdata h')).
  change (f30 (drvdata h')) with (function_slot 0x30 (drvdata h')).
  rewrite (tables_of_slot 0x11 _ _ B), (tables_of_slot 0x30 _ _ B).
  change (drvdata (upd (register_pages 0 0 pages) h))
    with (register_pages 0 0 pages (drvdata h)).
  destruct (last_occurrence _ _ H11) as (a1 & x & a2 & Ea & Hx & Ha2).
  destruct (last_occurrence _ _ H30) as (b1 & y & b2 & Eb & Hy & Hb2).
  pose proof (irq_of_register_pages 0x11 pages 0 0 (drvdata h)
                (or_introl eq_refl)) as P11.
  pose proof (irq_of_register_pages 0x30 pages 0 0 (drvdata h)
                (or_intror eq_refl)) as P30.
  rewrite Ea, register_page_irq in P11 by auto.
  rewrite Eb, register_page_irq in P30 by auto.
  apply (f_equal snd) in P11. apply (f_equal snd) in P30.
  cbn [irq_of snd] in P11, P30. rewrite P11, P30.
  pose proof (interrupt_sources_range a1) as Ra1.
  pose proof (interrupt_sources_range a2) as Ra2.
  pose proof (interrupt_sources_range b1) as Rb1.
  pose proof (interrupt_sources_range b2) as Rb2.
  pose proof (interrupt_source_count_range x) as Rx.
  pose proof (interrupt_source_count_range y) as Ry.
  assert (Sa : interrupt_sources (concat (map fst pages)) =
               interrupt_sources a1 + interrupt_source_count x +
               interrupt_sources a2).
  { rewrite Ea, interrupt_sources_app. unfold interrupt_sources.
    cbn [fold_right]. lia. }
  assert (Sb : interrupt_sources (concat (map fst pages)) =
               interrupt_sources b1 + interrupt_source_count y +
               interrupt_sources b2).
  { rewrite Eb, interrupt_sources_app. unfold interrupt_sources.
    cbn [fold_right]. lia. }
  rewrite !Z.add_0_l.
  unfold u32. rewrite !Z.mod_small by lia.
  assert (Hxy : function_number x <> function_number y) by (rewrite Hx, Hy; lia).
  destruct (sources_apart x y a1 b1 a2 b2 Hxy ltac:(congruence)) as [L|L].
  - apply rmi_gen_mask_apart; lia.
  - rewrite Z.land_comm. apply rmi_gen_mask_apart; lia.
Qed.

Lemma rmi_scan_pdt_masks_apart_witness :
  let pages := [([pdt_bytes 0x10 0x20 0x30 0x40 1 0x11;
                  pdt_bytes 0x50 0x60 0x70 0x80 1 0x30],
                 pdt_bytes 0 0 0 0 0 0xff)] in
  let h := bench_device 32 8 (pdt_script 0 pages (pdt_bytes 0 0 0 0 0 0)) in
  let d := drvdata (snd (rmi_scan_pdt h)) in
  Z.land (irq_mask (f11 d)) (irq_mask (f30 d)) = 0.
Proof.
  intros pages h.
  assert (Hready : engine_ready h) by (apply bench_device_ready; lia).
  assert (Hirs : 8 <= input_report_size (drvdata h)) by (vm_compute; discriminate).
  assert (Hlen : (length pages <= 256)%nat) by (vm_compute; lia).
  assert (Hin : inbound h = pdt_script 0 pages (pdt_bytes 0 0 0 0 0 0) ++ [])
    by (symmetry; apply app_nil_r).
  assert (H11 : Exists (fun e => function_number e = 0x11)
                  (concat (map fst pages)))
    by (apply Exists_cons_hd; reflexivity).
  assert (H30 : Exists (fun e => function_number e = 0x30)
                  (concat (map fst pages)))
    by (apply Exists_cons_tl, Exists_cons_hd; reflexivity).
  assert (Hfit : interrupt_sources (concat (map fst pages)) <= 31)
    by (vm_compute; discriminate).
  exact (rmi_scan_pdt_masks_apart h pages (pdt_bytes 0 0 0 0 0 0) []
           Hready Hirs (proj1 example_pdt_ok) (proj2 example_pdt_ok)
           Hlen Hin H11 H30 Hfit).
Defined.

(** ** Population and attach *)

Lemma attaches_refl h : attaches h h.
Proof. split; [apply settles_refl|apply consumed_refl]. Qed.

Lemma attaches_trans h1 h2 h3 :
  attaches h1 h2 -> attaches h2 h3 -> attaches h1 h3.
Proof.
  intros [A1 A2] [B1 B2].
  split; [eapply settles_trans|eapply consumed_trans]; eassumption.
Qed.

Lemma attaches_read addr buf len h :
  attaches h (snd (rmi_read_block addr buf len h)).
Proof. split; [apply rmi_read_block_settles|apply rmi_read_block_consumed]. Qed.

Lemma attaches_upd f h :
  (forall d, flags (f d) = flags d /\ readReport (f d) = readReport d /\
             writeReport (f d) = writeReport d /\
             input_report_size (f d) = input_report_size d /\
             output_report_size (f d) = output_report_size d) ->
  attaches h (upd f h).
Proof.
  intros Hf. destruct (Hf (drvdata h)) as (F1 & F2 & F3 & F4 & F5).
  split; [|exists []; reflexivity].
  unfold settles, transport_of. simpl.
  rewrite F1, F2, F3, F4, F5. repeat split; auto using flags_kept_refl.
Qed.

Lemma attaches_discovers h h' : discovers h h' -> attaches h h'.
Proof. intros (A & B & _). split; assumption. Qed.

Lemma fingers_from_upd q1 f h :
  (forall d, max_fingers (f d) = max_fingers d /\ f11 (f d) = f11 d) ->
  fingers_from q1 h -> fingers_from q1 (upd f h).
Proof.
  intros Hf [A B]. destruct (Hf (drvdata h)) as [F1 F2].
  unfold fingers_from. simpl. now rewrite F1, F2.
Qed.

(** [rmi_populate_f11]: register traffic and table updates only; when it
    returns 0 the context carries the finger count and report size of
    the query 1 byte it read, and that byte had the absolute-mode bit. *)
Lemma f11_query1_read_eq h ret0 buf0 h0 ret1 buf1 h1 :
  rmi_read_block (query_base_addr (f11 (drvdata h))) (repeat 0 20) 1 h
    = (ret0, buf0, h0) ->
  rmi_read_block (query_base_addr (f11 (drvdata h)) + 1) buf0 1 h0
    = (ret1, buf1, h1) ->
  f11_query1_read h = load buf1 0.
Proof.
  intros E0 E1. unfold f11_query1_read, rmi_read. cbv zeta.
  rewrite E0, E1. reflexivity.
Qed.

Lemma rmi_populate_f11_ok h :
  attaches h (snd (rmi_populate_f11 h)) /\
  (fst (rmi_populate_f11 h) = 0 ->
   fingers_from (f11_query1_read h) (snd (rmi_populate_f11 h)) /\
   flag (f11_query1_read h) 4 = true).
Proof.
  generalize (f11_query1_read_eq h).
  generalize (f11_query1_read h). intros q EQ.
  unfold rmi_populate_f11, rmi_read.
  destruct (query_base_addr (f11 (drvdata h)) =? 0).
  { split; [apply attaches_refl|]. cbn [fst]. unfold ENODEV. lia. }
  pose proof (attaches_read (query_base_addr (f11 (drvdata h)))
                (repeat 0 20) 1 h) as A0.
  destruct (rmi_read_block (query_base_addr (f11 (drvdata h))) (repeat 0 20) 1 h)
    as [[ret0 buf0] h0]; cbn [snd] in A0.
  specialize (EQ ret0 buf0 h0).
  destruct (Z.eqb_spec ret0 0) as [_|N0]; cbn [negb];
    [|split; [exact A0|intros; contradiction]].
  pose proof (attaches_read (query_base_addr (f11 (drvdata h)) + 1)
                buf0 1 h0) as A1.
  destruct (rmi_read_block (query_base_addr (f11 (drvdata h)) + 1) buf0 1 h0)
    as [[ret1 buf1] h1]; cbn [snd] in A1.
  specialize (EQ ret1 buf1 h1 eq_refl eq_refl). subst q.
  assert (B1 : attaches h h1) by (eapply attaches_trans; eassumption).
  clear A0 A1.
  destruct (Z.eqb_spec ret1 0) as [_|N1]; cbn [negb];
    [|split; [exact B1|intros; contradiction]].
  set (q1 := load buf1 0).
  set (Q := fun hh => attaches h hh /\ fingers_from q1 hh).
  assert (Q2 : Q (upd (f11_query1 q1) h1)).
  { split; [|split; reflexivity].
    eapply attaches_trans; [exact B1|].
    apply attaches_upd. intros d. repeat split. }
  assert (Qread : forall a b l hh, Q hh -> Q (snd (rmi_read_block a b l hh))).
  { intros a b l hh [X Y]. split.
    - eapply attaches_trans; [exact X|apply attaches_read].
    - now apply fingers_from_read. }
  destruct (flag q1 4) eqn:Habs; cbn [negb];
    [|split; [apply Q2|cbn [fst]; unfold ENODEV; lia]].
  generalize dependent (upd (f11_query1 q1) h1). intros h2 Q2.
  pose proof (Qread (query_base_addr (f11 (drvdata h)) + 8) buf1 1 h2 Q2) as Q3.
  destruct (rmi_read_block (query_base_addr (f11 (drvdata h)) + 8) buf1 1 h2)
    as [[ret3 buf3] h3]; cbn [snd] in Q3.
  destruct (Z.eqb_spec ret3 0) as [_|N3]; cbn [negb];
    [|split; [apply Q3|intros; contradiction]].
  assert (Hctrl : forall buf hh, Q hh ->
    let r := (let '(ret, buf, h) :=
                rmi_read_block (control_base_addr (f11 (drvdata hh))) buf 20 hh in
              if negb (ret =? 0) then (ret, h)
              else (0, upd (with_max_xy
                      (Z.lor (load buf 6) (Z.shiftl (load buf 7) 8))
                      (Z.lor (load buf 8) (Z.shiftl (load buf 9) 8))) h)) in
    attaches h (snd r) /\
    (fst r = 0 -> fingers_from q1 (snd r) /\ true = true)).
  { intros buf hh Hh. cbv zeta.
    pose proof (Qread (control_base_addr (f11 (drvdata hh))) buf 20 hh Hh) as Qc.
    destruct (rmi_read_block (control_base_addr (f11 (drvdata hh))) buf 20 hh)
      as [[retc bufc] hc]; cbn [snd] in Qc.
    destruct (Z.eqb_spec retc 0) as [_|Nc]; cbn [negb];
      [|split; [apply Qc|intros; contradiction]].
    destruct Qc as [X Y]. cbn [fst snd]. split.
    - eapply attaches_trans; [exact X|].
      apply attaches_upd. intros d. repeat split.
    - intros _. split; [|reflexivity].
      apply fingers_from_upd; [intros d; split; reflexivity|exact Y]. }
  destruct (flag (load buf0 0) 5); [|apply Hctrl; exact Q3].
  match goal with
  | |- context [rmi_read_block ?a buf3 1 h3] =>
      pose proof (Qread a buf3 1 h3 Q3) as Q4;
      destruct (rmi_read_block a buf3 1 h3) as [[ret4 buf4] h4]
  end.
  cbn [snd] in Q4.
  destruct (Z.eqb_spec ret4 0) as [_|N4]; cbn [negb];
    [|split; [apply Q4|intros; contradiction]].
  destruct (flag (load buf4 0) 5); [|apply Hctrl; exact Q4].
  match goal with
  | |- context [rmi_read_block ?a buf4 4 h4] =>
      pose proof (Qread a buf4 4 h4 Q4) as Q5;
      destruct (rmi_read_block a buf4 4 h4) as [[ret5 buf5] h5]
  end.
  cbn [snd] in Q5.
  destruct (Z.eqb_spec ret5 0) as [_|N5]; cbn [negb];
    [|split; [apply Q5|intros; contradiction]].
  apply Hctrl. destruct Q5 as [X Y]. split.
  - eapply attaches_trans; [exact X|].
    apply attaches_upd. intros d. repeat split.
  - apply fingers_from_upd; [intros d; split; reflexivity|exact Y].
Qed.

Lemma f30_button_loop_frame n : forall i bpc buf d,
  let d' := f30_button_loop n i bpc buf d in
  flags d' = flags d /\ readReport d' = readReport d /\
  writeReport d' = writeReport d /\
  input_report_size d' = input_report_size d /\
  output_report_size d' = output_report_size d /\
  max_fingers d' = max_fingers d /\ f11 d' = f11 d /\ f30 d' = f30 d /\
  gpio_led_count d' = gpio_led_count d.
Proof.
  induction n as [|n IH]; intros i bpc buf d; cbn [f30_button_loop].
  - cbv zeta. repeat split.
  - cbv zeta.
    match goal with
    | |- context [f30_button_loop n ?j bpc buf ?dd] =>
        specialize (IH j bpc buf dd); cbv zeta in IH
    end.
    destruct IH as (I1 & I2 & I3 & I4 & I5 & I6 & I7 & I8 & I9).
    rewrite I1, I2, I3, I4, I5, I6, I7, I8, I9.
    destruct (_ && _); repeat split.
Qed.

(** [rmi_populate_f30]: register traffic and table updates only, and
    nothing of the touch function. *)
Lemma rmi_populate_f30_ok h :
  attaches h (snd (rmi_populate_f30 h)) /\
  (forall q1, fingers_from q1 h -> fingers_from q1 (snd (rmi_populate_f30 h))).
Proof.
  unfold rmi_populate_f30.
  destruct (query_base_addr (f30 (drvdata h)) =? 0).
  { split; [apply attaches_refl|auto]. }
  pose proof (attaches_read (query_base_addr (f30 (drvdata h)))
                (repeat 0 20) 2 h) as A0.
  assert (K0 : forall q1, fingers_from q1 h ->
            fingers_from q1
              (snd (rmi_read_block (query_base_addr (f30 (drvdata h)))
                      (repeat 0 20) 2 h)))
    by (intros; now apply fingers_from_read).
  destruct (rmi_read_block (query_base_addr (f30 (drvdata h))) (repeat 0 20) 2 h)
    as [[ret0 buf0] h0]; cbn [snd] in A0, K0.
  destruct (negb (ret0 =? 0)); [split; assumption|].
  cbv zeta.
  set (h1 := upd (fun d => with_f30 (with_report_size _ (f30 d)) d)
               (upd (with_gpio_led_count (Z.land (load buf0 1) 31)) h0)).
  assert (A1 : attaches h h1).
  { eapply attaches_trans; [exact A0|].
    eapply attaches_trans; apply attaches_upd; intros d; repeat split. }
  assert (K1 : forall q1, fingers_from q1 h -> fingers_from q1 h1).
  { intros q1 Hq. unfold h1.
    do 2 (apply fingers_from_upd; [intros d; split; reflexivity|]). auto. }
  clearbody h1. clear A0 K0.
  match goal with
  | |- context [rmi_read_block ?a buf0 ?l h1] =>
      pose proof (attaches_read a buf0 l h1) as A2;
      assert (K2 : forall q1, fingers_from q1 h ->
                fingers_from q1 (snd (rmi_read_block a buf0 l h1)))
        by (intros; apply fingers_from_read; auto);
      destruct (rmi_read_block a buf0 l h1) as [[ret2 buf2] h2]
  end.
  cbn [snd] in A2, K2.
  assert (B2 : attaches h h2) by (eapply attaches_trans; eassumption).
  destruct (negb (ret2 =? 0)); [split; assumption|].
  cbn [snd]. split.
  - eapply attaches_trans; [exact B2|].
    apply attaches_upd. intros d.
    match goal with
    | |- context [f30_button_loop ?n ?i ?b ?bf d] =>
        destruct (f30_button_loop_frame n i b bf d)
          as (I1 & I2 & I3 & I4 & I5 & _)
    end.
    auto.
  - intros q1 Hq. apply fingers_from_upd; [|auto].
    intros d.
    match goal with
    | |- context [f30_button_loop ?n ?i ?b ?bf d] =>
        destruct (f30_button_loop_frame n i b bf d)
          as (_ & _ & _ & _ & _ & I6 & I7 & _)
    end.
    auto.
Qed.

Lemma rmi_populate_ok h :
  attaches h (snd (rmi_populate h)) /\
  (fst (rmi_populate h) = 0 ->
   fingers_from (f11_query1_read (snd (rmi_scan_pdt h))) (snd (rmi_populate h)) /\
   flag (f11_query1_read (snd (rmi_scan_pdt h))) 4 = true).
Proof.
  unfold rmi_populate.
  assert (A0 : attaches h (snd (rmi_scan_pdt h))).
  { unfold rmi_scan_pdt. apply attaches_discovers, pdt_page_loop_discovers. }
  destruct (rmi_scan_pdt h) as [ret0 h0]; cbn [snd] in A0.
  destruct (Z.eqb_spec ret0 0) as [_|N0]; cbn [negb];
    [|split; [exact A0|intros; contradiction]].
  destruct (rmi_populate_f11_ok h0) as [A1 K1].
  destruct (rmi_populate_f11 h0) as [ret1 h1]; cbn [fst snd] in A1, K1.
  destruct (Z.eqb_spec ret1 0) as [E1|N1]; cbn [negb].
  2:{ split; [eapply attaches_trans; eassumption|intros; contradiction]. }
  destruct (rmi_populate_f30_ok h1) as [A2 K2].
  destruct (rmi_populate_f30 h1) as [ret2 h2]; cbn [fst snd] in *.
  split; [eauto using attaches_trans|].
  intros _. destruct (K1 E1) as (F & Habs). auto.
Qed.

Lemma rmi_set_mode_spec mode h :
  rmi_set_mode mode h =
    ((if hw_request_ret h (length (feature_log h)) <? 0
      then hw_request_ret h (length (feature_log h)) else 0),
     with_feature_log
       (feature_log h ++ [[RMI_SET_RMI_MODE_REPORT_ID; u8 mode]]) h).
Proof.
  unfold rmi_set_mode, hid_hw_raw_request.
  destruct (_ <? 0); reflexivity.
Qed.

Lemma started_kept h h' :
  attaches h h' ->
  test_bit RMI_STARTED (flags (drvdata h')) =
  test_bit RMI_STARTED (flags (drvdata h)).
Proof.
  intros [(_ & _ & _ & K & _) _]. apply K; discriminate.
Qed.

(** X18.  [rmi_input_configured] sets the started flag only after the
    touch function was populated: when the flag is set by the call, the
    mode switch had not failed, the byte the driver read as query 1 of
    the touch function had the absolute-mode bit (bit 4) set, the finger
    count is the one that byte gives, between 1 and 10, and the touch
    report size is 5 * max_fingers + ceil(max_fingers / 4). *)
Theorem rmi_input_configured_started (h : hid_device) :
  test_bit RMI_STARTED (flags (drvdata h)) = false ->
  test_bit RMI_STARTED (flags (drvdata (rmi_input_configured h))) = true ->
  let d := drvdata (rmi_input_configured h) in
  let q1 := attach_query1 h in
  flag q1 4 = true /\
  max_fingers d = f11_max_fingers q1 /\
  1 <= max_fingers d <= 10 /\
  report_size (f11 d) = max_fingers d * 5 + DIV_ROUND_UP (max_fingers d) 4 /\
  0 <= hw_request_ret h (length (feature_log h)).
Proof.
  intros H0 H1. cbv zeta. revert H1.
  unfold rmi_input_configured, attach_query1. rewrite rmi_set_mode_spec.
  destruct (Z.ltb_spec (hw_request_ret h (length (feature_log h))) 0) as [L|L].
  { rewrite (proj2 (Z.ltb_lt _ _) L). simpl. congruence. }
  change (0 <? 0) with false. cbv iota.
  set (h1 := with_feature_log _ h).
  assert (F1 : flags (drvdata h1) = flags (drvdata h)) by reflexivity.
  clearbody h1.
  destruct (rmi_set_page_frame 0 h1) as (_ & _ & _ & P4 & _).
  destruct (rmi_set_page 0 h1) as [ret2 h2]; cbn [snd] in P4.
  destruct (ret2 <? 0); [congruence|].
  destruct (rmi_populate_ok h2) as [A K].
  pose proof (started_kept _ _ A) as S.
  destruct (rmi_populate h2) as [ret3 h3]; cbn [fst snd] in *.
  destruct (Z.eqb_spec ret3 0) as [E|N]; cbn [negb]; [|congruence].
  intros _. destruct (K E) as ([M R] & Habs).
  destruct (rmi_scan_pdt h2) as [ret4 h4]; cbn [snd] in *.
  simpl. rewrite R, M.
  pose proof (f11_max_fingers_le (f11_query1_read h4)).
  split; [exact Habs|]. split; [reflexivity|].
  split; [lia|]. split; [reflexivity|exact L].
Qed.

Lemma rmi_input_configured_started_witness :
  let h := bench_device 32 8 (sensor_script 0x14) in
  let d := drvdata (attached_sensor 0x14) in
  attach_query1 h = 0x14 /\
  flag (attach_query1 h) 4 = true /\
  max_fingers d = f11_max_fingers (attach_query1 h) /\
  1 <= max_fingers d <= 10 /\
  report_size (f11 d) = max_fingers d * 5 + DIV_ROUND_UP (max_fingers d) 4.
Proof.
  intros h d.
  assert (H0 : test_bit RMI_STARTED (flags (drvdata h)) = false)
    by reflexivity.
  assert (H1 : test_bit RMI_STARTED
                 (flags (drvdata (rmi_input_configured h))) = true)
    by (vm_compute; reflexivity).
  pose proof (rmi_input_configured_started h H0 H1) as K.
  cbv zeta in K. destruct K as (K1 & K2 & K3 & K4 & _).
  split; [vm_compute; reflexivity|].
  repeat split; assumption || apply K3.
Defined.

(** X19.  What attach does besides register traffic, while the deliveries
    its reads meet are read-data reports or timeouts: it sends exactly one
    feature report, the switch to attention-report mode, reports nothing
    to the input device and queues no work; the sizes of the buffers and
    the transport's behaviour stay, and deliveries are taken from the
    front of the queue only, so what is left there is of the same kind.
    When the mode switch fails, attach stops there: no output report is
    sent, no delivery is awaited and the driver context is as it was. *)
Theorem rmi_input_configured_keeps (h : hid_device) :
  Forall read_data_delivery (inbound h) ->
  let h' := rmi_input_configured h in
  feature_log h' =
    feature_log h ++ [[RMI_SET_RMI_MODE_REPORT_ID; RMI_MODE_ATTN_REPORTS]] /\
  input_log h' = input_log h /\
  reset_work_pending h' = reset_work_pending h /\
  hw_output_ret h' = hw_output_ret h /\
  hw_request_ret h' = hw_request_ret h /\
  input_report_size (drvdata h') = input_report_size (drvdata h) /\
  output_report_size (drvdata h') = output_report_size (drvdata h) /\
  length (readReport (drvdata h')) = length (readReport (drvdata h)) /\
  length (writeReport (drvdata h')) = length (writeReport (drvdata h)) /\
  consumed h h' /\
  Forall read_data_delivery (inbound h') /\
  (hw_request_ret h (length (feature_log h)) < 0 ->
   out_log h' = out_log h /\ drvdata h' = drvdata h /\
   inbound h' = inbound h).
Proof.
  intros HF. cbv zeta. unfold rmi_input_configured. rewrite rmi_set_mode_spec.
  set (h1 := with_feature_log _ h).
  assert (G : forall k, attaches h1 k ->
    feature_log k =
      feature_log h ++ [[RMI_SET_RMI_MODE_REPORT_ID; RMI_MODE_ATTN_REPORTS]] /\
    input_log k = input_log h /\
    reset_work_pending k = reset_work_pending h /\
    hw_output_ret k = hw_output_ret h /\
    hw_request_ret k = hw_request_ret h /\
    input_report_size (drvdata k) = input_report_size (drvdata h) /\
    output_report_size (drvdata k) = output_report_size (drvdata h) /\
    length (readReport (drvdata k)) = length (readReport (drvdata h)) /\
    length (writeReport (drvdata k)) = length (writeReport (drvdata h)) /\
    consumed h k /\
    Forall read_data_delivery (inbound k)).
  { intros k [(T & L1 & L2 & _) C].
    pose proof (consumed_read_data h k C HF) as HF'.
    unfold transport_of in T. injection T. intros.
    repeat split; try assumption. }
  destruct (Z.ltb_spec (hw_request_ret h (length (feature_log h))) 0) as [L|L].
  { rewrite (proj2 (Z.ltb_lt _ _) L).
    destruct (G h1 (attaches_refl h1))
      as (G1 & G2 & G3 & G4 & G5 & G6 & G7 & G8 & G9 & G10 & G11).
    repeat split; assumption || reflexivity. }
  change (0 <? 0) with false. cbv iota.
  assert (Y : forall k, attaches h1 k ->
    feature_log k =
      feature_log h ++ [[RMI_SET_RMI_MODE_REPORT_ID; RMI_MODE_ATTN_REPORTS]] /\
    input_log k = input_log h /\
    reset_work_pending k = reset_work_pending h /\
    hw_output_ret k = hw_output_ret h /\
    hw_request_ret k = hw_request_ret h /\
    input_report_size (drvdata k) = input_report_size (drvdata h) /\
    output_report_size (drvdata k) = output_report_size (drvdata h) /\
    length (readReport (drvdata k)) = length (readReport (drvdata h)) /\
    length (writeReport (drvdata k)) = length (writeReport (drvdata h)) /\
    consumed h k /\
    Forall read_data_delivery (inbound k) /\
    (hw_request_ret h (length (feature_log h)) < 0 ->
     out_log k = out_log h /\ drvdata k = drvdata h /\ inbound k = inbound h)).
  { intros k Ak.
    destruct (G k Ak)
      as (G1 & G2 & G3 & G4 & G5 & G6 & G7 & G8 & G9 & G10 & G11).
    repeat split; try assumption; lia. }
  assert (A2 : attaches h1 (snd (rmi_set_page 0 h1))).
  { split; [apply rmi_set_page_settles|].
    apply consumed_same. apply (rmi_set_page_frame 0 h1). }
  destruct (rmi_set_page 0 h1) as [ret2 h2]; cbn [snd] in A2.
  destruct (ret2 <? 0); [apply Y; exact A2|].
  destruct (rmi_populate_ok h2) as [A3 _].
  destruct (rmi_populate h2) as [ret3 h3]; cbn [snd] in A3.
  assert (B3 : attaches h1 h3) by (eapply attaches_trans; eassumption).
  destruct (negb (ret3 =? 0)); [apply Y; exact B3|].
  destruct (Y h3 B3)
    as (G1 & G2 & G3 & G4 & G5 & G6 & G7 & G8 & G9 & G10 & G11 & G12).
  repeat split; try assumption; lia.
Qed.

Lemma rmi_input_configured_keeps_witness :
  (feature_log (attached_sensor 0x14) = [[0x0f; 0x01]] /\
   input_log (attached_sensor 0x14) = [] /\
   reset_work_pending (attached_sensor 0x14) = false) /\
  (out_log (rmi_input_configured (dead_device 16 8)) = [] /\
   drvdata (rmi_input_configured (dead_device 16 8)) =
     drvdata (dead_device 16 8) /\
   inbound (rmi_input_configured (dead_device 16 8)) = []).
Proof.
  split.
  - pose proof (rmi_input_configured_keeps
                  (bench_device 32 8 (sensor_script 0x14))
                  (sensor_script_read_data 0x14)) as K.
    cbv zeta in K. destruct K as (K1 & K2 & K3 & _).
    repeat split; assumption.
  - pose proof (rmi_input_configured_keeps (dead_device 16 8)
                  (Forall_nil _)) as K.
    cbv zeta in K.
    destruct K as (_ & _ & _ & _ & _ & _ & _ & _ & _ & _ & _ & K).
    apply K. simpl. lia.
Defined.

(** ** Mode recovery *)

Lemma rmi_raw_event_idle_mouse r size h :
  idle_mouse_report r ->
  rmi_raw_event r size h = Some (0, with_reset_work_pending true h).
Proof.
  intros [H0 H1]. unfold rmi_raw_event, mbind, ld.
  rewrite H0. cbn [option_map].
  change (RMI_MOUSE_REPORT_ID =? RMI_READ_DATA_REPORT_ID) with false.
  change (RMI_MOUSE_REPORT_ID =? RMI_ATTN_REPORT_ID) with false.
  change (RMI_MOUSE_REPORT_ID =? RMI_MOUSE_REPORT_ID) with true.
  cbv iota. rewrite H1. cbn [option_map]. reflexivity.
Qed.

Lemma raw_events_idle_mouse rs : forall h,
  Forall idle_mouse_report rs -> rs <> [] ->
  raw_events rs h = Some (tt, with_reset_work_pending true h).
Proof.
  induction rs as [|r rs IH]; intros h Hall Hne; [contradiction|].
  inversion Hall as [|? ? Hr Hrs]; subst.
  cbn [raw_events]. unfold mbind at 1.
  rewrite (rmi_raw_event_idle_mouse r _ h Hr).
  destruct rs as [|r' rs'].
  - reflexivity.
  - rewrite IH by (auto; discriminate). reflexivity.
Qed.

(** X20.  However many button-less mouse reports arrive before the
    kernel worker runs, the mode reset is queued once: when the worker
    runs it sends exactly one feature report, the switch to
    attention-report mode, and leaves the queue empty, so that a second
    run of the worker sends nothing.  Nothing is sent before the worker
    runs. *)
Theorem rmi_reset_work_once (rs : list (list Z)) (h : hid_device) :
  Forall idle_mouse_report rs -> rs <> [] ->
  exists h',
    raw_events rs h = Some (tt, h') /\
    feature_log h' = feature_log h /\ out_log h' = out_log h /\
    feature_log (run_work_queue h') =
      feature_log h ++ [[RMI_SET_RMI_MODE_REPORT_ID; RMI_MODE_ATTN_REPORTS]] /\
    reset_work_pending (run_work_queue h') = false /\
    run_work_queue (run_work_queue h') = run_work_queue h'.
Proof.
  intros Hall Hne. exists (with_reset_work_pending true h).
  split; [apply raw_events_idle_mouse; assumption|].
  split; [reflexivity|]. split; [reflexivity|].
  assert (E : run_work_queue (with_reset_work_pending true h) =
              with_feature_log
                (feature_log h ++
                 [[RMI_SET_RMI_MODE_REPORT_ID; RMI_MODE_ATTN_REPORTS]])
                (with_reset_work_pending false h)).
  { unfold run_work_queue, rmi_reset_work.
    cbn [reset_work_pending with_reset_work_pending].
    rewrite rmi_set_mode_spec. reflexivity. }
  rewrite E. split; [reflexivity|]. split; [reflexivity|].
  reflexivity.
Qed.

Lemma rmi_reset_work_once_witness :
  exists h',
    raw_events [[1; 0; 3; 4]; [1; 0; 0; 0]; [1; 0; 9; 9]] (bench_device 16 8 [])
      = Some (tt, h') /\
    feature_log h' = [] /\ out_log h' = [] /\
    feature_log (run_work_queue h') =
      [] ++ [[RMI_SET_RMI_MODE_REPORT_ID; RMI_MODE_ATTN_REPORTS]] /\
    reset_work_pending (run_work_queue h') = false /\
    run_work_queue (run_work_queue h') = run_work_queue h'.
Proof.
  refine (rmi_reset_work_once [[1; 0; 3; 4]; [1; 0; 0; 0]; [1; 0; 9; 9]]
            (bench_device 16 8 []) _ _).
  - repeat constructor.
  - discriminate.
Defined.

(** ** What a register read can return *)

Lemma read_data_loop_result fuel : forall len br bn ret buf h,
  fst (fst (read_data_loop fuel len br bn ret buf h)) = ret \/
  fst (fst (read_data_loop fuel len br bn ret buf h)) = - EAGAIN.
Proof.
  induction fuel as [|fuel IH]; intros len br bn ret buf h;
    cbn [read_data_loop]; [auto|].
  destruct (br <? len); [|auto].
  destruct (wait_event_timeout h) as [woken h1].
  destruct woken; cbn [negb]; [apply IH|auto].
Qed.

Lemma read_retry_loop_result retries : forall addr len ret buf h,
  let r := read_retry_loop retries addr len ret buf h in
  fst (fst r) = ret \/ fst (fst r) = 0 \/ fst (fst r) = - EAGAIN \/
  exists k, (length (out_log h) <= k < length (out_log (snd r)))%nat /\
            fst (fst r) = hw_output_ret h k.
Proof.
  induction retries as [|retries IH]; intros addr len ret buf h; cbv zeta;
    cbn [read_retry_loop]; [auto|].
  pose proof (send_read_request_spec addr len h) as S; cbv zeta in S.
  destruct (send_read_request addr len h) as [ret1 h1]; cbn [fst snd] in S.
  destruct S as (S0 & S1 & _ & _ & _ & _ & _ & _ & S8 & _).
  assert (T1 : hw_output_ret h1 = hw_output_ret h).
  { unfold transport_of in S1. injection S1. auto. }
  destruct (negb (ret1 =? output_report_size (drvdata h1))).
  { cbn [fst snd]. right. right. right. exists (length (out_log h)).
    simpl. split; [lia|exact S0]. }
  pose proof (read_data_loop_frame (length (inbound h1) + 2) len 0 len ret1
                buf h1) as D; cbv zeta in D.
  pose proof (read_data_loop_result (length (inbound h1) + 2) len 0 len ret1
                buf h1) as Rd.
  destruct (read_data_loop _ len 0 len ret1 buf h1) as [[ret2 buf2] h2].
  cbn [fst snd] in D, Rd. destruct D as (D1 & _ & _ & _ & D5 & _).
  assert (T2 : hw_output_ret h2 = hw_output_ret h).
  { unfold transport_of in D1. injection D1. intros. congruence. }
  destruct (ret2 >=? 0); [cbn [fst]; auto|].
  specialize (IH addr len ret2 buf2 h2). cbv zeta in IH.
  pose proof (read_retry_loop_frame retries addr len ret2 buf2 h2) as F.
  cbv zeta in F. destruct F as (_ & _ & _ & _ & _ & _ & F7).
  destruct IH as [I|[I|[I|(k & Hk & I)]]].
  - rewrite I. destruct Rd as [Rd|Rd]; [|auto].
    right. right. right. exists (length (out_log h)).
    rewrite D5, S8 in F7. split; [lia|congruence].
  - auto.
  - auto.
  - right. right. right. exists k. rewrite T2 in I.
    rewrite D5, S8 in Hk. split; [lia|exact I].
Qed.

(** X21.  The values [rmi_read_block] can return: 0, [-EAGAIN], or what
    the transport returned for one of the reports this call sent (a
    failed or short send). *)
Theorem rmi_read_block_result (addr : Z) (buf : list Z) (len : Z)
    (h : hid_device) :
  let '(ret, _, h') := rmi_read_block addr buf len h in
  ret = 0 \/ ret = - EAGAIN \/
  exists k, (length (out_log h) <= k < length (out_log h'))%nat /\
            ret = hw_output_ret h k.
Proof.
  unfold rmi_read_block.
  destruct (negb (RMI_PAGE (u16 addr) =? page (drvdata h))).
  - destruct (rmi_set_page_result (RMI_PAGE (u16 addr)) h) as [R _].
    destruct (rmi_set_page_log (RMI_PAGE (u16 addr)) h) as [_ L].
    destruct (rmi_set_page_frame (RMI_PAGE (u16 addr)) h) as (T & _).
    destruct (rmi_set_page (RMI_PAGE (u16 addr)) h) as [ret1 h1].
    cbn [fst snd] in *.
    assert (T1 : hw_output_ret h1 = hw_output_ret h).
    { unfold transport_of in T. injection T. auto. }
    assert (R1 : ret1 = 0 \/ ret1 = hw_output_ret h (length (out_log h)))
      by (destruct (_ =? _); auto).
    destruct (ret1 <? 0).
    + simpl. destruct R1 as [R1|R1]; [auto|].
      right. right. exists (length (out_log h)). split; [lia|exact R1].
    + pose proof (read_retry_loop_result 5 (u16 addr) len ret1 buf h1) as Rr.
      pose proof (read_retry_loop_frame 5 (u16 addr) len ret1 buf h1) as F.
      cbv zeta in Rr, F. destruct F as (_ & _ & _ & _ & _ & _ & F7).
      destruct (read_retry_loop 5 (u16 addr) len ret1 buf h1)
        as [[ret2 buf2] h2].
      cbn [fst snd] in *. simpl.
      destruct Rr as [I|[I|[I|(k & Hk & I)]]]; auto.
      * subst ret2. destruct R1 as [R1|R1]; [auto|].
        right. right. exists (length (out_log h)). split; [lia|exact R1].
      * right. right. exists k. rewrite T1 in I. split; [lia|exact I].
  - pose proof (read_retry_loop_result 5 (u16 addr) len 0 buf h) as Rr.
    cbv zeta in Rr.
    destruct (read_retry_loop 5 (u16 addr) len 0 buf h) as [[ret2 buf2] h2].
    cbn [fst snd] in *. simpl.
    destruct Rr as [I|[I|[I|(k & Hk & I)]]]; auto.
    right. right. exists k. auto.
Qed.

(** ** Button wiring *)

Lemma test_bit_set w n m :
  0 <= m -> test_bit n (set_bit m w) = (n =? m) || test_bit n w.
Proof.
  intros Hm. destruct (Z.eqb_spec n m) as [->|N].
  - now rewrite test_bit_set_same.
  - now rewrite test_bit_set_other by auto.
Qed.

Lemma f30_button_loop_S n i bpc buf d :
  f30_button_loop (S n) i bpc buf d =
  f30_button_loop n (i + 1) bpc buf
    (if wired_button bpc buf i
     then with_buttons (u32 (button_count d + 1))
            (set_bit i (button_mask d)) (set_bit i (button_state_mask d)) d
     else d).
Proof.
  cbn [f30_button_loop]. cbv zeta. unfold wired_button.
  now rewrite !bit_of.
Qed.

Lemma f30_button_loop_spec bpc buf n : forall i d,
  0 <= button_count d -> button_count d + Z.of_nat n < 4294967296 ->
  let d' := f30_button_loop n (Z.of_nat i) bpc buf d in
  (forall j, test_bit j (button_mask d') =
             test_bit j (button_mask d) ||
             ((Z.of_nat i <=? j) && (j <? Z.of_nat (i + n)) &&
              wired_button bpc buf j)) /\
  (forall j, test_bit j (button_state_mask d') =
             test_bit j (button_state_mask d) ||
             ((Z.of_nat i <=? j) && (j <? Z.of_nat (i + n)) &&
              wired_button bpc buf j)) /\
  button_count d' =
    button_count d +
    Z.of_nat (length (filter (wired_button bpc buf)
                        (map Z.of_nat (seq i n)))).
Proof.
  induction n as [|n IH]; intros i d H0 Hc.
  - cbn [f30_button_loop]. cbv zeta. cbn [seq map filter length].
    split; [|split; [|lia]]; intros j;
      destruct (Z.leb_spec (Z.of_nat i) j), (Z.ltb_spec j (Z.of_nat (i + 0)));
      cbn [andb]; rewrite ?orb_false_r; try reflexivity; lia.
  - cbv zeta. rewrite f30_button_loop_S.
    replace (Z.of_nat i + 1) with (Z.of_nat (S i)) by lia.
    cbn [seq map filter].
    assert (Hstep : forall j wj,
      (Z.of_nat i <=? j) && (j <? Z.of_nat (i + S n)) && wj =
      ((j =? Z.of_nat i) && wj) ||
      ((Z.of_nat (S i) <=? j) && (j <? Z.of_nat (S i + n)) && wj)).
    { intros j wj.
      destruct (Z.leb_spec (Z.of_nat i) j), (Z.ltb_spec j (Z.of_nat (i + S n))),
               (Z.eqb_spec j (Z.of_nat i)), (Z.leb_spec (Z.of_nat (S i)) j),
               (Z.ltb_spec j (Z.of_nat (S i + n)));
        cbn [andb orb]; try reflexivity; try lia;
        destruct wj; reflexivity. }
    destruct (wired_button bpc buf (Z.of_nat i)) eqn:W.
    + match goal with
      | |- context [f30_button_loop n _ bpc buf ?dd] =>
          specialize (IH (S i) dd)
      end.
      cbv zeta in IH. cbn [button_count with_buttons button_mask
                            button_state_mask] in IH.
      unfold u32 in IH at 1 2.
      rewrite Z.mod_small in IH by lia.
      destruct IH as (I1 & I2 & I3); [lia|lia|].
      split; [|split].
      * intros j. rewrite I1, Hstep, test_bit_set by lia.
        destruct (Z.eqb_spec j (Z.of_nat i)) as [->|]; cbn [andb orb].
        -- rewrite W. now rewrite !orb_true_r.
        -- reflexivity.
      * intros j. rewrite I2, Hstep, test_bit_set by lia.
        destruct (Z.eqb_spec j (Z.of_nat i)) as [->|]; cbn [andb orb].
        -- rewrite W. now rewrite !orb_true_r.
        -- reflexivity.
      * rewrite I3. unfold u32. rewrite Z.mod_small by lia.
        cbn [length]. lia.
    + destruct (IH (S i) d H0 ltac:(lia)) as (I1 & I2 & I3).
      split; [|split].
      * intros j. rewrite I1, Hstep.
        destruct (Z.eqb_spec j (Z.of_nat i)) as [->|]; cbn [andb orb];
          [rewrite W|]; reflexivity.
      * intros j. rewrite I2, Hstep.
        destruct (Z.eqb_spec j (Z.of_nat i)) as [->|]; cbn [andb orb];
          [rewrite W|]; reflexivity.
      * exact I3.
Qed.

Lemma tables_of_buttons h h' :
  tables_of h' = tables_of h ->
  button_count (drvdata h') = button_count (drvdata h) /\
  button_mask (drvdata h') = button_mask (drvdata h) /\
  button_state_mask (drvdata h') = button_state_mask (drvdata h) /\
  gpio_led_count (drvdata h') = gpio_led_count (drvdata h) /\
  f30 (drvdata h') = f30 (drvdata h).
Proof. unfold tables_of. cbv zeta. intros E. injection E. intros. auto. Qed.

Lemma land_31 a : 0 <= Z.land a 0x1f <= 31.
Proof.
  assert (E : Z.land a 0x1f = a mod 32)
    by (change 0x1f with (Z.ones 5); now rewrite Z.land_ones by lia).
  rewrite E. pose proof (Z.mod_pos_bound a 32 ltac:(lia)). lia.
Qed.

(** X22.  What a successful [rmi_populate_f30] leaves, starting from a
    context without buttons: at most 31 GPIO positions; a report size of
    one bit per position, rounded up to bytes; a button mask with bits
    only at positions below the GPIO count; a state mask equal to the
    button mask, so that every button is decoded as active low; and a
    button count equal to the number of positions the button decoder
    will report. *)
Theorem rmi_populate_f30_buttons (h : hid_device) :
  button_count (drvdata h) = 0 ->
  button_mask (drvdata h) = 0 ->
  button_state_mask (drvdata h) = 0 ->
  fst (rmi_populate_f30 h) = 0 ->
  let d' := drvdata (snd (rmi_populate_f30 h)) in
  0 <= gpio_led_count d' <= 31 /\
  report_size (f30 d') = (gpio_led_count d' + 7) / 8 /\
  (forall j, test_bit j (button_mask d') = true ->
             0 <= j < gpio_led_count d') /\
  button_state_mask d' = button_mask d' /\
  button_count d' = Z.of_nat (length (button_positions d')).
Proof.
  intros Hc Hm Hs. cbv zeta. unfold rmi_populate_f30.
  destruct (query_base_addr (f30 (drvdata h)) =? 0).
  { cbn [fst]. unfold ENODEV. lia. }
  pose proof (rmi_read_block_frame (query_base_addr (f30 (drvdata h)))
                (repeat 0 20) 2 h) as F0; cbv zeta in F0.
  destruct (rmi_read_block (query_base_addr (f30 (drvdata h))) (repeat 0 20) 2 h)
    as [[ret0 buf0] h0]; cbn [snd] in F0.
  destruct F0 as (_ & F0 & _).
  destruct (tables_of_buttons _ _ F0) as (B1 & B2 & B3 & _).
  destruct (Z.eqb_spec ret0 0) as [_|N0]; cbn [negb fst];
    [|intros; contradiction].
  cbv zeta.
  set (g := Z.land (load buf0 1) 31).
  set (h1 := upd (fun d => with_f30 (with_report_size _ (f30 d)) d)
               (upd (with_gpio_led_count g) h0)).
  assert (G1 : gpio_led_count (drvdata h1) = g) by reflexivity.
  assert (R1 : report_size (f30 (drvdata h1)) = (g + 7) / 8) by reflexivity.
  assert (C1 : button_count (drvdata h1) = 0) by (simpl; congruence).
  assert (M1 : button_mask (drvdata h1) = 0) by (simpl; congruence).
  assert (S1 : button_state_mask (drvdata h1) = 0) by (simpl; congruence).
  change (gpio_led_count (drvdata (upd (with_gpio_led_count g) h0))) with g.
  clearbody h1.
  match goal with
  | |- context [rmi_read_block ?a buf0 ?l h1] =>
      pose proof (rmi_read_block_frame a buf0 l h1) as F2; cbv zeta in F2;
      destruct (rmi_read_block a buf0 l h1) as [[ret2 buf2] h2]
  end.
  cbn [snd] in F2. destruct F2 as (_ & F2 & _).
  destruct (tables_of_buttons _ _ F2) as (C2 & M2 & S2 & G2 & R2).
  destruct (Z.eqb_spec ret2 0) as [_|N2]; cbn [negb fst];
    [|intros; contradiction].
  intros _. cbn [snd].
  change (drvdata (upd ?f h2)) with (f (drvdata h2)).
  pose proof (land_31 (load buf0 1)) as Hg. fold g in Hg.
  rewrite G2, G1.
  destruct (f30_button_loop_frame (Z.to_nat g) 0 ((g + 7) / 8) buf2 (drvdata h2))
    as (_ & _ & _ & _ & _ & _ & _ & I8 & I9).
  destruct (f30_button_loop_spec ((g + 7) / 8) buf2 (Z.to_nat g) 0 (drvdata h2))
    as (K1 & K2 & K3); [lia|lia|].
  change (Z.of_nat 0) with 0 in K1, K2, K3.
  set (d' := f30_button_loop (Z.to_nat g) 0 ((g + 7) / 8) buf2 (drvdata h2)) in *.
  rewrite M2, M1 in K1. rewrite S2, S1 in K2. rewrite C2, C1 in K3.
  rewrite I9, I8, G2, G1, R2, R1.
  split; [exact Hg|]. split; [reflexivity|].
  assert (Z0 : forall j, test_bit j 0 = false) by (intros j; apply Z.bits_0).
  split; [|split].
  - intros j Hj. rewrite K1, Z0 in Hj. cbn [orb] in Hj.
    apply andb_prop in Hj. destruct Hj as [Hj _].
    apply andb_prop in Hj. destruct Hj as [Ha Hb].
    apply Z.leb_le in Ha. apply Z.ltb_lt in Hb. lia.
  - apply Z.bits_inj'. intros j _.
    change (Z.testbit ?w j) with (test_bit j w).
    now rewrite K1, K2.
  - rewrite K3, Z.add_0_l. unfold button_positions.
    rewrite I9, G2, G1. do 2 f_equal.
    apply filter_ext_in. intros j Hj.
    apply in_map_iff in Hj. destruct Hj as (k & <- & Hk).
    apply in_seq in Hk.
    rewrite K1, Z0. cbn [orb].
    rewrite (proj2 (Z.leb_le 0 (Z.of_nat k))) by lia.
    rewrite (proj2 (Z.ltb_lt (Z.of_nat k) (Z.of_nat (0 + Z.to_nat g)))) by lia.
    reflexivity.
Qed.

Lemma rmi_populate_f30_buttons_witness :
  let h := snd (rmi_populate_f11
                  (snd (rmi_scan_pdt (bench_device 32 8 (sensor_script 0x14))))) in
  let d' := drvdata (snd (rmi_populate_f30 h)) in
  button_state_mask d' = button_mask d' /\
  button_count d' = Z.of_nat (length (button_positions d')).
Proof.
  intros h d'.
  assert (Hc : button_count (drvdata h) = 0) by (vm_compute; reflexivity).
  assert (Hm : button_mask (drvdata h) = 0) by (vm_compute; reflexivity).
  assert (Hs : button_state_mask (drvdata h) = 0) by (vm_compute; reflexivity).
  assert (Hr : fst (rmi_populate_f30 h) = 0) by (vm_compute; reflexivity).
  pose proof (rmi_populate_f30_buttons h Hc Hm Hs Hr) as K.
  cbv zeta in K. destruct K as (_ & _ & _ & K4 & K5).
  split; [exact K4|exact K5].
Defined.

(** ** Population against an answering sensor *)

Lemma load_app_l (p q : list Z) i :
  0 <= i < Z.of_nat (length p) -> load (p ++ q) i = load p i.
Proof. intros H. unfold load. rewrite app_nth1 by lia. reflexivity. Qed.

Lemma blit_head (p b : list Z) :
  (length p <= length b)%nat -> blit p 0 b = p ++ skipn (length p) b.
Proof.
  intros H. unfold blit. simpl. rewrite Nat.sub_0_r.
  now rewrite firstn_all2 by lia.
Qed.

(** A read answered by one report, into a buffer that may be longer. *)
Lemma rmi_read_block_answer addr buf h p rest :
  engine_ready h ->
  (0 < length p <= 255)%nat ->
  2 + Z.of_nat (length p) <= input_report_size (drvdata h) ->
  (length p <= length buf)%nat ->
  inbound h = Some (read_data_report p) :: rest ->
  exists buf' h',
    rmi_read_block addr buf (Z.of_nat (length p)) h = (0, buf', h') /\
    length buf' = length buf /\
    (forall i, 0 <= i < Z.of_nat (length p) -> load buf' i = load p i) /\
    engine_ready h' /\ inbound h' = rest /\
    requested (out_log h') = requested (out_log h) ++ [u16 addr] /\
    transport_of h' = transport_of h /\ tables_of h' = tables_of h.
Proof.
  intros Hready Hp Hirs Hbuf Hin.
  assert (Hc : chunk_count (read_data_report p) = Z.of_nat (length p))
    by (apply chunk_count_report; lia).
  destruct (rmi_read_block_succeeds addr buf (Z.of_nat (length p)) h []
              [read_data_report p] rest)
    as (buf' & h' & E & L & R & I & Q & T & B & P); try assumption.
  - unfold INT_MAX; lia.
  - constructor.
  - constructor.
  - simpl; lia.
  - constructor; [|constructor]. unfold chunk_ok. rewrite Hc.
    unfold read_data_report. simpl length. lia.
  - right. exists [], (read_data_report p). unfold falls_short. simpl.
    rewrite Hc. repeat split; lia.
  - rewrite chunks_payload_one, chunk_payload_report in E by lia.
    rewrite Nat2Z.id, firstn_all in E.
    rewrite blit_head in E by lia.
    eexists. exists h'. split; [exact E|].
    split; [rewrite length_app, length_skipn; lia|].
    split; [intros i Hi; now apply load_app_l|].
    auto 10.
Qed.

(** On a sensor that answers the first two reads of
    [rmi_populate_f11], each in one report, the byte read as query 1 is
    the byte the second answer carries (as a [u8]). *)
Lemma f11_query1_read_answer h q0 q1 rest :
  engine_ready h ->
  3 <= input_report_size (drvdata h) ->
  inbound h = Some (read_data_report [q0]) :: Some (read_data_report [q1]) :: rest ->
  f11_query1_read h = u8 q1.
Proof.
  intros Hready Hirs Hin.
  destruct (rmi_read_block_answer (query_base_addr (f11 (drvdata h)))
              (repeat 0 20) h [q0] (Some (read_data_report [q1]) :: rest)
              Hready)
    as (buf0 & h0 & E0 & L0 & _ & R0 & I0 & _ & T0 & _);
    [simpl; lia|simpl length; lia|simpl; lia|exact Hin|].
  assert (Hirs0 : 3 <= input_report_size (drvdata h0)).
  { unfold transport_of in T0. injection T0. intros. congruence. }
  destruct (rmi_read_block_answer (query_base_addr (f11 (drvdata h)) + 1)
              buf0 h0 [q1] rest R0)
    as (buf1 & h1 & E1 & _ & P1 & _);
    [simpl; lia|simpl length; lia|rewrite L0; simpl; lia|exact I0|].
  change (Z.of_nat (length [q0])) with 1 in E0.
  change (Z.of_nat (length [q1])) with 1 in E1.
  rewrite (f11_query1_read_eq h _ _ _ _ _ _ E0 E1).
  rewrite (P1 0) by (simpl; lia). reflexivity.
Qed.

Lemma engine_ready_upd f h :
  (forall d, flags (f d) = flags d /\ readReport (f d) = readReport d /\
             writeReport (f d) = writeReport d /\
             input_report_size (f d) = input_report_size d /\
             output_report_size (f d) = output_report_size d) ->
  engine_ready h -> engine_ready (upd f h).
Proof.
  intros Hf (R1 & R2 & R3 & R4 & R5).
  destruct (Hf (drvdata h)) as (F1 & F2 & F3 & F4 & F5).
  unfold engine_ready. simpl. rewrite F1, F2, F3, F4, F5. auto.
Qed.

Lemma le16_lor p i :
  Z.lor (load p i) (Z.shiftl (load p (i + 1)) 8) = le16 p i.
Proof.
  rewrite Z.lor_comm. unfold le16.
  rewrite lor_page_base by (pose proof (load_range p (i + 1));
                            pose proof (load_range p i); lia).
  lia.
Qed.

Lemma tables_of_upd_f11_query1 q a b :
  tables_of a = tables_of b ->
  tables_of (upd (f11_query1 q) a) = tables_of (upd (f11_query1 q) b).
Proof.
  unfold tables_of, f11_query1. simpl. intros E. injection E. intros.
  congruence.
Qed.

Lemma tables_of_upd_size_mm x y a b :
  tables_of a = tables_of b ->
  tables_of (upd (with_size_mm x y) a) = tables_of (upd (with_size_mm x y) b).
Proof.
  unfold tables_of. simpl. intros E. injection E. intros. congruence.
Qed.

Lemma tables_of_upd_max_xy x y a b :
  tables_of a = tables_of b ->
  tables_of (upd (with_max_xy x y) a) = tables_of (upd (with_max_xy x y) b).
Proof.
  unfold tables_of. simpl. intros E. injection E. intros. congruence.
Qed.

Lemma tables_of_f11 a b :
  tables_of a = tables_of b -> f11 (drvdata a) = f11 (drvdata b).
Proof. unfold tables_of. cbv zeta. intros E. injection E. intros. auto. Qed.

Lemma load_one q : 0 <= q < 256 -> load [q] 0 = q.
Proof. intros H. unfold load, u8. simpl. apply Z.mod_small. lia. Qed.

(** X23.  [rmi_populate_f11] against a sensor that answers each register
    block in one report and reports absolute mode: it asks for query 0,
    query 1 and query 8 behind the query base; when query 0 announces
    query 12, for query 12 at offset 9 plus one for each of the optional
    queries 9, 10 and 11, and when that announces physical properties,
    for the four bytes after it; last for the twenty control registers.
    It returns 0 with the finger count and report size of query 1, the
    sensor size in millimetres (tenths rounded to nearest) when
    reported, and the maxima read from control registers 6 to 9, low
    byte first. *)
Theorem rmi_populate_f11_answers (h : hid_device) (q0 q1 q8 q12 : Z)
    (props ctrl : list Z) (rest : list (option (list Z))) :
  engine_ready h -> 22 <= input_report_size (drvdata h) ->
  0 < query_base_addr (f11 (drvdata h)) ->
  query_base_addr (f11 (drvdata h)) + 13 < 65536 ->
  0 <= control_base_addr (f11 (drvdata h)) < 65536 ->
  0 <= q0 < 256 -> 0 <= q1 < 256 -> 0 <= q8 < 256 -> 0 <= q12 < 256 ->
  flag q1 4 = true ->
  length props = 4%nat -> length ctrl = 20%nat ->
  inbound h = f11_script q0 q1 q8 q12 props ctrl ++ rest ->
  exists h',
    rmi_populate_f11 h = (0, h') /\
    inbound h' = rest /\
    requested (out_log h') =
      requested (out_log h) ++
      f11_addresses (query_base_addr (f11 (drvdata h)))
        (control_base_addr (f11 (drvdata h))) q0 q8 q12 /\
    tables_of h' = tables_of (upd (f11_populated q0 q1 q12 props ctrl) h) /\
    engine_ready h'.
Proof.
  intros Hready Hirs Hqb Hqb' Hcb H0 H1 H8 H12 Habs Lp Lc Hin.
  set (qb := query_base_addr (f11 (drvdata h))) in *.
  set (cb := control_base_addr (f11 (drvdata h))) in *.
  unfold rmi_populate_f11, rmi_read. fold qb.
  rewrite (proj2 (Z.eqb_neq qb 0)) by lia.
  unfold f11_script in Hin. cbn [app map] in Hin.
  (* query 0 *)
  destruct (rmi_read_block_answer qb (repeat 0 20) h [q0] _ Hready
              ltac:(simpl; lia) ltac:(simpl; lia)
              ltac:(rewrite repeat_length; simpl; lia) Hin)
    as (b0 & h0 & E0 & Lb0 & V0 & R0 & I0 & Q0 & T0 & B0).
  change (Z.of_nat (length [q0])) with 1 in E0, V0.
  rewrite E0. cbn [Z.eqb negb].
  rewrite (V0 0 ltac:(lia)), (load_one q0 H0).
  destruct (transport_of_sizes _ _ T0) as (S0 & _).
  (* query 1 *)
  destruct (rmi_read_block_answer (qb + 1) b0 h0 [q1] _ R0
              ltac:(simpl; lia) ltac:(simpl; lia)
              ltac:(rewrite Lb0, repeat_length; simpl; lia) I0)
    as (b1 & h1 & E1 & Lb1 & V1 & R1 & I1 & Q1 & T1 & B1).
  change (Z.of_nat (length [q1])) with 1 in E1, V1.
  rewrite E1. cbn [Z.eqb negb].
  rewrite (V1 0 ltac:(lia)), (load_one q1 H1), Habs. cbn [negb].
  destruct (transport_of_sizes _ _ T1) as (S1 & _).
  set (h2 := upd (f11_query1 q1) h1).
  assert (R2 : engine_ready h2)
    by (apply engine_ready_upd; [intros d; repeat split|exact R1]).
  assert (I2 : inbound h2 = inbound h1) by reflexivity.
  assert (Q2 : requested (out_log h2) = requested (out_log h1)) by reflexivity.
  assert (S2 : input_report_size (drvdata h2) = input_report_size (drvdata h1))
    by reflexivity.
  assert (B2 : tables_of h2 = tables_of (upd (f11_query1 q1) h)).
  { apply tables_of_upd_f11_query1. congruence. }
  clearbody h2. rewrite <- I2 in I1.
  (* query 8 *)
  destruct (rmi_read_block_answer (qb + 8) b1 h2 [q8] _ R2
              ltac:(simpl; lia) ltac:(simpl; lia)
              ltac:(rewrite Lb1, Lb0, repeat_length; simpl; lia) I1)
    as (b3 & h3 & E3 & Lb3 & V3 & R3 & I3 & Q3 & T3 & B3).
  change (Z.of_nat (length [q8])) with 1 in E3, V3.
  rewrite E3. cbn [Z.eqb negb].
  rewrite (V3 0 ltac:(lia)), (load_one q8 H8).
  destruct (transport_of_sizes _ _ T3) as (S3 & _).
  assert (U : forall k, 0 <= k <= 13 -> u16 (qb + k) = qb + k)
    by (intros k Hk; apply u16_small; lia).
  assert (Q3' : requested (out_log h3) =
                requested (out_log h) ++ [qb; qb + 1; qb + 8]).
  { rewrite Q3, Q2, Q1, Q0, <- !app_assoc. cbn [app].
    rewrite <- (Z.add_0_r qb) at 1. rewrite !U by lia.
    now rewrite Z.add_0_r. }
  assert (B3' : tables_of h3 = tables_of (upd (f11_query1 q1) h)) by congruence.
  assert (Lb : length b3 = 20%nat) by (rewrite Lb3, Lb1, Lb0; apply repeat_length).
  assert (S3' : 22 <= input_report_size (drvdata h3)) by lia.
  clear E0 E1 E3 V0 V1 V3 Q0 Q1 Q2 Q3 B0 B1 B2 B3 T0 T1 T3 S0 S1 S2 S3
        Lb0 Lb1 Lb3 R0 R1 R2 I0 I2 Hin.
  (* the control block *)
  assert (Hctrl : forall buf hh pre g,
    engine_ready hh -> 22 <= input_report_size (drvdata hh) ->
    length buf = 20%nat ->
    inbound hh = Some (read_data_report ctrl) :: rest ->
    requested (out_log hh) = requested (out_log h) ++ pre ->
    tables_of hh = tables_of (upd g h) ->
    (forall d, control_base_addr (f11 (g d)) = control_base_addr (f11 d)) ->
    exists h',
      (let '(ret, buf, h) :=
         rmi_read_block (control_base_addr (f11 (drvdata hh))) buf 20 hh in
       if negb (ret =? 0) then (ret, h)
       else (0, upd (with_max_xy
                       (Z.lor (load buf 6) (Z.shiftl (load buf 7) 8))
                       (Z.lor (load buf 8) (Z.shiftl (load buf 9) 8))) h))
      = (0, h') /\
      inbound h' = rest /\
      requested (out_log h') = requested (out_log h) ++ pre ++ [cb] /\
      tables_of h' =
        tables_of (upd (with_max_xy (le16 ctrl 6) (le16 ctrl 8)) (upd g h)) /\
      engine_ready h').
  { intros buf hh pre g Rh Sh Lbuf Ih Qh Bh Hg.
    assert (Ecb : control_base_addr (f11 (drvdata hh)) = cb).
    { rewrite (tables_of_f11 _ _ Bh). simpl. apply Hg. }
    rewrite Ecb.
    destruct (rmi_read_block_answer cb buf hh ctrl rest Rh
                ltac:(lia) ltac:(lia) ltac:(lia) Ih)
      as (bc & hc & Ec & Lbc & Vc & Rc & Ic & Qc & Tc & Bc).
    rewrite Lc in Ec, Vc. change (Z.of_nat 20) with 20 in Ec, Vc.
    rewrite Ec. cbn [Z.eqb negb].
    eexists. split; [reflexivity|].
    split; [exact Ic|].
    split. { simpl. rewrite Qc, Qh, <- app_assoc, u16_small by lia. reflexivity. }
    split.
    { rewrite !le16_lor. unfold le16.
      rewrite !Vc by lia. change (6 + 1) with 7. change (8 + 1) with 9.
      apply tables_of_upd_max_xy. congruence. }
    apply engine_ready_upd; [intros d; repeat split|exact Rc]. }
  unfold f11_addresses, f11_populated, f11_query12_offset.
  destruct (flag q0 5) eqn:F5; cbn [andb].
  2:{ cbn [app map] in I3.
      destruct (Hctrl b3 h3 [qb; qb + 1; qb + 8] (f11_query1 q1)
                  R3 S3' Lb I3 Q3' B3' ltac:(reflexivity))
        as (h' & E & I & Q & B & R).
      exists h'. rewrite E. auto 10. }
  cbn [app map] in I3.
  set (off := 9 + (if flag q0 3 then 1 else 0) + (if flag q8 2 then 1 else 0)
              + (if flag q0 4 then 1 else 0)).
  assert (Hoff : 9 <= off <= 12)
    by (unfold off; destruct (flag q0 3), (flag q8 2), (flag q0 4); lia).
  change (9 + Z.b2z (flag q0 3) + Z.b2z (flag q8 2) + Z.b2z (flag q0 4))
    with off.
  (* query 12 *)
  destruct (rmi_read_block_answer (qb + off) b3 h3 [q12] _ R3
              ltac:(simpl; lia) ltac:(simpl; lia) ltac:(simpl; lia) I3)
    as (b4 & h4 & E4 & Lb4 & V4 & R4 & I4 & Q4 & T4 & B4).
  change (Z.of_nat (length [q12])) with 1 in E4, V4.
  rewrite E4. cbn [Z.eqb negb].
  rewrite (V4 0 ltac:(lia)), (load_one q12 H12).
  destruct (transport_of_sizes _ _ T4) as (S4 & _).
  assert (Q4' : requested (out_log h4) =
                requested (out_log h) ++ [qb; qb + 1; qb + 8; qb + off]).
  { rewrite Q4, Q3', <- app_assoc, U by lia. reflexivity. }
  destruct (flag q12 5) eqn:F12.
  2:{ destruct (Hctrl b4 h4 [qb; qb + 1; qb + 8; qb + off] (f11_query1 q1)
                  R4 ltac:(lia) ltac:(lia) I4 Q4' ltac:(congruence)
                  ltac:(reflexivity))
        as (h' & E & I & Q & B & R).
      exists h'. rewrite E. auto 10. }
  (* the physical properties *)
  cbn [map] in I4.
  destruct (rmi_read_block_answer (qb + off + 1) b4 h4 props _ R4
              ltac:(lia) ltac:(lia) ltac:(lia) I4)
    as (b5 & h5 & E5 & Lb5 & V5 & R5 & I5 & Q5 & T5 & B5).
  rewrite Lp in E5, V5. change (Z.of_nat 4) with 4 in E5, V5.
  rewrite E5. cbn [Z.eqb negb].
  destruct (transport_of_sizes _ _ T5) as (S5 & _).
  assert (EX : Z.lor (load b5 0) (Z.shiftl (load b5 1) 8) = le16 props 0).
  { change 1 with (0 + 1) at 1. rewrite (le16_lor b5 0). unfold le16.
    now rewrite !V5 by lia. }
  assert (EY : Z.lor (load b5 2) (Z.shiftl (load b5 3) 8) = le16 props 2).
  { change 3 with (2 + 1) at 1. rewrite (le16_lor b5 2). unfold le16.
    now rewrite !V5 by lia. }
  rewrite EX, EY.
  set (sx := DIV_ROUND_CLOSEST (le16 props 0) 10).
  set (sy := DIV_ROUND_CLOSEST (le16 props 2) 10).
  destruct (Hctrl b5 (upd (with_size_mm sx sy) h5)
              [qb; qb + 1; qb + 8; qb + off; qb + off + 1]
              (fun d => with_size_mm sx sy (f11_query1 q1 d)))
    as (h' & E & I & Q & B & R).
  - apply engine_ready_upd; [intros d; repeat split|exact R5].
  - simpl. lia.
  - lia.
  - exact I5.
  - simpl. rewrite Q5, Q4', <- app_assoc.
    replace (qb + off + 1) with (qb + (off + 1)) by lia.
    rewrite U by lia. reflexivity.
  - change (upd (fun d => with_size_mm sx sy (f11_query1 q1 d)) h)
      with (upd (with_size_mm sx sy) (upd (f11_query1 q1) h)).
    apply tables_of_upd_size_mm. congruence.
  - reflexivity.
  - exists h'. rewrite E. auto 10.
Qed.

Lemma rmi_populate_f11_answers_witness :
  let props := [0x10; 0x02; 0x20; 0x01] in
  let ctrl := [0; 0; 0; 0; 0; 0; 0xd0; 0x07; 0xe8; 0x03;
               0; 0; 0; 0; 0; 0; 0; 0; 0; 0] in
  let h := upd (rmi_register_function
                  (pdt_bytes 0x10 0x20 0x30 0x40 1 0x11) 0 0)
             (bench_device 32 8 (f11_script 0x28 0x14 0x04 0x20 props ctrl)) in
  exists h',
    rmi_populate_f11 h = (0, h') /\
    inbound h' = [] /\
    requested (out_log h') =
      requested (out_log h) ++
      f11_addresses (query_base_addr (f11 (drvdata h)))
        (control_base_addr (f11 (drvdata h))) 0x28 0x04 0x20 /\
    tables_of h' =
      tables_of (upd (f11_populated 0x28 0x14 0x20 props ctrl) h) /\
    engine_ready h'.
Proof.
  intros props ctrl h.
  assert (Hready : engine_ready h).
  { apply engine_ready_upd.
    - intros d. unfold rmi_register_function. simpl. repeat split.
    - apply bench_device_ready; lia. }
  refine (rmi_populate_f11_answers h 0x28 0x14 0x04 0x20 props ctrl []
            Hready _ _ _ _ _ _ _ _ _ _ _ _).
  - vm_compute. discriminate.
  - vm_compute. reflexivity.
  - vm_compute. reflexivity.
  - vm_compute. split; discriminate || reflexivity.
  - lia.
  - lia.
  - lia.
  - lia.
  - reflexivity.
  - reflexivity.
  - reflexivity.
  - symmetry. apply app_nil_r.
Defined.

(** X24.  A sensor whose query 1 lacks the absolute-mode bit is turned
    down: [rmi_populate_f11] stops after queries 0 and 1 with
    [-ENODEV]; the finger count and the touch report size of query 1
    have been recorded by then, and nothing else of the tables has
    changed. *)
Theorem rmi_populate_f11_relative_only (h : hid_device) (q0 q1 : Z)
    (rest : list (option (list Z))) :
  engine_ready h -> 3 <= input_report_size (drvdata h) ->
  0 < query_base_addr (f11 (drvdata h)) ->
  query_base_addr (f11 (drvdata h)) + 1 < 65536 ->
  0 <= q0 < 256 -> 0 <= q1 < 256 ->
  flag q1 4 = false ->
  inbound h =
    Some (read_data_report [q0]) :: Some (read_data_report [q1]) :: rest ->
  exists h',
    rmi_populate_f11 h = (- ENODEV, h') /\
    inbound h' = rest /\
    requested (out_log h') =
      requested (out_log h) ++
      [query_base_addr (f11 (drvdata h));
       query_base_addr (f11 (drvdata h)) + 1] /\
    tables_of h' = tables_of (upd (f11_query1 q1) h).
Proof.
  intros Hready Hirs Hqb Hqb' H0 H1 Habs Hin.
  set (qb := query_base_addr (f11 (drvdata h))) in *.
  unfold rmi_populate_f11, rmi_read. fold qb.
  rewrite (proj2 (Z.eqb_neq qb 0)) by lia.
  destruct (rmi_read_block_answer qb (repeat 0 20) h [q0] _ Hready
              ltac:(simpl; lia) ltac:(simpl; lia)
              ltac:(rewrite repeat_length; simpl; lia) Hin)
    as (b0 & h0 & E0 & Lb0 & V0 & R0 & I0 & Q0 & T0 & B0).
  change (Z.of_nat (length [q0])) with 1 in E0, V0.
  rewrite E0. cbn [Z.eqb negb].
  destruct (transport_of_sizes _ _ T0) as (S0 & _).
  destruct (rmi_read_block_answer (qb + 1) b0 h0 [q1] _ R0
              ltac:(simpl; lia) ltac:(simpl; lia)
              ltac:(rewrite Lb0, repeat_length; simpl; lia) I0)
    as (b1 & h1 & E1 & Lb1 & V1 & R1 & I1 & Q1 & T1 & B1).
  change (Z.of_nat (length [q1])) with 1 in E1, V1.
  rewrite E1. cbn [Z.eqb negb].
  rewrite (V1 0 ltac:(lia)), (load_one q1 H1), Habs. cbn [negb].
  eexists. split; [reflexivity|].
  split; [exact I1|]. split.
  - simpl. rewrite Q1, Q0, <- app_assoc, !u16_small by lia. reflexivity.
  - apply tables_of_upd_f11_query1. congruence.
Qed.

Lemma rmi_populate_f11_relative_only_witness :
  let h := upd (rmi_register_function
                  (pdt_bytes 0x10 0x20 0x30 0x40 1 0x11) 0 0)
             (bench_device 32 8
                [Some (read_data_report [0x00]);
                 Some (read_data_report [0x02])]) in
  exists h',
    rmi_populate_f11 h = (- ENODEV, h') /\
    inbound h' = [] /\
    requested (out_log h') =
      requested (out_log h) ++
      [query_base_addr (f11 (drvdata h));
       query_base_addr (f11 (drvdata h)) + 1] /\
    tables_of h' = tables_of (upd (f11_query1 0x02) h).
Proof.
  intros h.
  assert (Hready : engine_ready h).
  { apply engine_ready_upd.
    - intros d. unfold rmi_register_function. simpl. repeat split.
    - apply bench_device_ready; lia. }
  refine (rmi_populate_f11_relative_only h 0x00 0x02 [] Hready _ _ _ _ _ _ _).
  - vm_compute. discriminate.
  - vm_compute. reflexivity.
  - vm_compute. reflexivity.
  - lia.
  - lia.
  - reflexivity.
  - reflexivity.
Defined.

(** ** The button function against an answering sensor *)

Lemma f30_button_loop_ext bpc (b b' : list Z) : forall n i d,
  (forall k, 0 <= k < 2 * bpc -> load b k = load b' k) ->
  Z.of_nat (i + n) <= 8 * bpc ->
  f30_button_loop n (Z.of_nat i) bpc b d =
  f30_button_loop n (Z.of_nat i) bpc b' d.
Proof.
  induction n as [|n IH]; intros i d Hb Hn; [reflexivity|].
  rewrite !f30_button_loop_S.
  replace (Z.of_nat i + 1) with (Z.of_nat (S i)) by lia.
  assert (W : wired_button bpc b (Z.of_nat i) = wired_button bpc b' (Z.of_nat i)).
  { unfold wired_button.
    assert (Hk : 0 <= Z.shiftr (Z.of_nat i) 3 < bpc).
    { rewrite Z.shiftr_div_pow2 by lia. change (2 ^ 3) with 8.
      split; [apply Z.div_pos; lia|apply Z.div_lt_upper_bound; lia]. }
    now rewrite !Hb by lia. }
  rewrite W. apply IH; [exact Hb|lia].
Qed.

Lemma tables_of_upd_button_loop bpc buf n : forall i a b,
  tables_of a = tables_of b ->
  tables_of (upd (f30_button_loop n i bpc buf) a) =
  tables_of (upd (f30_button_loop n i bpc buf) b).
Proof.
  induction n as [|n IH]; intros i a b E; [exact E|].
  set (step := fun d =>
         if wired_button bpc buf i
         then with_buttons (u32 (button_count d + 1))
                (set_bit i (button_mask d)) (set_bit i (button_state_mask d)) d
         else d).
  assert (Ea : upd (f30_button_loop (S n) i bpc buf) a =
               upd (f30_button_loop n (i + 1) bpc buf) (upd step a)).
  { unfold upd, with_drvdata. simpl drvdata. now rewrite f30_button_loop_S. }
  assert (Eb : upd (f30_button_loop (S n) i bpc buf) b =
               upd (f30_button_loop n (i + 1) bpc buf) (upd step b)).
  { unfold upd, with_drvdata. simpl drvdata. now rewrite f30_button_loop_S. }
  rewrite Ea, Eb. apply IH.
  unfold step, tables_of in *. cbv zeta in *.
  destruct (wired_button bpc buf i); simpl; [|exact E].
  injection E. intros. congruence.
Qed.

Lemma load_two a b :
  0 <= a < 256 -> 0 <= b < 256 ->
  load [a; b] 0 = a /\ load [a; b] 1 = b.
Proof.
  intros Ha Hb. unfold load, u8. simpl.
  split; apply Z.mod_small; lia.
Qed.

Lemma f30_bytes_per_ctrl_range q1 : 0 <= f30_bytes_per_ctrl q1 <= 4.
Proof.
  unfold f30_bytes_per_ctrl. pose proof (land_31 q1) as H.
  split; [apply Z.div_pos; lia|].
  assert ((Z.land q1 31 + 7) / 8 < 5) by (apply Z.div_lt_upper_bound; lia).
  lia.
Qed.

(** X25.  [rmi_populate_f30] against a sensor that answers each register
    block in one report: it reads the two query bytes at the query base;
    takes the low five bits of the second as the number of GPIO
    positions; reads control registers 2 and 3, one bit per position
    each, at the control base behind control 1 and, when the sensor has
    both GPIOs and LEDs, control 0; and returns 0 with the report size
    and the button wiring derived from those two registers. *)
Theorem rmi_populate_f30_answers (h : hid_device) (q0 q1 : Z)
    (ctrl : list Z) (rest : list (option (list Z))) :
  engine_ready h -> 10 <= input_report_size (drvdata h) ->
  0 < query_base_addr (f30 (drvdata h)) < 65536 ->
  0 <= control_base_addr (f30 (drvdata h)) ->
  control_base_addr (f30 (drvdata h)) + 8 < 65536 ->
  0 <= q0 < 256 -> 0 <= q1 < 256 ->
  1 <= Z.land q1 0x1f ->
  Z.of_nat (length ctrl) = 2 * f30_bytes_per_ctrl q1 ->
  inbound h =
    Some (read_data_report [q0; q1]) :: Some (read_data_report ctrl) :: rest ->
  exists h',
    rmi_populate_f30 h = (0, h') /\
    inbound h' = rest /\
    requested (out_log h') =
      requested (out_log h) ++
      [query_base_addr (f30 (drvdata h));
       control_base_addr (f30 (drvdata h)) + f30_ctrl2_offset q0 q1] /\
    tables_of h' = tables_of (upd (f30_populated q1 ctrl) h) /\
    engine_ready h'.
Proof.
  intros Hready Hirs Hqb Hcb Hcb' H0 H1 Hg Lc Hin.
  set (qb := query_base_addr (f30 (drvdata h))) in *.
  set (cb := control_base_addr (f30 (drvdata h))) in *.
  pose proof (f30_bytes_per_ctrl_range q1) as Hbpc.
  pose proof (land_31 q1) as Hg31.
  assert (Hbpc1 : 1 <= f30_bytes_per_ctrl q1).
  { unfold f30_bytes_per_ctrl. apply Z.div_le_lower_bound; lia. }
  unfold rmi_populate_f30. fold qb.
  rewrite (proj2 (Z.eqb_neq qb 0)) by lia.
  destruct (rmi_read_block_answer qb (repeat 0 20) h [q0; q1] _ Hready
              ltac:(simpl; lia) ltac:(simpl; lia)
              ltac:(rewrite repeat_length; simpl; lia) Hin)
    as (b0 & h0 & E0 & Lb0 & V0 & R0 & I0 & Q0 & T0 & B0).
  change (Z.of_nat (length [q0; q1])) with 2 in E0, V0.
  rewrite E0. cbn [Z.eqb negb]. cbv zeta.
  destruct (load_two q0 q1 H0 H1) as [L0 L1].
  rewrite (V0 0 ltac:(lia)), (V0 1 ltac:(lia)), L0, L1.
  destruct (transport_of_sizes _ _ T0) as (S0 & _).
  set (g := Z.land q1 31) in *.
  change (gpio_led_count (drvdata (upd (with_gpio_led_count g) h0))) with g.
  change ((g + 7) / 8) with (f30_bytes_per_ctrl q1).
  set (bpc := f30_bytes_per_ctrl q1) in *.
  set (h1 := upd (fun d => with_f30 (with_report_size bpc (f30 d)) d)
               (upd (with_gpio_led_count g) h0)).
  assert (R1 : engine_ready h1).
  { unfold h1. do 2 (apply engine_ready_upd; [intros d; repeat split|]).
    exact R0. }
  assert (I1 : inbound h1 = inbound h0) by reflexivity.
  assert (Q1 : requested (out_log h1) = requested (out_log h0)) by reflexivity.
  assert (S1 : input_report_size (drvdata h1) = input_report_size (drvdata h0))
    by reflexivity.
  assert (B1 : tables_of h1 =
               tables_of (upd (fun d => with_f30 (with_report_size bpc (f30 d)) d)
                            (upd (with_gpio_led_count g) h))).
  { unfold h1, tables_of in *. cbv zeta in *. simpl.
    injection B0. intros. congruence. }
  assert (C1 : control_base_addr (f30 (drvdata h1)) = cb).
  { unfold h1, cb. simpl. unfold tables_of in B0. cbv zeta in B0.
    injection B0. intros. congruence. }
  clearbody h1. rewrite C1. rewrite <- I1 in I0.
  assert (Eoff : u8 (u8 (if flag q0 3 && flag q0 2 then bpc else 0) + bpc) =
                 f30_ctrl2_offset q0 q1).
  { unfold f30_ctrl2_offset. fold bpc. unfold u8.
    destruct (flag q0 3 && flag q0 2).
    - rewrite (Z.mod_small bpc 256) by lia. apply Z.mod_small; lia.
    - change (0 mod 256) with 0. apply Z.mod_small; lia. }
  rewrite Eoff.
  assert (Hoff : 0 <= f30_ctrl2_offset q0 q1 <= 8).
  { unfold f30_ctrl2_offset. fold bpc.
    destruct (flag q0 3 && flag q0 2); lia. }
  destruct (rmi_read_block_answer (cb + f30_ctrl2_offset q0 q1) b0 h1 ctrl rest
              R1 ltac:(lia) ltac:(lia)
              ltac:(rewrite Lb0, repeat_length; lia) I0)
    as (b2 & h2 & E2 & Lb2 & V2 & R2 & I2 & Q2 & T2 & B2).
  rewrite Lc in E2, V2. rewrite E2. cbn [Z.eqb negb].
  assert (G2 : gpio_led_count (drvdata h2) = g).
  { unfold tables_of in B2, B1. cbv zeta in B2, B1.
    injection B2. injection B1. intros. simpl in *. congruence. }
  rewrite G2.
  eexists. split; [reflexivity|].
  split; [exact I2|]. split.
  { simpl. rewrite Q2, Q1, Q0, <- app_assoc, !u16_small by lia. reflexivity. }
  split.
  - assert (EU : upd (f30_button_loop (Z.to_nat g) 0 bpc b2) h2 =
                 upd (f30_button_loop (Z.to_nat g) 0 bpc ctrl) h2).
    { unfold upd. f_equal.
      apply (f30_button_loop_ext bpc b2 ctrl (Z.to_nat g) 0).
      - intros k Hk. apply V2. lia.
      - unfold bpc, f30_bytes_per_ctrl. fold g.
        rewrite Nat.add_0_l, Z2Nat.id by lia.
        pose proof (Z.div_mod (g + 7) 8 ltac:(lia)).
        pose proof (Z.mod_pos_bound (g + 7) 8 ltac:(lia)). lia. }
    rewrite EU.
    unfold f30_populated. fold g. fold bpc.
    change (upd (fun d => f30_button_loop (Z.to_nat g) 0 bpc ctrl
                   (with_f30 (with_report_size bpc
                      (f30 (with_gpio_led_count g d)))
                      (with_gpio_led_count g d))) h)
      with (upd (f30_button_loop (Z.to_nat g) 0 bpc ctrl)
              (upd (fun d => with_f30 (with_report_size bpc (f30 d)) d)
                 (upd (with_gpio_led_count g) h))).
    apply tables_of_upd_button_loop. congruence.
  - apply engine_ready_upd; [|exact R2].
    intros d.
    destruct (f30_button_loop_frame (Z.to_nat g) 0 bpc b2 d)
      as (I1' & I2' & I3' & I4' & I5' & _).
    auto.
Qed.

Lemma rmi_populate_f30_answers_witness :
  let h := upd (rmi_register_function
                  (pdt_bytes 0x50 0x60 0x70 0x80 1 0x30) 0 0)
             (bench_device 32 8
                [Some (read_data_report [0x08; 0x01]);
                 Some (read_data_report [0x00; 0x01])]) in
  exists h',
    rmi_populate_f30 h = (0, h') /\
    inbound h' = [] /\
    requested (out_log h') =
      requested (out_log h) ++
      [query_base_addr (f30 (drvdata h));
       control_base_addr (f30 (drvdata h)) + f30_ctrl2_offset 0x08 0x01] /\
    tables_of h' = tables_of (upd (f30_populated 0x01 [0x00; 0x01]) h) /\
    engine_ready h'.
Proof.
  intros h.
  assert (Hready : engine_ready h).
  { apply engine_ready_upd.
    - intros d. unfold rmi_register_function. simpl. repeat split.
    - apply bench_device_ready; lia. }
  refine (rmi_populate_f30_answers h 0x08 0x01 [0x00; 0x01] []
            Hready _ _ _ _ _ _ _ _ _).
  - vm_compute. discriminate.
  - vm_compute. split; reflexivity.
  - vm_compute. discriminate.
  - vm_compute. reflexivity.
  - lia.
  - lia.
  - vm_compute. discriminate.
  - reflexivity.
  - reflexivity.
Defined.

(** ** What is reported against what was registered *)

Lemma load_chk_load p i v : load_chk p i = Some v -> v = load p i.
Proof.
  unfold load_chk, load. destruct (i <? 0); [discriminate|].
  destruct (nth_error p (Z.to_nat i)) eqn:E; simpl; [|discriminate].
  intros H. injection H as <-. now rewrite (nth_error_nth _ _ _ E).
Qed.

Lemma f30_loop_inv d data : forall n k button h b' h',
  for_loop n (Z.of_nat k)
    (fun i button =>
       if test_bit i (button_mask d) then
         b <- ld data (i / 8) ;;
         emit (Ev_key (BTN_LEFT + button)
                 (if test_bit i (button_state_mask d)
                  then negb (negb (Z.land (Z.shiftr b (Z.land i 0x07)) (BIT 0)
                                   =? 0))
                  else negb (Z.land (Z.shiftr b (Z.land i 0x07)) (BIT 0)
                             =? 0))) ;;;
         mret (button + 1)
       else mret button) button h = Some (b', h') ->
  h' = with_input_log
         (input_log h ++
          key_events d data
            (filter (fun i => test_bit i (button_mask d))
               (map Z.of_nat (seq k n))) button) h.
Proof.
  induction n as [|n IH]; intros k button h b' h' H.
  - cbn [for_loop] in H. unfold mret in H. inversion H; subst.
    cbn [seq map filter key_events].
    destruct h'; unfold with_input_log; simpl. now rewrite app_nil_r.
  - rewrite for_loop_S in H. cbv beta in H.
    cbn [seq map filter].
    replace (Z.of_nat k + 1) with (Z.of_nat (S k)) in H by lia.
    destruct (test_bit (Z.of_nat k) (button_mask d)).
    + destruct (ld data (Z.of_nat k / 8) h) as [[b h1]|] eqn:L.
      2:{ unfold mbind in H. rewrite L in H. discriminate. }
      rewrite (mbind_some _ _ _ _ _ L) in H.
      apply ld_inv in L. destruct L as [-> L].
      apply load_chk_load in L. subst b.
      unfold mbind at 1, emit at 1, mret at 1 in H. cbv beta iota in H.
      apply IH in H. rewrite H, with_input_log_app.
      cbn [key_events app]. rewrite !bit_of, land_7.
      replace (if test_bit (Z.of_nat k) (button_state_mask d)
               then negb (Z.testbit (load data (Z.of_nat k / 8))
                            (Z.of_nat k mod 8))
               else Z.testbit (load data (Z.of_nat k / 8)) (Z.of_nat k mod 8))
        with (xorb (test_bit (Z.of_nat k) (button_state_mask d))
                (Z.testbit (load data (Z.of_nat k / 8)) (Z.of_nat k mod 8)))
        by (destruct (test_bit (Z.of_nat k) (button_state_mask d)),
                     (Z.testbit (load data (Z.of_nat k / 8))
                        (Z.of_nat k mod 8)); reflexivity).
      reflexivity.
    + unfold mret at 1 in H. apply IH in H. exact H.
Qed.

Lemma key_events_codes d data : forall ps button,
  Forall (fun e => exists j v, e = Ev_key (BTN_LEFT + j) v /\
                               button <= j < button + Z.of_nat (length ps))
    (key_events d data ps button).
Proof.
  induction ps as [|i ps IH]; intros button; cbn [key_events]; constructor.
  - eexists _, _. split; [reflexivity|]. cbn [length]. lia.
  - eapply Forall_impl; [|apply IH].
    intros e (j & v & -> & Hj). exists j, v. split; [reflexivity|].
    cbn [length]. lia.
Qed.

Lemma keybit_registered d j :
  0 <= j < button_count d ->
  In (Setup_keybit (BTN_LEFT + j)) (rmi_input_setup d).
Proof.
  intros Hj. unfold rmi_input_setup.
  apply in_or_app. right. apply in_or_app. right. apply in_or_app. right.
  rewrite (proj2 (Z.eqb_neq (button_count d) 0)) by lia. cbn [negb].
  right. apply in_or_app. left.
  apply in_map_iff. exists (Z.to_nat j). split.
  - now rewrite Z2Nat.id by lia.
  - apply in_seq. lia.
Qed.

(** X26.  When the button count of the context is the number of
    positions the button decoder reports, as [rmi_populate_f30] leaves
    it, every event [rmi_f30_input_event] reports is a key event whose
    code [rmi_input_configured] registered with the input layer. *)
Theorem rmi_f30_input_event_registered (irq : Z) (data : list Z) (size : Z)
    (h : hid_device) (r : Z) (h' : hid_device) :
  button_count (drvdata h) =
    Z.of_nat (length (button_positions (drvdata h))) ->
  rmi_f30_input_event irq data size h = Some (r, h') ->
  exists evs,
    h' = with_input_log (input_log h ++ evs) h /\
    Forall (fun e => exists code v,
              e = Ev_key code v /\
              In (Setup_keybit code) (rmi_input_setup (drvdata h))) evs.
Proof.
  intros Hc H. unfold rmi_f30_input_event, mbind at 1, hdata_of in H.
  destruct (Z.land irq _ =? 0).
  { unfold mret in H. inversion H; subst. exists []. split; [|constructor].
    destruct h'; unfold with_input_log; simpl. now rewrite app_nil_r. }
  cbv zeta in H.
  apply mbind_inv in H. destruct H as (b1 & h1 & L & H).
  unfold mret in H. inversion H; subst.
  change 0 with (Z.of_nat 0) in L at 1.
  apply f30_loop_inv in L. change (Z.of_nat 0) with 0 in L.
  eexists. split; [exact L|].
  fold (button_positions (drvdata h)).
  eapply Forall_impl; [|apply key_events_codes].
  intros e (j & v & -> & Hj). exists (BTN_LEFT + j), v.
  split; [reflexivity|]. apply keybit_registered. lia.
Qed.

Lemma rmi_f30_input_event_registered_witness :
  let h := attached_sensor 0x14 in
  exists evs,
    with_input_log (input_log h ++ [Ev_key BTN_LEFT true]) h =
      with_input_log (input_log h ++ evs) h /\
    Forall (fun e => exists code v,
              e = Ev_key code v /\
              In (Setup_keybit code) (rmi_input_setup (drvdata h))) evs.
Proof.
  intros h.
  assert (Hc : button_count (drvdata h) =
               Z.of_nat (length (button_positions (drvdata h))))
    by (vm_compute; reflexivity).
  assert (E : rmi_f30_input_event 2 [0x00] 1 h =
              Some (1, with_input_log
                         (input_log h ++ [Ev_key BTN_LEFT true]) h))
    by (vm_compute; reflexivity).
  exact (rmi_f30_input_event_registered 2 [0x00] 1 h 1 _ Hc E).
Defined.

Lemma touch_widths t3 :
  0 <= Z.land (u8 t3) 7 <= 7 /\ 0 <= Z.shiftr (u8 t3) 4 <= 15.
Proof.
  pose proof (u8_range t3) as R. split.
  - rewrite land_7. pose proof (Z.mod_pos_bound (u8 t3) 8 ltac:(lia)). lia.
  - rewrite Z.shiftr_div_pow2 by lia. change (2 ^ 4) with 16.
    split; [apply Z.div_pos; lia|].
    assert (u8 t3 / 16 < 16) by (apply Z.div_lt_upper_bound; lia). lia.
Qed.

Lemma abs_registered d code lo hi :
  In (Setup_abs_params code lo hi)
     [Setup_abs_params ABS_MT_ORIENTATION 0 1;
      Setup_abs_params ABS_MT_PRESSURE 0 0xff;
      Setup_abs_params ABS_MT_TOUCH_MAJOR 0 0x0f;
      Setup_abs_params ABS_MT_TOUCH_MINOR 0 0x0f] ->
  In (Setup_abs_params code lo hi) (rmi_input_setup d).
Proof.
  intros H. unfold rmi_input_setup.
  apply in_or_app. right. apply in_or_app. right. apply in_or_app. left.
  simpl in *. tauto.
Qed.

(** X27.  For a finger in contact, the orientation, the pressure and the
    two touch widths [rmi_f11_process_touch] reports lie within the
    ranges [rmi_input_configured] registered for them with the input
    layer. *)
Theorem rmi_f11_process_touch_registered (slot : Z) (td : list Z)
    (h h' : hid_device) :
  rmi_f11_process_touch slot 1 td h = Some (tt, h') ->
  exists evs,
    h' = with_input_log (input_log h ++ evs) h /\
    forall code v,
      In (Ev_abs code v) evs ->
      code <> ABS_MT_POSITION_X -> code <> ABS_MT_POSITION_Y ->
      exists lo hi,
        In (Setup_abs_params code lo hi) (rmi_input_setup (drvdata h)) /\
        lo <= v <= hi.
Proof.
  intros H.
  assert (Hl : (5 <= length td)%nat).
  { unfold rmi_f11_process_touch, mbind, hdata_of, emit, ld in H.
    simpl in H.
    do 5 (destruct td as [|? td]; [discriminate H|]). simpl. lia. }
  do 5 (destruct td as [|? td]; [simpl in Hl; lia|]).
  rewrite rmi_f11_process_touch_live in H.
  apply (f_equal (fun o => match o with Some (_, k) => k | None => h end)) in H.
  cbv beta iota in H. subst h'.
  eexists. split; [reflexivity|].
  intros code v Hin Hx Hy.
  destruct (touch_widths z2) as [Wx Wy].
  pose proof (u8_range z3) as Rz.
  cbn [In] in Hin.
  destruct Hin as [E|[E|[E|[E|[E|[E|[E|[E|[]]]]]]]]]; try discriminate E;
    injection E as <- <-; try contradiction.
  - exists 0, 1. split; [apply abs_registered; simpl; auto|].
    destruct (_ >? _); lia.
  - exists 0, 0xff. split; [apply abs_registered; simpl; auto|]. lia.
  - exists 0, 0x0f. split; [apply abs_registered; simpl; auto|]. lia.
  - exists 0, 0x0f. split; [apply abs_registered; simpl; auto|]. lia.
Qed.

Lemma rmi_f11_process_touch_registered_witness :
  let h := attached_sensor 0x14 in
  exists evs,
    with_input_log
      (input_log h ++
       [Ev_mt_slot 0; Ev_mt_slot_state true;
        Ev_abs ABS_MT_POSITION_X 0x127; Ev_abs ABS_MT_POSITION_Y 158;
        Ev_abs ABS_MT_ORIENTATION 0; Ev_abs ABS_MT_PRESSURE 0x40;
        Ev_abs ABS_MT_TOUCH_MAJOR 9; Ev_abs ABS_MT_TOUCH_MINOR 4]) h =
    with_input_log (input_log h ++ evs) h /\
    forall code v,
      In (Ev_abs code v) evs ->
      code <> ABS_MT_POSITION_X -> code <> ABS_MT_POSITION_Y ->
      exists lo hi,
        In (Setup_abs_params code lo hi) (rmi_input_setup (drvdata h)) /\
        lo <= v <= hi.
Proof.
  intros h.
  assert (E : rmi_f11_process_touch 0 1 [0x12; 0x34; 0xAF; 0x9C; 0x40] h =
              Some (tt, with_input_log
                (input_log h ++
                 [Ev_mt_slot 0; Ev_mt_slot_state true;
                  Ev_abs ABS_MT_POSITION_X 0x127; Ev_abs ABS_MT_POSITION_Y 158;
                  Ev_abs ABS_MT_ORIENTATION 0; Ev_abs ABS_MT_PRESSURE 0x40;
                  Ev_abs ABS_MT_TOUCH_MAJOR 9; Ev_abs ABS_MT_TOUCH_MINOR 4]) h))
    by (vm_compute; reflexivity).
  exact (rmi_f11_process_touch_registered 0 _ h _ E).
Defined.

(** X28.  After [rmi_remove] every attention report handed to
    [rmi_raw_event] is dropped: the result is 0, nothing is reported and
    the device stays as removal left it.  Removal itself clears the
    started flag and touches nothing else. *)
Theorem rmi_remove_stops (data : list Z) (size : Z) (h : hid_device) :
  load_chk data 0 = Some RMI_ATTN_REPORT_ID ->
  rmi_raw_event data size (rmi_remove h) = Some (0, rmi_remove h) /\
  tables_of (rmi_remove h) = tables_of h /\
  transport_of (rmi_remove h) = transport_of h /\
  out_log (rmi_remove h) = out_log h /\
  (forall n, n <> RMI_STARTED ->
             test_bit n (flags (drvdata (rmi_remove h))) =
             test_bit n (flags (drvdata h))).
Proof.
  intros Hid. split.
  - unfold rmi_raw_event, mbind at 1, ld. rewrite Hid. cbn [option_map].
    change (RMI_ATTN_REPORT_ID =? RMI_READ_DATA_REPORT_ID) with false.
    change (RMI_ATTN_REPORT_ID =? RMI_ATTN_REPORT_ID) with true.
    cbv iota. unfold rmi_input_event, mbind, hdata_of, rmi_remove.
    cbn [drvdata upd with_drvdata flags with_flags].
    now rewrite test_bit_clear_same.
  - unfold rmi_remove. repeat split.
    intros n Hn. simpl. apply test_bit_clear_other. congruence.
Qed.

Lemma rmi_remove_stops_witness :
  rmi_raw_event [0x0C; 0x02; 0x00] 3 (rmi_remove (attached_sensor 0x14)) =
    Some (0, rmi_remove (attached_sensor 0x14)).
Proof.
  refine (proj1 (rmi_remove_stops [0x0C; 0x02; 0x00] 3
                   (attached_sensor 0x14) _)).
  reflexivity.
Defined.

(** ** A whole attention report *)

Lemma f11_input_event_run irq data size h :
  report_size (f11 (drvdata h)) <= u32 size ->
  Z.land irq (irq_mask (f11 (drvdata h))) <> 0 ->
  0 <= max_fingers (drvdata h) ->
  f11_data_offset (max_fingers (drvdata h)) + 5 * max_fingers (drvdata h)
    <= Z.of_nat (length data) ->
  exists evs,
    rmi_f11_input_event irq data size h =
      Some (int32 (report_size (f11 (drvdata h))),
            with_input_log
              (input_log h ++ evs ++ [Ev_mt_sync_frame; Ev_sync]) h) /\
    slots_of evs =
      map Z.of_nat (seq 0 (Z.to_nat (max_fingers (drvdata h)))).
Proof.
  intros Hsz Hirq Hmf Hlen.
  unfold rmi_f11_input_event, mbind at 1, hdata_of.
  rewrite (proj2 (Z.ltb_ge _ _) Hsz), (proj2 (Z.eqb_neq _ _) Hirq).
  cbv zeta.
  assert (Hoff : 0 <= f11_data_offset (max_fingers (drvdata h))).
  { unfold f11_data_offset.
    pose proof (proj2 (Z.shiftr_nonneg (max_fingers (drvdata h)) 2) Hmf). lia. }
  destruct (f11_loop_spec data (f11_data_offset (max_fingers (drvdata h)))
              (Z.to_nat (max_fingers (drvdata h))) 0 h Hoff)
    as (evs & E & S & T).
  { rewrite Nat.add_0_l, Z2Nat.id by exact Hmf. exact Hlen. }
  change (Z.of_nat 0) with 0 in E.
  rewrite (mbind_some _ _ _ _ _ E).
  exists evs. split; [|assumption].
  unfold mbind, emit, mret. simpl.
  unfold with_input_log; simpl. now rewrite <- !app_assoc.
Qed.

Lemma f30_input_event_run irq data size h :
  Z.land irq (irq_mask (f30 (drvdata h))) <> 0 ->
  gpio_led_count (drvdata h) <= 8 * Z.of_nat (length data) ->
  rmi_f30_input_event irq data size h =
    Some (int32 (report_size (f30 (drvdata h))),
          with_input_log
            (input_log h ++
             key_events (drvdata h) data (button_positions (drvdata h)) 0) h).
Proof.
  intros Hirq Hlen.
  unfold rmi_f30_input_event, mbind at 1, hdata_of.
  rewrite (proj2 (Z.eqb_neq _ _) Hirq).
  pose proof (f30_loop_spec (drvdata h) data
                (Z.to_nat (gpio_led_count (drvdata h))) 0 0 h ltac:(lia)) as L.
  change (Z.of_nat 0) with 0 in L. cbv zeta.
  rewrite (mbind_some _ _ _ _ _ L). reflexivity.
Qed.

(** X29.  How a whole attention report is taken apart when the touch
    function has the lower interrupt base and both interrupts are set:
    after the identifier and the interrupt byte come the touch payload,
    of the touch function's report size, and behind it the button
    payload.  The touch frame is reported first (every slot once, then
    the two syncs), then one key event per wired button, read from the
    bytes behind the touch payload; the result is 1. *)
Theorem rmi_input_event_both (data : list Z) (irq : Z) (h : hid_device) :
  test_bit RMI_STARTED (flags (drvdata h)) = true ->
  interrupt_base (f11 (drvdata h)) < interrupt_base (f30 (drvdata h)) ->
  load_chk data 1 = Some irq ->
  Z.land irq (irq_mask (f11 (drvdata h))) <> 0 ->
  Z.land irq (irq_mask (f30 (drvdata h))) <> 0 ->
  0 <= max_fingers (drvdata h) ->
  0 <= report_size (f11 (drvdata h)) ->
  Z.of_nat (length data) <= INT_MAX ->
  f11_data_offset (max_fingers (drvdata h)) + 5 * max_fingers (drvdata h)
    <= Z.of_nat (length data) - 2 ->
  report_size (f11 (drvdata h)) <= Z.of_nat (length data) - 2 ->
  gpio_led_count (drvdata h)
    <= 8 * (Z.of_nat (length data) - 2 - report_size (f11 (drvdata h))) ->
  exists touch,
    rmi_input_event data (Z.of_nat (length data)) h =
      Some (1, with_input_log
                 (input_log h ++
                  (touch ++ [Ev_mt_sync_frame; Ev_sync]) ++
                  key_events (drvdata h)
                    (skipn (Z.to_nat (2 + report_size (f11 (drvdata h)))) data)
                    (button_positions (drvdata h)) 0) h) /\
    slots_of touch =
      map Z.of_nat (seq 0 (Z.to_nat (max_fingers (drvdata h)))).
Proof.
  intros Hs Hord Hld H11 H30 Hmf Hrs Hmax Hl11 Hl Hl30.
  unfold INT_MAX in Hmax.
  set (n := Z.of_nat (length data)) in *.
  set (rs := report_size (f11 (drvdata h))) in *.
  unfold rmi_input_event, mbind at 1, hdata_of. rewrite Hs. cbn [negb].
  unfold mbind at 1, ld at 1. rewrite Hld. cbn [option_map].
  rewrite (proj2 (Z.ltb_lt _ _) Hord). cbv zeta.
  assert (Esz : int32 (n - 2) = n - 2) by (apply int32_small; unfold INT_MAX; lia).
  rewrite Esz.
  assert (Lp : Z.of_nat (length (skipn (Z.to_nat 2) data)) = n - 2).
  { rewrite length_skipn. unfold n. lia. }
  destruct (f11_input_event_run irq (skipn (Z.to_nat 2) data) (n - 2) h)
    as (touch & E11 & S11).
  { fold rs. unfold u32. rewrite Z.mod_small by lia. lia. }
  { exact H11. }
  { exact Hmf. }
  { rewrite Lp. exact Hl11. }
  fold rs in E11.
  assert (Ers : int32 rs = rs) by (apply int32_small; unfold INT_MAX; lia).
  rewrite Ers in E11.
  rewrite (mbind_some _ _ _ _ _ E11). cbv beta.
  assert (Eix : u32 (2 + rs) = 2 + rs) by (unfold u32; apply Z.mod_small; lia).
  rewrite Eix.
  set (h1 := with_input_log
               (input_log h ++ touch ++ [Ev_mt_sync_frame; Ev_sync]) h).
  assert (D1 : drvdata h1 = drvdata h) by reflexivity.
  assert (Hl30' : gpio_led_count (drvdata h1)
                  <= 8 * Z.of_nat (length (skipn (Z.to_nat (2 + rs)) data))).
  { rewrite D1, length_skipn. fold n. lia. }
  pose proof (f30_input_event_run irq (skipn (Z.to_nat (2 + rs)) data)
                (int32 (n - (2 + rs))) h1 H30 Hl30') as E30.
  rewrite D1 in E30.
  rewrite (mbind_some _ _ _ _ _ E30). cbv beta.
  exists touch. split; [|exact S11].
  unfold mret, h1. now rewrite with_input_log_app.
Qed.

Lemma rmi_input_event_both_witness :
  let h := attached_sensor 0x14 in
  let data := 0x0C :: 0x03 :: 0x01 :: repeat 0 26 ++ [0x00] in
  exists touch,
    rmi_input_event data (Z.of_nat (length data)) h =
      Some (1, with_input_log
                 (input_log h ++
                  (touch ++ [Ev_mt_sync_frame; Ev_sync]) ++
                  key_events (drvdata h)
                    (skipn (Z.to_nat (2 + report_size (f11 (drvdata h)))) data)
                    (button_positions (drvdata h)) 0) h) /\
    slots_of touch =
      map Z.of_nat (seq 0 (Z.to_nat (max_fingers (drvdata h)))).
Proof.
  intros h data.
  refine (rmi_input_event_both data 0x03 h _ _ _ _ _ _ _ _ _ _ _).
  - vm_compute. reflexivity.
  - vm_compute. reflexivity.
  - reflexivity.
  - vm_compute. discriminate.
  - vm_compute. discriminate.
  - vm_compute. discriminate.
  - vm_compute. discriminate.
  - vm_compute. discriminate.
  - vm_compute. discriminate.
  - vm_compute. discriminate.
  - vm_compute. discriminate.
Defined.

(** ** A sensor that does not answer *)

Lemma pdt_page_loop_first_read_fails fuel interrupt entry h ret e h' :
  rmi_read_block PDT_START_SCAN_LOCATION entry sizeof_pdt_entry h
    = (ret, e, h') ->
  ret <> 0 ->
  pdt_page_loop (S fuel) 0 interrupt entry h = (ret, h').
Proof.
  intros E Hret. cbn [pdt_page_loop].
  change (0 <=? RMI4_MAX_PAGE) with true. cbv iota.
  change (u16 (u16 (RMI4_PAGE_SIZE * 0) + PDT_START_SCAN_LOCATION))
    with PDT_START_SCAN_LOCATION.
  change (u16 (u16 (RMI4_PAGE_SIZE * 0) + PDT_END_SCAN_LOCATION))
    with PDT_END_SCAN_LOCATION.
  change (Z.to_nat (PDT_START_SCAN_LOCATION - PDT_END_SCAN_LOCATION + 1))
    with (S 228).
  cbn [pdt_entry_loop].
  change (PDT_START_SCAN_LOCATION >=? PDT_END_SCAN_LOCATION) with true.
  cbv iota. rewrite E.
  now rewrite (proj2 (Z.eqb_neq _ _) Hret).
Qed.

(** X30.  A sensor that never answers: on a ready engine that meets five
    timeouts, [rmi_populate] gives up in the scan with [-EAGAIN] after
    exactly five requests for the first entry of the table on page 0;
    no function is registered and nothing else is asked for. *)
Theorem rmi_populate_silent (h : hid_device) (rest : list (option (list Z))) :
  engine_ready h ->
  inbound h = repeat None 5 ++ rest ->
  exists h',
    rmi_populate h = (- EAGAIN, h') /\
    inbound h' = rest /\
    requested (out_log h') =
      requested (out_log h) ++ repeat PDT_START_SCAN_LOCATION 5 /\
    tables_of h' = tables_of h.
Proof.
  intros Hready Hin.
  destruct (rmi_read_block_times_out PDT_START_SCAN_LOCATION (repeat 0 6)
              sizeof_pdt_entry h (repeat [] 5) rest Hready)
    as (buf' & h' & E & _ & _ & I & Q & _ & B & _).
  - unfold sizeof_pdt_entry, INT_MAX. lia.
  - repeat constructor.
  - repeat constructor.
  - reflexivity.
  - exact Hin.
  - exists h'. unfold rmi_populate, rmi_scan_pdt.
    rewrite (pdt_page_loop_first_read_fails 256 0 (repeat 0 6) h _ _ _ E)
      by (unfold EAGAIN; lia).
    change (negb (- EAGAIN =? 0)) with true. cbv iota.
    auto.
Qed.

Lemma rmi_populate_silent_witness :
  exists h',
    rmi_populate (bench_device 32 8 (repeat None 5)) = (- EAGAIN, h') /\
    inbound h' = [] /\
    requested (out_log h') =
      requested (out_log (bench_device 32 8 (repeat None 5))) ++
      repeat PDT_START_SCAN_LOCATION 5 /\
    tables_of h' = tables_of (bench_device 32 8 (repeat None 5)).
Proof.
  refine (rmi_populate_silent (bench_device 32 8 (repeat None 5)) [] _ _).
  - apply bench_device_ready; lia.
  - reflexivity.
Defined.
